(** * NPS dashboard: the response-classification enrichment pipeline

    A shallow embedding of the server side of the NPS analytics dashboard:
    the progress tracker ([ai-processing-status.ts]), the SQLite adapter
    ([local-db.ts]), the two classification clients ([local-llm.ts] and
    [ollama-llm.ts]) and the enrichment orchestrator with its HTTP trigger
    ([routes.ts]), followed by the properties established about them.

    Conventions.
    - A JavaScript string is a [string], the sequence of its UTF-8 bytes;
      numbers are exact rationals together with [NaN]; a value whose
      static type is erased at run time ([any], the result of
      [JSON.parse]) is a [JSValue].
    - A function that can throw returns a [Completion]; code that reads or
      writes shared objects is a state transformer in the [Eff] monad.
    - Calls that leave the process (the inference endpoint, the wall clock)
      are answered by oracles indexed by the number of calls made so far. *)

From Stdlib Require Import ZArith QArith String Ascii List Bool Lia.
From Stdlib Require Import Sorted Permutation DecimalString.
Import ListNotations.

Open Scope string_scope.

(* ================================================================== *)
(** * Part I.  Definitions                                             *)
(* ================================================================== *)

(** ** JavaScript values and built-ins *)

Module JS.

(** *** Characters and strings *)

Definition dquote : ascii := ascii_of_nat 34.
Definition backslash : ascii := ascii_of_nat 92.
Definition LF : string := String (ascii_of_nat 10) "".
Definition DQ : string := String dquote "".

(** The white space that [String.prototype.trim] removes and that [\s]
    matches: the WhiteSpace and LineTerminator code points of ECMAScript,
    each by its UTF-8 bytes.  These are TAB, LF, VT, FF, CR and SPACE,
    U+00A0, U+1680, U+2000 to U+200A, U+2028, U+2029, U+202F, U+205F,
    U+3000 and U+FEFF. *)
Definition white_space : list (list N) :=
  [[9]; [10]; [11]; [12]; [13]; [32];
   [194; 160];
   [225; 154; 128];
   [226; 128; 128]; [226; 128; 129]; [226; 128; 130]; [226; 128; 131];
   [226; 128; 132]; [226; 128; 133]; [226; 128; 134]; [226; 128; 135];
   [226; 128; 136]; [226; 128; 137]; [226; 128; 138];
   [226; 128; 168]; [226; 128; 169]; [226; 128; 175];
   [226; 129; 159];
   [227; 128; 128];
   [239; 187; 191]]%N.

Fixpoint same_bytes (w : list N) (code : list ascii) : bool :=
  match w, code with
  | [], [] => true
  | n :: w', c :: code' => (n =? N_of_ascii c)%N && same_bytes w' code'
  | _, _ => false
  end.

(** Whether [code] is the bytes of one white space code point. *)
Definition is_white_space (code : list ascii) : bool :=
  existsb (fun w => same_bytes w code) white_space.

(** Removes the white space at the head of [s]; [test] tells whether the
    one, two or three bytes met are a white space code point. *)
Fixpoint trim_head (test : list ascii -> bool) (s : list ascii) : list ascii :=
  match s with
  | a :: r1 =>
      if test [a] then trim_head test r1
      else
        match r1 with
        | b :: r2 =>
            if test [a; b] then trim_head test r2
            else
              match r2 with
              | c :: r3 => if test [a; b; c] then trim_head test r3 else s
              | [] => s
              end
        | [] => s
        end
  | [] => []
  end.

Definition trimStart_chars (s : list ascii) : list ascii :=
  trim_head is_white_space s.

(** From the end the bytes of a code point are met last byte first. *)
Definition trimEnd_chars (s : list ascii) : list ascii :=
  rev (trim_head (fun code => is_white_space (rev code)) (rev s)).

Definition trim (s : string) : string :=
  string_of_list_ascii
    (trimEnd_chars (trimStart_chars (list_ascii_of_string s))).

(** [s.includes(sub)] *)
Fixpoint includes (s sub : string) : bool :=
  prefix sub s ||
  match s with
  | EmptyString => false
  | String _ r => includes r sub
  end.

(** *** Numbers *)

Inductive JSNumber : Type :=
| NaN
| Num (q : Q).

Definition Math_max (a b : JSNumber) : JSNumber :=
  match a, b with
  | Num x, Num y => Num (if Qle_bool x y then y else x)
  | _, _ => NaN
  end.

Definition Math_min (a b : JSNumber) : JSNumber :=
  match a, b with
  | Num x, Num y => Num (if Qle_bool x y then x else y)
  | _, _ => NaN
  end.

(** *** Values *)

#[local] Set Warnings "-register-all".

Inductive JSValue : Type :=
| JUndefined
| JNull
| JBool (b : bool)
| JNumber (n : JSNumber)
| JString (s : string)
| JArray (elements : list JSValue)
| JObject (props : list (string * JSValue)).

(** ToBoolean: [undefined], [null], [false], [0], [NaN] and [''] are falsy. *)
Definition truthy (v : JSValue) : bool :=
  match v with
  | JUndefined | JNull => false
  | JBool b => b
  | JNumber NaN => false
  | JNumber (Num q) => negb (Qeq_bool q 0)
  | JString s => negb (s =? "")
  | JArray _ | JObject _ => true
  end.

(** [a || b] *)
Definition or_else (a b : JSValue) : JSValue := if truthy a then a else b.

(** *** Completions and the effect monad *)

Inductive Completion (A : Type) : Type :=
| Normal (a : A)
| Throw (error : string).
Arguments Normal {A} a.
Arguments Throw {A} error.

Definition Eff (St A : Type) : Type := St -> Completion A * St.

Definition ret {St A} (a : A) : Eff St A := fun s => (Normal a, s).

Definition throw {St A} (error : string) : Eff St A := fun s => (Throw error, s).

Definition bind {St A B} (m : Eff St A) (k : A -> Eff St B) : Eff St B :=
  fun s =>
    match m s with
    | (Normal a, s') => k a s'
    | (Throw e, s') => (Throw e, s')
    end.

(** [try { body } catch (error) { handler }] *)
Definition try_catch {St A} (body : Eff St A) (handler : string -> Eff St A)
  : Eff St A :=
  fun s =>
    match body s with
    | (Normal a, s') => (Normal a, s')
    | (Throw e, s') => handler e s'
    end.

(** A computation that may throw but touches no state. *)
Definition lift_completion {St A} (c : Completion A) : Eff St A :=
  fun s => (c, s).

(** [o.k] on an arbitrary value: reading a property of [undefined] or
    [null] is a TypeError; a missing property reads as [undefined]. *)
Fixpoint lookup (k : string) (props : list (string * JSValue)) : JSValue :=
  match props with
  | [] => JUndefined
  | (k', v) :: r => if k' =? k then v else lookup k r
  end.

Definition get (v : JSValue) (k : string) : Completion JSValue :=
  match v with
  | JUndefined | JNull => Throw "TypeError: Cannot read properties"
  | JObject props => Normal (lookup k props)
  | _ => Normal JUndefined
  end.

(** *** [JSON.parse]

    A recursive-descent reader for the JSON grammar (RFC 8259): objects,
    arrays, strings with escapes, numbers and the three literals.  A
    repeated key keeps its first position and takes the last value, as
    property definition does.  Escapes [\uXXXX] are stored as the UTF-8
    bytes of the code point.  [None] stands for the SyntaxError. *)

Definition json_white_space (c : ascii) : bool :=
  let n := nat_of_ascii c in
  (n =? 32)%nat || (n =? 9)%nat || (n =? 10)%nat || (n =? 13)%nat.

Fixpoint skip_ws (s : list ascii) : list ascii :=
  match s with
  | c :: r => if json_white_space c then skip_ws r else s
  | [] => []
  end.

Definition digit_val (c : ascii) : option Z :=
  let n := nat_of_ascii c in
  if (48 <=? n)%nat && (n <=? 57)%nat then Some (Z.of_nat (n - 48)) else None.

Definition hex_val (c : ascii) : option nat :=
  let n := nat_of_ascii c in
  if (48 <=? n)%nat && (n <=? 57)%nat then Some (n - 48)%nat
  else if (65 <=? n)%nat && (n <=? 70)%nat then Some (n - 55)%nat
  else if (97 <=? n)%nat && (n <=? 102)%nat then Some (n - 87)%nat
  else None.

(** Longest run of decimal digits: its value, its length, the rest. *)
Fixpoint take_digits (s : list ascii) (acc : Z) (cnt : nat)
  : Z * nat * list ascii :=
  match s with
  | c :: r =>
      match digit_val c with
      | Some d => take_digits r (10 * acc + d)%Z (S cnt)
      | None => (acc, cnt, s)
      end
  | [] => (acc, cnt, [])
  end.

Definition decimal (neg : bool) (mantissa exponent : Z) : Q :=
  let m := if neg then (- mantissa)%Z else mantissa in
  Qred (if (0 <=? exponent)%Z
        then Qmake (m * 10 ^ exponent) 1
        else Qmake m (Z.to_pos (10 ^ (- exponent)))).

Definition parse_number (s : list ascii) : option (Q * list ascii) :=
  let '(neg, s1) :=
    match s with
    | c :: r => if (c =? "-")%char then (true, r) else (false, s)
    | [] => (false, s)
    end in
  let '(ip, n, s2) := take_digits s1 0%Z 0%nat in
  let leading_zero :=
    match s1 with
    | c :: _ => (c =? "0")%char && (1 <? n)%nat
    | [] => false
    end in
  if (n =? 0)%nat || leading_zero then None else
  let frac :=
    match s2 with
    | c :: r =>
        if (c =? ".")%char
        then let '(fp, fn, s3) := take_digits r 0%Z 0%nat in
             if (fn =? 0)%nat then None else Some (fp, fn, s3)
        else Some (0%Z, 0%nat, s2)
    | [] => Some (0%Z, 0%nat, s2)
    end in
  match frac with
  | None => None
  | Some (fp, fn, s3) =>
      let mantissa := (ip * 10 ^ Z.of_nat fn + fp)%Z in
      let expo :=
        match s3 with
        | c :: r =>
            if (c =? "e")%char || (c =? "E")%char then
              let '(eneg, r1) :=
                match r with
                | sg :: r' =>
                    if (sg =? "-")%char then (true, r')
                    else if (sg =? "+")%char then (false, r')
                    else (false, r)
                | [] => (false, r)
                end in
              let '(ev, en, s4) := take_digits r1 0%Z 0%nat in
              if (en =? 0)%nat then None
              else Some (if eneg then (- ev)%Z else ev, s4)
            else Some (0%Z, s3)
        | [] => Some (0%Z, s3)
        end in
      match expo with
      | None => None
      | Some (ev, s4) => Some (decimal neg mantissa (ev - Z.of_nat fn), s4)
      end
  end.

(** UTF-8 bytes of a code point below 65536. *)
Definition utf8 (cp : nat) : list ascii :=
  if (cp <? 128)%nat then [ascii_of_nat cp]
  else if (cp <? 2048)%nat then
    [ascii_of_nat (192 + cp / 64); ascii_of_nat (128 + cp mod 64)]
  else
    [ascii_of_nat (224 + cp / 4096);
     ascii_of_nat (128 + (cp / 64) mod 64);
     ascii_of_nat (128 + cp mod 64)].

Definition unescape (e : ascii) : option ascii :=
  if (e =? dquote)%char then Some dquote
  else if (e =? backslash)%char then Some backslash
  else if (e =? "/")%char then Some "/"%char
  else if (e =? "b")%char then Some (ascii_of_nat 8)
  else if (e =? "f")%char then Some (ascii_of_nat 12)
  else if (e =? "n")%char then Some (ascii_of_nat 10)
  else if (e =? "r")%char then Some (ascii_of_nat 13)
  else if (e =? "t")%char then Some (ascii_of_nat 9)
  else None.

(** The characters of a string literal after its opening quote. *)
Fixpoint parse_string_body (s : list ascii) (acc : list ascii)
  : option (string * list ascii) :=
  match s with
  | [] => None
  | c :: r =>
      if (c =? dquote)%char then Some (string_of_list_ascii (rev acc), r)
      else if (c =? backslash)%char then
        match r with
        | [] => None
        | e :: r' =>
            if (e =? "u")%char then
              match r' with
              | h1 :: h2 :: h3 :: h4 :: r'' =>
                  match hex_val h1, hex_val h2, hex_val h3, hex_val h4 with
                  | Some a, Some b, Some c', Some d =>
                      parse_string_body r''
                        (rev (utf8 (((a * 16 + b) * 16 + c') * 16 + d)) ++ acc)
                  | _, _, _, _ => None
                  end
              | _ => None
              end
            else
              match unescape e with
              | Some x => parse_string_body r' (x :: acc)
              | None => None
              end
        end
      else if (nat_of_ascii c <? 32)%nat then None
      else parse_string_body r (c :: acc)
  end.

Fixpoint strip_prefix (p s : list ascii) : option (list ascii) :=
  match p, s with
  | [], _ => Some s
  | x :: p', y :: s' => if (x =? y)%char then strip_prefix p' s' else None
  | _ :: _, [] => None
  end.

Fixpoint set_prop (k : string) (v : JSValue) (props : list (string * JSValue))
  : list (string * JSValue) :=
  match props with
  | [] => [(k, v)]
  | (k', v') :: r =>
      if k' =? k then (k', v) :: r else (k', v') :: set_prop k v r
  end.

Definition parse_literal (s : list ascii) : option (JSValue * list ascii) :=
  match strip_prefix (list_ascii_of_string "true") s with
  | Some r => Some (JBool true, r)
  | None =>
  match strip_prefix (list_ascii_of_string "false") s with
  | Some r => Some (JBool false, r)
  | None =>
  match strip_prefix (list_ascii_of_string "null") s with
  | Some r => Some (JNull, r)
  | None =>
  match parse_number s with
  | Some (q, r) => Some (JNumber (Num q), r)
  | None => None
  end end end end.

Fixpoint parse_value (fuel : nat) (s : list ascii) {struct fuel}
  : option (JSValue * list ascii) :=
  match fuel with
  | O => None
  | S fuel' =>
      match skip_ws s with
      | [] => None
      | c :: r =>
          if (c =? "{")%char then
            match skip_ws r with
            | c2 :: r2 =>
                if (c2 =? "}")%char then Some (JObject [], r2)
                else parse_members fuel' r []
            | [] => None
            end
          else if (c =? "[")%char then
            match skip_ws r with
            | c2 :: r2 =>
                if (c2 =? "]")%char then Some (JArray [], r2)
                else parse_elements fuel' r []
            | [] => None
            end
          else if (c =? dquote)%char then
            match parse_string_body r [] with
            | Some (str, r') => Some (JString str, r')
            | None => None
            end
          else parse_literal (c :: r)
      end
  end

with parse_members (fuel : nat) (s : list ascii)
       (acc : list (string * JSValue)) {struct fuel}
  : option (JSValue * list ascii) :=
  match fuel with
  | O => None
  | S fuel' =>
      match skip_ws s with
      | [] => None
      | c :: r =>
          if (c =? dquote)%char then
            match parse_string_body r [] with
            | None => None
            | Some (k, r1) =>
                match skip_ws r1 with
                | [] => None
                | c1 :: r2 =>
                    if (c1 =? ":")%char then
                      match parse_value fuel' r2 with
                      | None => None
                      | Some (v, r3) =>
                          match skip_ws r3 with
                          | [] => None
                          | c3 :: r4 =>
                              if (c3 =? ",")%char
                              then parse_members fuel' r4 (set_prop k v acc)
                              else if (c3 =? "}")%char
                              then Some (JObject (set_prop k v acc), r4)
                              else None
                          end
                      end
                    else None
                end
            end
          else None
      end
  end

with parse_elements (fuel : nat) (s : list ascii) (acc : list JSValue)
       {struct fuel} : option (JSValue * list ascii) :=
  match fuel with
  | O => None
  | S fuel' =>
      match parse_value fuel' s with
      | None => None
      | Some (v, r) =>
          match skip_ws r with
          | [] => None
          | c :: r' =>
              if (c =? ",")%char then parse_elements fuel' r' (acc ++ [v])
              else if (c =? "]")%char then Some (JArray (acc ++ [v]), r')
              else None
          end
      end
  end.

Definition JSON_parse (text : string) : Completion JSValue :=
  let chars := list_ascii_of_string text in
  match parse_value (2 * List.length chars + 2) chars with
  | Some (v, rest) =>
      match skip_ws rest with
      | [] => Normal v
      | _ :: _ => Throw "SyntaxError: Unexpected non-whitespace character"
      end
  | None => Throw "SyntaxError: Unexpected token"
  end.

(** *** The two regular expressions of the sentiment parsers *)

(** Suffix of [s] that starts at the first occurrence of [c]. *)
Fixpoint from_first (c : ascii) (s : list ascii) : option (list ascii) :=
  match s with
  | [] => None
  | x :: r => if (x =? c)%char then Some s else from_first c r
  end.

(** Prefix of [s] that ends with the last occurrence of [c]. *)
Fixpoint upto_last (c : ascii) (s : list ascii) : option (list ascii) :=
  match s with
  | [] => None
  | x :: r =>
      match upto_last c r with
      | Some p => Some (x :: p)
      | None => if (x =? c)%char then Some [x] else None
      end
  end.

(** Prefix of [s] that ends with the first occurrence of [c]. *)
Fixpoint upto_first (c : ascii) (s : list ascii) : option (list ascii) :=
  match s with
  | [] => None
  | x :: r =>
      if (x =? c)%char then Some [x]
      else match upto_first c r with
           | Some p => Some (x :: p)
           | None => None
           end
  end.

(** [s.match(/\{[\s\S]*\}/)]: greedy, from the first opening brace to
    the last closing brace after it; [None] is the [null] result. *)
Definition match_braces_greedy (s : string) : option string :=
  match from_first "{" (list_ascii_of_string s) with
  | Some (open :: r) =>
      match upto_last "}" r with
      | Some body => Some (string_of_list_ascii (open :: body))
      | None => None
      end
  | _ => None
  end.

(** [s.match(/\{[\s\S]*?\}/)]: lazy, from the first opening brace to
    the first closing brace after it. *)
Definition match_braces_lazy (s : string) : option string :=
  match from_first "{" (list_ascii_of_string s) with
  | Some (open :: r) =>
      match upto_first "}" r with
      | Some body => Some (string_of_list_ascii (open :: body))
      | None => None
      end
  | _ => None
  end.

End JS.

Export JS.

Notation "x <- m ;; k" := (bind m (fun x => k))
  (at level 61, m at next level, right associativity).
Notation "m ;;; k" := (bind m (fun _ => k))
  (at level 61, right associativity).


(** [new Date()]: an instant, in milliseconds since the epoch. *)
Definition Date : Type := nat.

(* ------------------------------------------------------------------ *)
(** ** The progress tracker ([ai-processing-status.ts])                *)
(* ------------------------------------------------------------------ *)

Module AIProcessingTracker.

Record ProcessingStatus : Type := {
  total : Z;
  processed : Z;
  inProgress : bool;
  startTime : option Date;
  lastUpdate : option Date
}.

(** The field initialiser of the class. *)
Definition initial : ProcessingStatus :=
  {| total := 0; processed := 0; inProgress := false;
     startTime := None; lastUpdate := None |}.

(** Each method takes the instants its [new Date()] expressions read. *)
Definition startProcessing (totalCount : Z) (now1 now2 : Date)
    (status : ProcessingStatus) : ProcessingStatus :=
  {| total := totalCount; processed := 0; inProgress := true;
     startTime := Some now1; lastUpdate := Some now2 |}.

Definition incrementProcessed (now : Date) (status : ProcessingStatus)
  : ProcessingStatus :=
  {| total := total status; processed := processed status + 1;
     inProgress := inProgress status; startTime := startTime status;
     lastUpdate := Some now |}.

Definition completeProcessing (now : Date) (status : ProcessingStatus)
  : ProcessingStatus :=
  {| total := total status; processed := processed status;
     inProgress := false; startTime := startTime status;
     lastUpdate := Some now |}.

Definition getStatus (status : ProcessingStatus) : ProcessingStatus := status.

Definition isProcessing (status : ProcessingStatus) : bool := inProgress status.

(** A client of the tracker is a sequence of method calls. *)
Inductive Call : Type :=
| StartProcessing (totalCount : Z) (now1 now2 : Date)
| IncrementProcessed (now : Date)
| CompleteProcessing (now : Date).

Definition call (status : ProcessingStatus) (c : Call) : ProcessingStatus :=
  match c with
  | StartProcessing n t1 t2 => startProcessing n t1 t2 status
  | IncrementProcessed t => incrementProcessed t status
  | CompleteProcessing t => completeProcessing t status
  end.

Definition run (calls : list Call) : ProcessingStatus :=
  fold_left call calls initial.

(** What a call history says, read off the calls alone (latest call
    first): the batch size of the latest [startProcessing], the number of
    [incrementProcessed] calls since, and whether a [startProcessing] is
    still waiting for its [completeProcessing]. *)
Fixpoint batch_size (history : list Call) : Z :=
  match history with
  | [] => 0
  | StartProcessing n _ _ :: _ => n
  | _ :: earlier => batch_size earlier
  end.

Fixpoint increments_since_start (history : list Call) : Z :=
  match history with
  | [] => 0
  | StartProcessing _ _ _ :: _ => 0
  | IncrementProcessed _ :: earlier => increments_since_start earlier + 1
  | CompleteProcessing _ :: earlier => increments_since_start earlier
  end.

Fixpoint run_open (history : list Call) : bool :=
  match history with
  | [] => false
  | StartProcessing _ _ _ :: _ => true
  | CompleteProcessing _ :: _ => false
  | IncrementProcessed _ :: earlier => run_open earlier
  end.

End AIProcessingTracker.

(* ------------------------------------------------------------------ *)
(** ** The SQLite adapter ([local-db.ts])                              *)
(* ------------------------------------------------------------------ *)

Module LocalDB.

(** A row of table [nps_responses]; [None] is SQL NULL. *)
Module Row.
Record t : Type := {
  id : Z;
  rating : Z;
  comment : option string;
  language : option string;
  date : string;
  customer_id : option string;
  visitor_id : option string;
  platform : option string;
  sentiment : option string;
  sentiment_confidence : option Q;
  created_at : Date;
  updated_at : Date
}.
End Row.

(** A row of table [topic_mentions]. *)
Module Mention.
Record t : Type := {
  id : Z;
  response_id : Z;
  topic : string;
  confidence : JSNumber;
  created_at : Date
}.
End Mention.

(** The argument object of [insertResponse]; [None] is an absent
    (undefined) property. *)
Module Data.
Record t : Type := {
  rating : Z;
  comment : option string;
  language : option string;
  date : string;
  customer_id : option string;
  visitor_id : option string;
  platform : option string;
  sentiment : option string;
  sentiment_confidence : option JSNumber
}.
End Data.

(** The database behind the module-level handle [db]: the two tables, the
    AUTOINCREMENT counters, and whether the connection is open. *)
Record Database : Type := {
  nps_responses : list Row.t;
  topic_mentions : list Mention.t;
  seq_responses : Z;
  seq_mentions : Z;
  is_open : bool
}.

Definition empty : Database :=
  {| nps_responses := []; topic_mentions := [];
     seq_responses := 0; seq_mentions := 0; is_open := true |}.

Definition not_open : string := "TypeError: The database connection is not open".

(** [data.field || null] on an optional string and an optional number. *)
Definition string_or_null (v : option string) : option string :=
  match v with
  | Some s => if s =? "" then None else Some s
  | None => None
  end.

Definition number_or_null (v : option JSNumber) : option Q :=
  match v with
  | Some (Num q) => if Qeq_bool q 0 then None else Some q
  | Some NaN => None
  | None => None
  end.

Definition clearAll : Eff Database unit := fun db =>
  if is_open db then
    (Normal tt,
     {| nps_responses := []; topic_mentions := [];
        seq_responses := seq_responses db; seq_mentions := seq_mentions db;
        is_open := true |})
  else (Throw not_open, db).

(** [insertResponse(data)]; the result is [lastInsertRowid].  [now] is
    the CURRENT_TIMESTAMP default of the two timestamp columns. *)
Definition insertResponse (now : Date) (data : Data.t) : Eff Database Z :=
  fun db =>
    if is_open db then
      let rowid := (seq_responses db + 1)%Z in
      let row :=
        {| Row.id := rowid;
           Row.rating := Data.rating data;
           Row.comment := string_or_null (Data.comment data);
           Row.language := string_or_null (Data.language data);
           Row.date := Data.date data;
           Row.customer_id := string_or_null (Data.customer_id data);
           Row.visitor_id := string_or_null (Data.visitor_id data);
           Row.platform := string_or_null (Data.platform data);
           Row.sentiment := string_or_null (Data.sentiment data);
           Row.sentiment_confidence :=
             number_or_null (Data.sentiment_confidence data);
           Row.created_at := now;
           Row.updated_at := now |} in
      (Normal rowid,
       {| nps_responses := nps_responses db ++ [row];
          topic_mentions := topic_mentions db;
          seq_responses := rowid; seq_mentions := seq_mentions db;
          is_open := true |})
    else (Throw not_open, db).

(** [ORDER BY r.date DESC] over the byte order of the date strings. *)
Fixpoint insert_by_date (r : Row.t) (sorted : list Row.t) : list Row.t :=
  match sorted with
  | [] => [r]
  | x :: rest =>
      if String.leb (Row.date x) (Row.date r) then r :: sorted
      else x :: insert_by_date r rest
  end.

Definition order_by_date_desc (rows : list Row.t) : list Row.t :=
  fold_right insert_by_date [] rows.

(** [getResponses({})]: with no filter set the query keeps every row of
    [nps_responses] once (LEFT JOIN, GROUP BY r.id).  The two GROUP_CONCAT
    columns are not carried: nothing below reads them. *)
Definition getResponses : Eff Database (list Row.t) := fun db =>
  if is_open db then (Normal (order_by_date_desc (nps_responses db)), db)
  else (Throw not_open, db).

Definition close : Eff Database unit := fun db =>
  (Normal tt,
   {| nps_responses := nps_responses db; topic_mentions := topic_mentions db;
      seq_responses := seq_responses db; seq_mentions := seq_mentions db;
      is_open := false |}).

(** The class declares [clearAll], [insertResponse], [insertTopicMentions],
    [getResponses], [getNPSStats], [getSentimentDistribution],
    [getTopicDistribution], [logSync], [getSyncHistory], [backupToCSV] and
    [close].  It declares no [updateResponse]: the expression
    [LocalDB.updateResponse] evaluates to [undefined], and calling it
    raises a TypeError before any statement is prepared. *)
Definition updateResponse {Id Updates : Type} (_ : Id) (_ : Updates)
  : Eff Database unit :=
  throw "TypeError: LocalDB.updateResponse is not a function".

(** A history of calls on the database, and the [lastInsertRowid] values
    its inserts returned, in order. *)
Inductive Operation : Type :=
| Insert (now : Date) (data : Data.t)
| Clear
| Close.

Definition apply (state : Database * list Z) (op : Operation)
  : Database * list Z :=
  match op with
  | Insert now data =>
      match insertResponse now data (fst state) with
      | (Normal rowid, db) => (db, (snd state ++ [rowid])%list)
      | (Throw _, db) => (db, snd state)
      end
  | Clear => (snd (clearAll (fst state)), snd state)
  | Close => (snd (close (fst state)), snd state)
  end.

Definition after (db : Database) (history : list Operation)
  : Database * list Z :=
  fold_left apply history (db, []).

(** The segment counts of [getNPSStats]. *)
Definition promoters (rows : list Row.t) : nat :=
  List.length (filter (fun r => (Row.rating r >=? 9)%Z) rows).

Definition passives (rows : list Row.t) : nat :=
  List.length
    (filter (fun r => (Row.rating r >=? 7)%Z && (Row.rating r <=? 8)%Z) rows).

Definition detractors (rows : list Row.t) : nat :=
  List.length (filter (fun r => (Row.rating r <=? 6)%Z) rows).

End LocalDB.

(* ------------------------------------------------------------------ *)
(** ** Built-ins left to the host, and the inference endpoint          *)
(* ------------------------------------------------------------------ *)

(** Conversions whose full definition lives in the language standard:
    case mapping, the numeric value of a string, and the numeric value of
    an array or object (through its primitive string, which can throw). *)
Class Runtime : Type := {
  toLowerCase : string -> string;
  StringToNumber : string -> JSNumber;
  ObjectToNumber : JSValue -> Completion JSNumber
}.

(** ToNumber, as applied by [Math.max] and [Math.min] to an argument. *)
Definition ToNumber {rt : Runtime} (v : JSValue) : Completion JSNumber :=
  match v with
  | JUndefined => Normal NaN
  | JNull => Normal (Num 0)
  | JBool b => Normal (Num (if b then 1 else 0))
  | JNumber n => Normal n
  | JString s => Normal (StringToNumber s)
  | JArray _ | JObject _ => ObjectToNumber v
  end.

(** The inference endpoint: the outcome of the [n]-th POST to
    [/api/generate] with a given prompt is either the [response] text of
    the reply, or a failure (unreachable, non-2xx status, malformed body). *)
Definition Endpoint : Type := nat -> string -> option string.

(* ------------------------------------------------------------------ *)
(** ** The classification client of [local-llm.ts]                     *)
(* ------------------------------------------------------------------ *)

Module LocalLLM.

Record SentimentResult : Type := {
  sentiment : JSValue;
  confidence : JSNumber;
  explanation : JSValue
}.

(** An entry of [TopicResult.topics]. *)
Module Topic.
Record t : Type := {
  topic : JSValue;
  confidence : JSNumber
}.
End Topic.

Record TopicResult : Type := {
  topics : list Topic.t
}.

(** An element of the argument of [analyzeBatch]. *)
Module Item.
Record t : Type := {
  id : string;
  comment : string;
  language : string
}.
End Item.

Section Client.

Context {rt : Runtime}.
Variable endpoint : Endpoint.

(** [generate(prompt)]; the state is the number of requests sent. *)
Definition generate (prompt : string) : Eff nat string := fun sent =>
  match endpoint sent prompt with
  | Some response => (Normal (trim response), S sent)
  | None => (Throw "Error: Ollama API error", S sent)
  end.

Definition languageNames (language : string) : option string :=
  if language =? "de" then Some "German"
  else if language =? "fr" then Some "French"
  else if language =? "it" then Some "Italian"
  else if language =? "en" then Some "English"
  else None.

Definition sentimentPrompt (langName comment : string) : string :=
  "Analyze the sentiment of this " ++ langName
    ++ " customer feedback about a banking app." ++ LF
  ++ LF
  ++ "Comment: " ++ DQ ++ comment ++ DQ ++ LF
  ++ LF
  ++ "Respond with ONLY a JSON object in this exact format:" ++ LF
  ++ "{" ++ LF
  ++ "  " ++ DQ ++ "sentiment" ++ DQ ++ ": "
         ++ DQ ++ "positive|negative|neutral" ++ DQ ++ "," ++ LF
  ++ "  " ++ DQ ++ "confidence" ++ DQ ++ ": 0.85," ++ LF
  ++ "  " ++ DQ ++ "explanation" ++ DQ ++ ": "
         ++ DQ ++ "Brief reason" ++ DQ ++ LF
  ++ "}" ++ LF
  ++ LF
  ++ "Consider banking context: complaints about fees, app crashes, "
  ++ "customer service issues are negative. Praise for features, "
  ++ "ease of use, good support are positive.".

Definition positiveWords : list string :=
  ["good"; "great"; "excellent"; "love"; "amazing"; "perfect"; "easy";
   "fast"; "helpful"].

Definition negativeWords : list string :=
  ["bad"; "terrible"; "awful"; "hate"; "slow"; "crash"; "error";
   "problem"; "issue"; "expensive"].

(** The fallback branch: simple keyword analysis of the comment. *)
Definition keywordAnalysis (comment : string) : SentimentResult :=
  let lowerComment := toLowerCase comment in
  let positiveCount :=
    List.length (filter (fun word => includes lowerComment word) positiveWords) in
  let negativeCount :=
    List.length (filter (fun word => includes lowerComment word) negativeWords) in
  if (negativeCount <? positiveCount)%nat then
    {| sentiment := JString "positive"; confidence := Num (3 # 5);
       explanation := JUndefined |}
  else if (positiveCount <? negativeCount)%nat then
    {| sentiment := JString "negative"; confidence := Num (3 # 5);
       explanation := JUndefined |}
  else
    {| sentiment := JString "neutral"; confidence := Num (1 # 2);
       explanation := JUndefined |}.

Definition analyzeSentiment (comment language : string)
  : Eff nat SentimentResult :=
  if (comment =? "") || (String.length (trim comment) =? 0)%nat then
    ret {| sentiment := JString "neutral"; confidence := Num 0;
           explanation := JString "Empty comment" |}
  else
    let langName :=
      match languageNames language with
      | Some name => name
      | None => "English"
      end in
    let prompt := sentimentPrompt langName comment in
    try_catch
      (response <- generate prompt ;;
       match match_braces_greedy response with
       | Some jsonMatch =>
           result <- lift_completion (JSON_parse jsonMatch) ;;
           s <- lift_completion (get result "sentiment") ;;
           c <- lift_completion (get result "confidence") ;;
           n <- lift_completion (ToNumber (or_else c (JNumber (Num (1 # 2))))) ;;
           e <- lift_completion (get result "explanation") ;;
           ret {| sentiment := s;
                  confidence := Math_min (Math_max n (Num 0)) (Num 1);
                  explanation := e |}
       | None => ret (keywordAnalysis comment)
       end)
      (fun error =>
         ret {| sentiment := JString "neutral"; confidence := Num (3 # 10);
                explanation := JUndefined |}).

Definition topicsPrompt (langName comment : string) : string :=
  "Extract banking app topics from this " ++ langName
    ++ " customer feedback." ++ LF
  ++ LF
  ++ "Comment: " ++ DQ ++ comment ++ DQ ++ LF
  ++ LF
  ++ "Available topics:" ++ LF
  ++ "- Ease of Use: App navigation, user interface, simplicity" ++ LF
  ++ "- All-in-One Features: Comprehensive banking features" ++ LF
  ++ "- High Trading Fees: Complaints about trading costs" ++ LF
  ++ "- Customer Support: Help desk, support quality" ++ LF
  ++ "- Interest Rate Issues: Problems with rates or calculations" ++ LF
  ++ "- Limited Investments: Lack of investment options" ++ LF
  ++ "- Account Problems: Login, access, account issues" ++ LF
  ++ "- App Performance: Speed, crashes, technical issues" ++ LF
  ++ LF
  ++ "Respond with ONLY a JSON object:" ++ LF
  ++ "{" ++ LF
  ++ "  " ++ DQ ++ "topics" ++ DQ ++ ": [" ++ LF
  ++ "    {" ++ DQ ++ "topic" ++ DQ ++ ": " ++ DQ ++ "App Performance" ++ DQ
         ++ ", " ++ DQ ++ "confidence" ++ DQ ++ ": 0.9}," ++ LF
  ++ "    {" ++ DQ ++ "topic" ++ DQ ++ ": " ++ DQ ++ "Customer Support" ++ DQ
         ++ ", " ++ DQ ++ "confidence" ++ DQ ++ ": 0.7}" ++ LF
  ++ "  ]" ++ LF
  ++ "}" ++ LF
  ++ LF
  ++ "Only include topics that are clearly mentioned. Max 3 topics.".

(** [topicKeywords], in the order [Object.entries] visits it. *)
Definition topicKeywords : list (string * list string) :=
  [("App Performance",
    ["slow"; "crash"; "bug"; "loading"; "freeze"; "error"; "glitch"]);
   ("High Trading Fees", ["fee"; "cost"; "expensive"; "charge"; "price"]);
   ("Customer Support", ["support"; "help"; "service"; "contact"; "assistance"]);
   ("Ease of Use", ["easy"; "simple"; "intuitive"; "user-friendly"; "navigation"]);
   ("Account Problems", ["login"; "account"; "access"; "password"; "locked"])].

(** One turn of the fallback loop: the topic is pushed when a keyword
    matches, with confidence [Math.min(matches * 0.3, 0.8)]. *)
Definition keywordTopic (lowerComment : string)
    (entry : string * list string) : list Topic.t :=
  let matches :=
    List.length (filter (fun keyword => includes lowerComment keyword) (snd entry)) in
  if (0 <? matches)%nat then
    [{| Topic.topic := JString (fst entry);
        Topic.confidence :=
          Math_min (Num (inject_Z (Z.of_nat matches) * (3 # 10))) (Num (4 # 5)) |}]
  else [].

(** The fallback branch of [extractTopics]: keyword-based extraction,
    [topics.slice(0, 3)]. *)
Definition keywordTopics (comment : string) : list Topic.t :=
  let lowerComment := toLowerCase comment in
  firstn 3 (flat_map (keywordTopic lowerComment) topicKeywords).

(** The callback of [(result.topics || []).map(...)]. *)
Definition topicOf (t : JSValue) : Completion Topic.t :=
  match get t "topic" with
  | Throw e => Throw e
  | Normal name =>
      match get t "confidence" with
      | Throw e => Throw e
      | Normal c =>
          match ToNumber (or_else c (JNumber (Num (1 # 2)))) with
          | Throw e => Throw e
          | Normal n =>
              Normal {| Topic.topic := name;
                        Topic.confidence := Math_min (Math_max n (Num 0)) (Num 1) |}
          end
      end
  end.

Fixpoint mapTopics (l : list JSValue) : Completion (list Topic.t) :=
  match l with
  | [] => Normal []
  | t :: rest =>
      match topicOf t with
      | Throw e => Throw e
      | Normal x =>
          match mapTopics rest with
          | Throw e => Throw e
          | Normal xs => Normal (x :: xs)
          end
      end
  end.

(** [(result.topics || []).map(...)]: only an array has [map]. *)
Definition parsedTopics (result : JSValue) : Completion (list Topic.t) :=
  match get result "topics" with
  | Throw e => Throw e
  | Normal t =>
      match or_else t (JArray []) with
      | JArray l => mapTopics l
      | _ => Throw "TypeError: (result.topics || []).map is not a function"
      end
  end.

Definition extractTopics (comment language : string) : Eff nat TopicResult :=
  if (comment =? "") || (String.length (trim comment) =? 0)%nat then
    ret {| topics := [] |}
  else
    let langName :=
      match languageNames language with
      | Some name => name
      | None => "English"
      end in
    let prompt := topicsPrompt langName comment in
    try_catch
      (response <- generate prompt ;;
       match match_braces_greedy response with
       | Some jsonMatch =>
           result <- lift_completion (JSON_parse jsonMatch) ;;
           l <- lift_completion (parsedTopics result) ;;
           ret {| topics := l |}
       | None => ret {| topics := keywordTopics comment |}
       end)
      (fun error => ret {| topics := [] |}).

(** [analyzeComment]: [Promise.all] starts the sentiment analysis, then
    the topic extraction; each sends its request before the first reply
    is awaited, so the sentiment request is the earlier one. *)
Definition analyzeComment (comment language : string)
  : Eff nat (SentimentResult * TopicResult) :=
  try_catch
    (sentiment <- analyzeSentiment comment language ;;
     topics <- extractTopics comment language ;;
     ret (sentiment, topics))
    (fun error =>
       ret ({| sentiment := JString "neutral"; confidence := Num (3 # 10);
               explanation := JUndefined |},
            {| topics := [] |})).

(** [analyzeBatch(comments, onProgress)].  The state holds the number of
    requests sent, the state [P] of the caller's callback, and the
    [results] array, which the loop body pushes to before the callback
    runs. *)
Section Batch.

Variable P : Type.
Variable onProgress : option (nat -> nat -> Eff P unit).

Record BatchState : Type := {
  requests : nat;
  progress : P;
  results : list (string * (SentimentResult * TopicResult))
}.

Definition in_requests {A} (m : Eff nat A) : Eff BatchState A := fun st =>
  let '(c, n) := m (requests st) in
  (c, {| requests := n; progress := progress st; results := results st |}).

Definition in_progress {A} (m : Eff P A) : Eff BatchState A := fun st =>
  let '(c, p) := m (progress st) in
  (c, {| requests := requests st; progress := p; results := results st |}).

Definition push (r : string * (SentimentResult * TopicResult))
  : Eff BatchState unit := fun st =>
  (Normal tt,
   {| requests := requests st; progress := progress st;
      results := results st ++ [r] |}).

(** The loop body for the element at index [i] of [length] elements. *)
Definition analyzeItem (i length : nat) (comment : Item.t) : Eff BatchState unit :=
  try_catch
    (analysis <-
       in_requests (analyzeComment (Item.comment comment) (Item.language comment)) ;;
     push (Item.id comment, analysis) ;;;
     match onProgress with
     | Some callback => in_progress (callback (i + 1)%nat length)
     | None => ret tt
     end)
    (fun error =>
       push (Item.id comment,
             ({| sentiment := JString "neutral"; confidence := Num (3 # 10);
                 explanation := JUndefined |},
              {| topics := [] |}))).

Fixpoint analyzeFrom (i length : nat) (comments : list Item.t)
  : Eff BatchState unit :=
  match comments with
  | [] => ret tt
  | comment :: rest => analyzeItem i length comment ;;; analyzeFrom (S i) length rest
  end.

Definition analyzeBatch (comments : list Item.t)
  : Eff BatchState (list (string * (SentimentResult * TopicResult))) :=
  (fun st =>
     (Normal tt,
      {| requests := requests st; progress := progress st; results := [] |})) ;;;
  analyzeFrom 0 (List.length comments) comments ;;;
  (fun st => (Normal (results st), st)).

End Batch.

End Client.

Arguments Build_BatchState {P} requests progress results.
Arguments requests {P} b.
Arguments progress {P} b.
Arguments results {P} b.

End LocalLLM.

(* ------------------------------------------------------------------ *)
(** ** The classification client of [ollama-llm.ts]                    *)
(* ------------------------------------------------------------------ *)

Module OllamaLLM.

Record SentimentResult : Type := {
  sentiment : JSValue;
  explanation : JSValue
}.

Record TopicResult : Type := {
  topics : JSValue
}.

Section Client.

Variable endpoint : Endpoint.

Definition generate (prompt : string) : Eff nat string := fun sent =>
  match endpoint sent prompt with
  | Some response => (Normal (trim response), S sent)
  | None => (Throw "Error: Ollama API error", S sent)
  end.

(** [", "]-separated quoted phrases of an example line. *)
Definition phrases (l : list string) : string :=
  String.concat ", " (map (fun p => DQ ++ p ++ DQ) l).

Definition examples (positive negative neutral : list string) : string :=
  "Positive: " ++ phrases positive ++ LF
  ++ "Negative: " ++ phrases negative ++ LF
  ++ "Neutral: " ++ phrases neutral.

(** [languageInstructions]: the language name and its example phrases. *)
Definition sentimentInstructions (language : string) : option (string * string) :=
  if language =? "de" then
    Some ("German",
          examples
            ["Einfach zu bedienen"; "Schnelle Überweisungen"; "Guter Service"]
            ["Hohe Gebühren"; "App stürzt ab"; "Schlechter Support"; "Zu teuer"]
            ["Funktioniert"; "Durchschnittlich"; "Könnte besser sein"])
  else if language =? "fr" then
    Some ("French",
          examples
            ["Facile à utiliser"; "Transferts rapides"; "Bon service"]
            ["Frais élevés"; "L'app plante"; "Mauvais support"; "Trop cher"]
            ["Ça marche"; "Moyen"; "Pourrait être mieux"])
  else if language =? "it" then
    Some ("Italian",
          examples
            ["Facile da usare"; "Trasferimenti veloci"; "Buon servizio"]
            ["Commissioni alte"; "App si blocca"; "Supporto scarso"; "Troppo caro"]
            ["Funziona"; "Nella media"; "Potrebbe essere meglio"])
  else if language =? "en" then
    Some ("English",
          examples
            ["Easy to use"; "Fast transfers"; "Great service"]
            ["High fees"; "App crashes"; "Poor support"; "Too expensive"; "Costly"]
            ["Works fine"; "Average"; "Could be better"])
  else None.

Definition english : string * string :=
  ("English",
   examples
     ["Easy to use"; "Fast transfers"; "Great service"]
     ["High fees"; "App crashes"; "Poor support"; "Too expensive"; "Costly"]
     ["Works fine"; "Average"; "Could be better"]).

Definition sentimentPrompt (lang : string * string) (comment : string) : string :=
  "You are a Swiss banking app sentiment analyzer. Analyze this "
    ++ fst lang ++ " customer feedback." ++ LF
  ++ LF
  ++ "Customer Comment: " ++ DQ ++ comment ++ DQ ++ LF
  ++ LF
  ++ "Context: Swiss banking mobile app (payments, trading, accounts, investments)" ++ LF
  ++ LF
  ++ snd lang ++ LF
  ++ LF
  ++ "Banking-specific sentiment rules:" ++ LF
  ++ "- Positive: Praise for features, security, ease of use, fast transactions, good customer service" ++ LF
  ++ "- Negative: Complaints about fees, technical issues, crashes, slow performance, poor customer service, security concerns" ++ LF
  ++ "- Neutral: Factual statements, feature requests, mixed feedback, neutral observations" ++ LF
  ++ LF
  ++ "Respond with ONLY this JSON format:" ++ LF
  ++ "{" ++ LF
  ++ "  " ++ DQ ++ "sentiment" ++ DQ ++ ": "
         ++ DQ ++ "positive|negative|neutral" ++ DQ ++ "," ++ LF
  ++ "  " ++ DQ ++ "explanation" ++ DQ ++ ": "
         ++ DQ ++ "Brief explanation in English" ++ DQ ++ LF
  ++ "}" ++ LF
  ++ LF
  ++ "JSON Response:".

Definition analyzeSentiment (comment language : string)
  : Eff nat SentimentResult :=
  if (comment =? "") || (String.length (trim comment) =? 0)%nat then
    ret {| sentiment := JString "neutral";
           explanation := JString "Empty comment" |}
  else
    let lang :=
      match sentimentInstructions language with
      | Some l => l
      | None => english
      end in
    let prompt := sentimentPrompt lang comment in
    try_catch
      (response <- generate prompt ;;
       match match_braces_lazy response with
       | Some jsonMatch =>
           parsed <- lift_completion (JSON_parse jsonMatch) ;;
           s <- lift_completion (get parsed "sentiment") ;;
           e <- lift_completion (get parsed "explanation") ;;
           ret {| sentiment := or_else s (JString "neutral");
                  explanation := or_else e (JString "Analysis completed") |}
       | None =>
           ret {| sentiment := JString "neutral";
                  explanation := JString "Could not parse response" |}
       end)
      (fun error =>
         ret {| sentiment := JString "neutral";
                explanation := JString "Analysis failed" |}).

(** [- "phrase" → topics] lines of the topic examples. *)
Definition mapping (phrase result : string) : string :=
  "- " ++ DQ ++ phrase ++ DQ ++ " → " ++ result.

Definition topicInstructions (language : string) : option (string * string) :=
  if language =? "de" then
    Some ("German",
          "Beispiele:" ++ LF
          ++ mapping "App stürzt oft ab" "user_interface (0.9), technical_issues (0.8)" ++ LF
          ++ mapping "Hohe Überweisungsgebühren" "fees (0.9), transfers (0.7)  " ++ LF
          ++ mapping "Schnelle Kontoeröffnung" "account_management (0.8), onboarding (0.9)" ++ LF
          ++ mapping "Trading-App ist super" "trading (0.9), user_experience (0.7)" ++ LF
          ++ mapping "Support antwortet nicht" "customer_service (0.9), communication (0.6)")
  else if language =? "fr" then
    Some ("French",
          "Exemples:" ++ LF
          ++ mapping "L'app plante souvent" "user_interface (0.9), technical_issues (0.8)" ++ LF
          ++ mapping "Frais de virement élevés" "fees (0.9), transfers (0.7)" ++ LF
          ++ mapping "Ouverture de compte rapide" "account_management (0.8), onboarding (0.9)  " ++ LF
          ++ mapping "App de trading excellente" "trading (0.9), user_experience (0.8)" ++ LF
          ++ mapping "Le support ne répond pas" "customer_service (0.9), communication (0.6)")
  else if language =? "it" then
    Some ("Italian",
          "Esempi:" ++ LF
          ++ mapping "L'app si blocca spesso" "user_interface (0.9), technical_issues (0.8)" ++ LF
          ++ mapping "Commissioni di trasferimento alte" "fees (0.9), transfers (0.7)" ++ LF
          ++ mapping "Apertura conto veloce" "account_management (0.8), onboarding (0.9)" ++ LF
          ++ mapping "App di trading ottima" "trading (0.9), user_experience (0.8)  " ++ LF
          ++ mapping "Il supporto non risponde" "customer_service (0.9), communication (0.6)")
  else if language =? "en" then
    Some ("English",
          "Examples:" ++ LF
          ++ mapping "App crashes often" "user_interface (0.9), technical_issues (0.8)" ++ LF
          ++ mapping "High transfer fees" "fees (0.9), transfers (0.7)" ++ LF
          ++ mapping "Quick account opening" "account_management (0.8), onboarding (0.9)" ++ LF
          ++ mapping "Great trading app" "trading (0.9), user_experience (0.8)" ++ LF
          ++ mapping "Support doesn't respond" "customer_service (0.9), communication (0.6)")
  else None.

Definition englishTopics : string * string :=
  ("English",
   "Examples:" ++ LF
   ++ mapping "App crashes often" "user_interface (0.9), technical_issues (0.8)" ++ LF
   ++ mapping "High transfer fees" "fees (0.9), transfers (0.7)" ++ LF
   ++ mapping "Quick account opening" "account_management (0.8), onboarding (0.9)" ++ LF
   ++ mapping "Great trading app" "trading (0.9), user_experience (0.8)" ++ LF
   ++ mapping "Support doesn't respond" "customer_service (0.9), communication (0.6)").

Definition topicsPrompt (lang : string * string) (comment : string) : string :=
  "You are a Swiss banking app topic extractor. Extract topics from this "
    ++ fst lang ++ " customer feedback." ++ LF
  ++ LF
  ++ "Customer Comment: " ++ DQ ++ comment ++ DQ ++ LF
  ++ LF
  ++ "Available Banking Topics:" ++ LF
  ++ "- account_management, payments, trading, cards, fees, security, user_interface, technical_issues, customer_service, onboarding, notifications, general" ++ LF
  ++ LF
  ++ snd lang ++ LF
  ++ LF
  ++ "Rules:" ++ LF
  ++ "- Select 1-2 most relevant topics only" ++ LF
  ++ "- Focus on main themes mentioned" ++ LF
  ++ "- Confidence should be 0.7 to 1.0 for clear matches" ++ LF
  ++ "- Use " ++ DQ ++ "general" ++ DQ ++ " only if no specific topic fits" ++ LF
  ++ LF
  ++ "Respond with ONLY valid JSON (no extra text):" ++ LF
  ++ "{" ++ DQ ++ "topics" ++ DQ ++ ":[{" ++ DQ ++ "topic" ++ DQ ++ ":"
         ++ DQ ++ "topic_name" ++ DQ ++ "," ++ DQ ++ "confidence" ++ DQ
         ++ ":0.9}]}" ++ LF
  ++ LF
  ++ "JSON Response:".

(** The key [topics] between its two double quotes. *)
Definition topics_key : list ascii :=
  (dquote :: list_ascii_of_string "topics" ++ [dquote])%list.

(** Splits [s] after the first occurrence of [pat]. *)
Fixpoint through_first (pat s : list ascii)
  : option (list ascii * list ascii) :=
  match strip_prefix pat s with
  | Some rest => Some (pat, rest)
  | None =>
      match s with
      | [] => None
      | x :: r =>
          match through_first pat r with
          | Some (before, rest) => Some (x :: before, rest)
          | None => None
          end
      end
  end.

(** The first pattern of [extractTopics], a brace, anything (lazily), the
    quoted key, anything (lazily), a closing bracket: the match runs from
    the first opening brace to the first quoted key after it and on to the
    first closing bracket after that. *)
Definition match_topics_object (s : string) : option string :=
  match from_first "{" (list_ascii_of_string s) with
  | Some (open :: r) =>
      match through_first topics_key r with
      | Some (before, rest) =>
          match upto_first "]" rest with
          | Some body =>
              Some (string_of_list_ascii (open :: before ++ body)%list)
          | None => None
          end
      | None => None
      end
  | _ => None
  end.

(** The white space at the head of [s]: what [trimStart_chars] removes. *)
Definition white_space_run (s : list ascii) : list ascii :=
  firstn (List.length s - List.length (trimStart_chars s)) s.

(** One attempt of the second pattern at the head of [s]: the quoted key,
    a colon, white space, an opening bracket, anything (lazily), a closing
    bracket. *)
Definition topics_array_here (s : list ascii) : option (list ascii) :=
  match strip_prefix (topics_key ++ [":"%char])%list s with
  | Some r1 =>
      match trimStart_chars r1 with
      | c :: r2 =>
          if (c =? "[")%char then
            match upto_first "]" r2 with
            | Some body =>
                Some (topics_key ++ [":"%char] ++ white_space_run r1
                        ++ c :: body)%list
            | None => None
            end
          else None
      | [] => None
      end
  | None => None
  end.

(** The leftmost position at which the attempt succeeds. *)
Fixpoint match_topics_array_chars (s : list ascii) : option (list ascii) :=
  match topics_array_here s with
  | Some m => Some m
  | None =>
      match s with
      | [] => None
      | _ :: r => match_topics_array_chars r
      end
  end.

Definition match_topics_array (s : string) : option string :=
  option_map string_of_list_ascii
    (match_topics_array_chars (list_ascii_of_string s)).

(** [jsonStr.endsWith('}')] *)
Definition endsWith_brace (s : string) : bool :=
  match rev (list_ascii_of_string s) with
  | c :: _ => (c =? "}")%char
  | [] => false
  end.

Definition isArray (v : JSValue) : bool :=
  match v with
  | JArray _ => true
  | _ => false
  end.

Definition general (confidence : Q) : TopicResult :=
  {| topics :=
       JArray [JObject [("topic", JString "general");
                        ("confidence", JNumber (Num confidence))]] |}.

(** The second attempt of [extractTopics]: just the topics array. *)
Definition topicsFallback (response : string) : Eff nat TopicResult :=
  match match_topics_array response with
  | Some topicsMatch =>
      let topicsStr := "{" ++ topicsMatch ++ "}" in
      parsed <- lift_completion (JSON_parse topicsStr) ;;
      t <- lift_completion (get parsed "topics") ;;
      ret {| topics := t |}
  | None => ret (general (1 # 2))
  end.

Definition extractTopics (comment language : string) : Eff nat TopicResult :=
  if (comment =? "") || (String.length (trim comment) =? 0)%nat then
    ret (general 1)
  else
    let lang :=
      match topicInstructions language with
      | Some l => l
      | None => englishTopics
      end in
    let prompt := topicsPrompt lang comment in
    try_catch
      (response <- generate prompt ;;
       match match_topics_object response with
       | Some jsonMatch =>
           let jsonStr :=
             if endsWith_brace jsonMatch then jsonMatch else jsonMatch ++ "}" in
           parsed <- lift_completion (JSON_parse jsonStr) ;;
           t <- lift_completion (get parsed "topics") ;;
           if truthy t && isArray t then ret {| topics := t |}
           else topicsFallback response
       | None => topicsFallback response
       end)
      (fun error => ret (general (1 # 10))).

(** [analyzeComment]: [Promise.all] starts the sentiment analysis, then
    the topic extraction; each sends its request before the first reply
    is awaited, so the sentiment request is the earlier one. *)
Definition analyzeComment (comment language : string)
  : Eff nat (SentimentResult * TopicResult) :=
  try_catch
    (sentiment <- analyzeSentiment comment language ;;
     topics <- extractTopics comment language ;;
     ret (sentiment, topics))
    (fun error =>
       ret ({| sentiment := JString "neutral"; explanation := JString "Error" |},
            {| topics := JArray [] |})).

End Client.

End OllamaLLM.

(* ------------------------------------------------------------------ *)
(** ** The enrichment orchestrator and its routes ([routes.ts])        *)
(* ------------------------------------------------------------------ *)

Module Routes.

(** The second argument of [LocalDB.updateResponse]. *)
Record Updates : Type := {
  sentiment : JSValue;
  sentiment_confidence : Q;
  topics : JSValue
}.

(** The two collaborators the orchestrator imports: the store ([LocalDB])
    and the classification client ([ollamaLLM]), each over its own state. *)
Class ResponseStore (S : Type) : Type := {
  getResponses : Eff S (list LocalDB.Row.t);
  updateResponse : Z -> Updates -> Eff S unit
}.

Class ClassificationClient (L : Type) : Type := {
  analyzeSentiment : string -> string -> Eff L OllamaLLM.SentimentResult;
  extractTopics : string -> string -> Eff L OllamaLLM.TopicResult
}.

Record HttpResponse : Type := {
  status : nat;
  success : bool;
  message : string
}.

(** The filter of [processCommentsWithAI]:
    [r.comment && r.comment.trim().length > 0 &&
     (!r.sentiment || r.sentiment === 'neutral')]. *)
Definition needsProcessing (r : LocalDB.Row.t) : bool :=
  match LocalDB.Row.comment r with
  | None => false
  | Some c =>
      negb (c =? "") && (0 <? String.length (trim c))%nat &&
      match LocalDB.Row.sentiment r with
      | None => true
      | Some s => (s =? "") || (s =? "neutral")
      end
  end.

(** [response.language || 'en'] *)
Definition language_or_en (r : LocalDB.Row.t) : string :=
  match LocalDB.Row.language r with
  | Some l => if l =? "" then "en" else l
  | None => "en"
  end.

Definition comment_of (r : LocalDB.Row.t) : string :=
  match LocalDB.Row.comment r with
  | Some c => c
  | None => ""
  end.

Section Orchestrator.

Context {S L : Type} {Store : ResponseStore S} {Client : ClassificationClient L}.

(** The wall clock: the instant read by the [n]-th [new Date()]. *)
Variable clock : nat -> Date.

(** The objects of the server process that the orchestrator reaches. *)
Record World : Type := {
  store : S;
  llm : L;
  aiTracker : AIProcessingTracker.ProcessingStatus;
  dates : nat
}.

Definition in_store {A} (m : Eff S A) : Eff World A := fun w =>
  let '(c, s') := m (store w) in
  (c, {| store := s'; llm := llm w; aiTracker := aiTracker w; dates := dates w |}).

Definition in_llm {A} (m : Eff L A) : Eff World A := fun w =>
  let '(c, l') := m (llm w) in
  (c, {| store := store w; llm := l'; aiTracker := aiTracker w; dates := dates w |}).

Definition new_Date : Eff World Date := fun w =>
  (Normal (clock (dates w)),
   {| store := store w; llm := llm w; aiTracker := aiTracker w;
      dates := Datatypes.S (dates w) |}).

Definition on_tracker
    (f : AIProcessingTracker.ProcessingStatus -> AIProcessingTracker.ProcessingStatus)
  : Eff World unit := fun w =>
  (Normal tt,
   {| store := store w; llm := llm w; aiTracker := f (aiTracker w);
      dates := dates w |}).

Definition startProcessing (totalCount : Z) : Eff World unit :=
  now1 <- new_Date ;;
  now2 <- new_Date ;;
  on_tracker (AIProcessingTracker.startProcessing totalCount now1 now2).

Definition incrementProcessed : Eff World unit :=
  now <- new_Date ;;
  on_tracker (AIProcessingTracker.incrementProcessed now).

Definition completeProcessing : Eff World unit :=
  now <- new_Date ;;
  on_tracker (AIProcessingTracker.completeProcessing now).

(** The body of the [for] loop, with its own [try]/[catch].  The 100 ms
    pause at the end of the [try] block changes no state. *)
Definition processResponse (response : LocalDB.Row.t) : Eff World unit :=
  try_catch
    (sentimentResult <-
       in_llm (analyzeSentiment (comment_of response) (language_or_en response)) ;;
     topicsResult <-
       in_llm (extractTopics (comment_of response) (language_or_en response)) ;;
     in_store
       (updateResponse (LocalDB.Row.id response)
          {| sentiment :=
               or_else (OllamaLLM.sentiment sentimentResult) (JString "neutral");
             sentiment_confidence := 4 # 5;
             topics := or_else (OllamaLLM.topics topicsResult) (JArray []) |}) ;;;
     incrementProcessed)
    (fun error => incrementProcessed).

Fixpoint forEach (commentsToProcess : list LocalDB.Row.t) : Eff World unit :=
  match commentsToProcess with
  | [] => ret tt
  | response :: rest => processResponse response ;;; forEach rest
  end.

(** [processCommentsWithAI()], run until its promise settles. *)
Definition processCommentsWithAI : Eff World unit :=
  try_catch
    (responses <- in_store getResponses ;;
     let commentsToProcess := filter needsProcessing responses in
     if (List.length commentsToProcess =? 0)%nat then ret tt
     else
       startProcessing (Z.of_nat (List.length commentsToProcess)) ;;;
       forEach commentsToProcess ;;;
       completeProcessing)
    (fun error => ret tt).

(** [POST /api/process-ai].  The handler does not await the run; the
    response it sends is paired here with the world reached once the run
    it started has settled. *)
Definition process_ai : Eff World HttpResponse :=
  try_catch
    (fun w =>
       if AIProcessingTracker.isProcessing (aiTracker w) then
         ret {| status := 409; success := false;
                message := "AI processing is already in progress" |} w
       else
         (processCommentsWithAI ;;;
          ret {| status := 200; success := true;
                 message := "AI processing started in background" |}) w)
    (fun error => ret {| status := 500; success := false; message := error |}).

End Orchestrator.

(** The collaborators as imported by [routes.ts]. *)
Definition LocalDB_store : ResponseStore LocalDB.Database :=
  {| getResponses := LocalDB.getResponses;
     updateResponse := fun id updates => LocalDB.updateResponse id updates |}.

Definition ollamaLLM (endpoint : Endpoint) : ClassificationClient nat :=
  {| analyzeSentiment := OllamaLLM.analyzeSentiment endpoint;
     extractTopics := OllamaLLM.extractTopics endpoint |}.

(** The server process at start-up, over a given database. *)
Definition boot (db : LocalDB.Database) : World (S := LocalDB.Database) (L := nat) :=
  {| store := db; llm := 0%nat; aiTracker := AIProcessingTracker.initial;
     dates := 0%nat |}.

(** An element of [req.body.comments], or the body of
    [/api/analyze-comment]: an object whose [comment] and [language], when
    present, are strings.  An absent comment is handed on as [undefined],
    which both operations of the client answer as they answer ['']. *)
Module Item.
Record t : Type := {
  comment : option string;
  language : option string
}.
End Item.

Definition item_comment (c : Item.t) : string :=
  match Item.comment c with
  | Some s => s
  | None => ""
  end.

(** [c.language || 'en'] *)
Definition item_language (c : Item.t) : string :=
  match Item.language c with
  | Some l => if l =? "" then "en" else l
  | None => "en"
  end.

Inductive Reply (A : Type) : Type :=
| Json (body : A)
| Status500 (error : string).
Arguments Json {A} body.
Arguments Status500 {A} error.

Section Analyze.

Variable endpoint : Endpoint.

(** [POST /api/analyze-comment] *)
Definition analyze_comment (body : Item.t)
  : Eff nat (Reply (OllamaLLM.SentimentResult * OllamaLLM.TopicResult)) :=
  try_catch
    (r <- OllamaLLM.analyzeComment endpoint (item_comment body) (item_language body) ;;
     ret (Json r))
    (fun error => ret (Status500 "Analyze failed")).

(** The loop of [/api/analyze-batch]. *)
Fixpoint analyze_each (comments : list Item.t)
    (results : list (OllamaLLM.SentimentResult * OllamaLLM.TopicResult))
  : Eff nat (list (OllamaLLM.SentimentResult * OllamaLLM.TopicResult)) :=
  match comments with
  | [] => ret results
  | c :: rest =>
      r <- OllamaLLM.analyzeComment endpoint (item_comment c) (item_language c) ;;
      analyze_each rest (results ++ [r])
  end.

(** [POST /api/analyze-batch]; [None] is a [comments] property that is
    not an array. *)
Definition analyze_batch (comments : option (list Item.t))
  : Eff nat (Reply (list (OllamaLLM.SentimentResult * OllamaLLM.TopicResult))) :=
  try_catch
    (results <-
       analyze_each (match comments with Some l => l | None => [] end) [] ;;
     ret (Json results))
    (fun error => ret (Status500 "Batch failed")).

End Analyze.

(** The response group computed by the upload routes ([/api/csv],
    [/api/upload], [/api/nps-responses/bulk]) and by [pendo.ts]. *)
Inductive ResponseGroup : Type := Promoter | Passive | Detractor.

Definition responseGroup (rating : Z) : ResponseGroup :=
  if (rating >=? 9)%Z then Promoter
  else if (rating >=? 7)%Z then Passive
  else Detractor.

(** The segment counts of [/api/nps-stats] and [/api/stats/nps]. *)
Definition promoters (ratings : list Z) : nat :=
  List.length (filter (fun r => (r >=? 9)%Z) ratings).

Definition passives (ratings : list Z) : nat :=
  List.length (filter (fun r => (r >=? 7)%Z && (r <=? 8)%Z) ratings).

Definition detractors (ratings : list Z) : nat :=
  List.length (filter (fun r => (r <=? 6)%Z) ratings).

(** An element of the body of [/api/nps-responses/bulk] as
    [insertNpsResponseSchema] types it, and of the body of [/api/csv] as
    its own schema does: an object with a [rating] and optional string
    fields ([None] is an absent property).  Ratings are whole numbers
    here, as in the [rating] column. *)
Module Bulk.
Record t : Type := {
  rating : Z;
  comment : option string;
  date : option string;
  language : option string;
  sentiment : option string;
  themes : option (list string)
}.
End Bulk.

Module Csv.
Record t : Type := {
  rating : Z;
  comment : option string;
  language : option string;
  date : option string;
  customer : option string;
  visitorId : option string;
  platform : option string;
  sentiment : option string;
  sentimentConfidence : option Q
}.
End Csv.

(** [v || fallback] on an optional string. *)
Definition string_or (v : option string) (fallback : string) : string :=
  match v with
  | Some s => if s =? "" then fallback else s
  | None => fallback
  end.

(** [r.sentimentConfidence || 0] *)
Definition confidence_or_zero (v : option Q) : Q :=
  match v with
  | Some q => if Qeq_bool q 0 then 0 else q
  | None => 0
  end.

Inductive BulkReply : Type :=
| Inserted (inserted : nat)
| Status400 (error : string)
| BulkStatus500 (error : string).

Definition ZodError : string := "ZodError".

(** [z.array(insertNpsResponseSchema).parse(data)]: on entries of this
    shape the schema checks [rating] against [min(0)] and [max(10)]. *)
Definition parse_bulk (data : list Bulk.t) : Completion (list Bulk.t) :=
  if forallb (fun r => (0 <=? Bulk.rating r)%Z && (Bulk.rating r <=? 10)%Z) data
  then Normal data
  else Throw ZodError.

(** ['Inserted ' + inserted] *)
Definition inserted_message (inserted : nat) : string :=
  "Inserted " ++ NilEmpty.string_of_uint (Nat.to_uint inserted).

Section Uploads.

Context {L : Type} {Client : ClassificationClient L}.

Variable clock : nat -> Date.

(** [date.toISOString().split('T')[0]] *)
Variable isoDate : Date -> string.

(** CURRENT_TIMESTAMP, as SQLite reads it when it inserts into the given
    database. *)
Variable current_timestamp : LocalDB.Database -> Date.

Definition today : Eff (World (S := LocalDB.Database) (L := L)) string :=
  now <- new_Date clock ;;
  ret (isoDate now).

(** [r.date || new Date().toISOString().split('T')[0]] *)
Definition date_or_today (date : option string)
  : Eff (World (S := LocalDB.Database) (L := L)) string :=
  match date with
  | Some d => if d =? "" then today else ret d
  | None => today
  end.

Definition insertResponse (data : LocalDB.Data.t)
  : Eff (World (S := LocalDB.Database) (L := L)) Z :=
  in_store (fun db => LocalDB.insertResponse (current_timestamp db) data db).

(** The argument the bulk route builds; [insertResponse] does not read
    the [response_group] property it also carries. *)
Definition bulk_data (r : Bulk.t) (date : string) : LocalDB.Data.t :=
  {| LocalDB.Data.rating := Bulk.rating r;
     LocalDB.Data.comment := Some (string_or (Bulk.comment r) "");
     LocalDB.Data.language := Some (string_or (Bulk.language r) "en");
     LocalDB.Data.date := date;
     LocalDB.Data.customer_id := None;
     LocalDB.Data.visitor_id := None;
     LocalDB.Data.platform := None;
     LocalDB.Data.sentiment := None;
     LocalDB.Data.sentiment_confidence := None |}.

(** The loop the two routes share,
    [for (const r of arr) { try { LocalDB.insertResponse({...}); inserted++ } catch {} }],
    over the object literal [build r date] of the route. *)
Fixpoint insert_each {E : Type} (date_of : E -> option string)
    (build : E -> string -> LocalDB.Data.t) (arr : list E) (inserted : nat)
  : Eff (World (S := LocalDB.Database) (L := L)) nat :=
  match arr with
  | [] => ret inserted
  | r :: rest =>
      inserted' <-
        try_catch
          (date <- date_or_today (date_of r) ;;
           insertResponse (build r date) ;;;
           ret (S inserted))
          (fun error => ret inserted) ;;
      insert_each date_of build rest inserted'
  end.

(** [POST /api/nps-responses/bulk] on the array [data] (the body, or its
    [responses] property).  As for [process_ai], the response is paired
    with the world reached once the run the handler started has settled. *)
Definition bulk (data : list Bulk.t)
  : Eff (World (S := LocalDB.Database) (L := L)) BulkReply :=
  try_catch
    (parsed <- lift_completion (parse_bulk data) ;;
     inserted <- insert_each Bulk.date bulk_data parsed 0 ;;
     (if (0 <? inserted)%nat
      then processCommentsWithAI (Store := LocalDB_store) clock
      else ret tt) ;;;
     ret (Inserted inserted))
    (fun e =>
       if e =? ZodError then ret (Status400 "Invalid data")
       else ret (BulkStatus500 "Bulk failed")).

(** The argument the CSV route builds. *)
Definition csv_data (r : Csv.t) (date : string) : LocalDB.Data.t :=
  {| LocalDB.Data.rating := Csv.rating r;
     LocalDB.Data.comment := Some (string_or (Csv.comment r) "");
     LocalDB.Data.language := Some (string_or (Csv.language r) "en");
     LocalDB.Data.date := date;
     LocalDB.Data.customer_id := Csv.customer r;
     LocalDB.Data.visitor_id := Csv.visitorId r;
     LocalDB.Data.platform := Csv.platform r;
     LocalDB.Data.sentiment := Some (string_or (Csv.sentiment r) "neutral");
     LocalDB.Data.sentiment_confidence :=
       Some (Num (confidence_or_zero (Csv.sentimentConfidence r))) |}.

(** [POST /api/csv] on a body [arr] that its schema accepts. *)
Definition csv (arr : list Csv.t)
  : Eff (World (S := LocalDB.Database) (L := L)) (Reply (string * nat)) :=
  try_catch
    (inserted <- insert_each Csv.date csv_data arr 0 ;;
     processCommentsWithAI (Store := LocalDB_store) clock ;;;
     ret (Json (inserted_message inserted, inserted)))
    (fun error => ret (Status500 "Upload failed")).

End Uploads.

(** [POST /api/test-ollama]: the three properties the handler reads from
    [req.body], which it does not validate ([JUndefined] is an absent
    property), and the answer. *)
Module TestOllama.

Record Body : Type := {
  comment : JSValue;
  language : JSValue;
  text : JSValue
}.

Record Answer : Type := {
  success : bool;
  testText : JSValue;
  testLanguage : JSValue;
  sentiment : OllamaLLM.SentimentResult;
  topics : OllamaLLM.TopicResult;
  model : string
}.

End TestOllama.

(** [comment || text || "This service is amazing!"] *)
Definition testText (body : TestOllama.Body) : JSValue :=
  or_else (TestOllama.comment body)
    (or_else (TestOllama.text body) (JString "This service is amazing!")).

(** [language || 'en'] *)
Definition testLanguage (body : TestOllama.Body) : JSValue :=
  or_else (TestOllama.language body) (JString "en").

Section TestOllama.

Variable endpoint : Endpoint.

(** ToPropertyKey on a value that is not a string: what indexing the
    table of language instructions applies to [language]; it throws on
    an object that cannot be converted to a primitive value. *)
Variable ToPropertyKey : JSValue -> Completion string.

(** A method of [ollamaLLM] ([analyzeSentiment] or [extractTopics])
    called with arguments that nothing has checked to be strings.  The
    guard [!comment || comment.trim().length === 0] comes first and
    stands before the method's [try]: a falsy comment and a blank string
    answer at once; on a truthy comment that is not a string,
    [comment.trim] is not a function and the call throws.  Only then is
    [language] used, as a key of the table of instructions. *)
Definition unchecked {A : Type} (method : string -> string -> Eff nat A)
    (comment language : JSValue) : Eff nat A :=
  match comment with
  | JString c =>
      if (c =? "") || (String.length (trim c) =? 0)%nat then method c "en"
      else
        match language with
        | JString l => method c l
        | _ =>
            key <- lift_completion (ToPropertyKey language) ;;
            method c key
        end
  | _ =>
      if truthy comment then throw "TypeError: comment.trim is not a function"
      else method "" "en"
  end.

(** [POST /api/test-ollama].  The imported [ollamaLLM] is an object, so
    the 503 branch of [if (ollamaLLM)] is not taken; the two operations
    are awaited one after the other.  The 500 answer carries the
    description of the error that was caught. *)
Definition test_ollama (body : TestOllama.Body)
  : Eff nat (Reply TestOllama.Answer) :=
  try_catch
    (sentimentResult <-
       unchecked (OllamaLLM.analyzeSentiment endpoint)
         (testText body) (testLanguage body) ;;
     topicResult <-
       unchecked (OllamaLLM.extractTopics endpoint)
         (testText body) (testLanguage body) ;;
     ret (Json {| TestOllama.success := true;
                  TestOllama.testText := testText body;
                  TestOllama.testLanguage := testLanguage body;
                  TestOllama.sentiment := sentimentResult;
                  TestOllama.topics := topicResult;
                  TestOllama.model := "qwen2.5:3b" |}))
    (fun error => ret (Status500 error)).

End TestOllama.

End Routes.

(* ------------------------------------------------------------------ *)
(** ** The analysis helpers ([analysis.ts])                            *)
(* ------------------------------------------------------------------ *)

Module Analysis.

(** The object [analyzeComment] returns, its nested [sentiment] object
    flattened. *)
Record Result : Type := {
  sentiment : JSValue;
  confidence : Q;
  explanation : JSValue;
  topics : JSValue;
  language : string
}.

Section Helpers.

Variable endpoint : Endpoint.

(** [analyzeComment(comment, rating)]; the client is called with its
    default language ['en']. *)
Definition analyzeComment (comment : string) (rating : Z) : Eff nat Result :=
  try_catch
    (result <- OllamaLLM.analyzeComment endpoint comment "en" ;;
     ret {| sentiment := OllamaLLM.sentiment (fst result);
            confidence := 4 # 5;
            explanation := OllamaLLM.explanation (fst result);
            topics := or_else (OllamaLLM.topics (snd result)) (JArray []);
            language := "en" |})
    (fun error =>
       ret {| sentiment := JString "neutral";
              confidence := 1 # 2;
              explanation := JString "Error analyzing";
              topics := JArray [];
              language := "en" |}).

(** The mapped array of [analyzeBatchComments] under [Promise.all]:
    every element sends its requests when it is mapped, so they leave in
    the order of the array.  An element is its comment and its optional
    [id]. *)
Fixpoint analyzeAll (comments : list (string * JSValue))
  : Eff nat (list (JSValue * Result)) :=
  match comments with
  | [] => ret []
  | (comment, id) :: rest =>
      analysis <- analyzeComment comment 5 ;;
      others <- analyzeAll rest ;;
      ret ((id, analysis) :: others)
  end.

(** [analyzeBatchComments(comments)] *)
Definition analyzeBatchComments (comments : list (string * JSValue))
  : Eff nat (list (JSValue * Result)) :=
  try_catch
    (analyzeAll comments)
    (fun error =>
       ret (map (fun item =>
                   (snd item,
                    {| sentiment := JString "neutral";
                       confidence := 1 # 2;
                       explanation := JString "Error analyzing";
                       topics := JArray [];
                       language := "en" |})) comments)).

End Helpers.

End Analysis.

(* ------------------------------------------------------------------ *)
(** ** Vocabulary of the statements                                    *)
(* ------------------------------------------------------------------ *)

(** The three-way sentiment enumeration of both [SentimentResult] types. *)
Definition is_sentiment_label (v : JSValue) : bool :=
  match v with
  | JString s => (s =? "positive") || (s =? "negative") || (s =? "neutral")
  | _ => false
  end.

(** A number of the closed unit interval. *)
Definition in_unit_interval (n : JSNumber) : bool :=
  match n with
  | Num q => Qle_bool 0 q && Qle_bool q 1
  | NaN => false
  end.

(** The result objects as the caller sees them: a property the literal
    does not write reads as [undefined]. *)
Definition LocalLLM_object (r : LocalLLM.SentimentResult) : JSValue :=
  JObject [("sentiment", LocalLLM.sentiment r);
           ("confidence", JNumber (LocalLLM.confidence r));
           ("explanation", LocalLLM.explanation r)].

Definition OllamaLLM_object (r : OllamaLLM.SentimentResult) : JSValue :=
  JObject [("sentiment", OllamaLLM.sentiment r);
           ("explanation", OllamaLLM.explanation r)].

(** A reply in which neither sentiment pattern finds a match: it has no
    opening brace with a closing brace somewhere after it. *)
Definition no_brace_pair (reply : string) : Prop :=
  match_braces_greedy (trim reply) = None.

(** The value [v] is the [sentiment] property of the object that
    [JSON.parse] read from what [pattern] matched in the reply to the
    request numbered [sent]. *)
Definition copied_from_reply (endpoint : Endpoint) (sent : nat)
    (pattern : string -> option string) (v : JSValue) : Prop :=
  exists prompt reply json parsed,
    endpoint sent prompt = Some reply /\
    pattern (trim reply) = Some json /\
    JSON_parse json = Normal parsed /\
    get parsed "sentiment" = Normal v.

(** The guard both clients open with:
    [!comment || comment.trim().length === 0]. *)
Definition blank (comment : string) : bool :=
  (comment =? "") || (String.length (trim comment) =? 0)%nat.

(** The request count after an operation that sends [n] requests for a
    comment that passes the guard, and none otherwise. *)
Definition after_requests (n : nat) (comment : string) (sent : nat) : nat :=
  if blank comment then sent else (n + sent)%nat.

(** A confidence of the keyword fallback of [LocalLLM.extractTopics]. *)
Definition keyword_confidence (n : JSNumber) : Prop :=
  exists q, n = Num q /\ ((3 # 10) <= q)%Q /\ (q <= (4 # 5))%Q.

(** The vocabulary names that have a keyword in the comment. *)
Definition matchedTopics {rt : Runtime} (comment : string) : list string :=
  map fst
    (filter (fun entry => existsb (includes (toLowerCase comment)) (snd entry))
            LocalLLM.topicKeywords).

(** The number of comments that pass the guard. *)
Definition nonblank (comments : list string) : nat :=
  List.length (filter (fun c => negb (blank c)) comments).

(** A progress callback that returns normally whenever it is called
    (or no callback at all). *)
Definition quiet {P : Type} (onProgress : option (nat -> nat -> Eff P unit))
  : Prop :=
  match onProgress with
  | Some callback => forall i n p, fst (callback i n p) = Normal tt
  | None => True
  end.

(** A progress callback that throws whenever it is called. *)
Definition throwing {P : Type} (onProgress : option (nat -> nat -> Eff P unit))
  : Prop :=
  match onProgress with
  | Some callback => forall i n p, exists e, fst (callback i n p) = Throw e
  | None => False
  end.

(** The state of the caller after the callback has been called with
    [(first, total)], [(first + 1, total)], ... [count] times. *)
Definition progress_after {P : Type}
    (onProgress : option (nat -> nat -> Eff P unit))
    (first count total : nat) (p : P) : P :=
  match onProgress with
  | Some callback =>
      fold_left (fun p i => snd (callback i total p)) (seq first count) p
  | None => p
  end.

(** An id followed by the fallback entry the [catch] block pushes. *)
Definition fallback_entry (id : string)
  : string * (LocalLLM.SentimentResult * LocalLLM.TopicResult) :=
  (id,
   ({| LocalLLM.sentiment := JString "neutral";
       LocalLLM.confidence := Num (3 # 10);
       LocalLLM.explanation := JUndefined |},
    {| LocalLLM.topics := [] |})).

(** The row that [insertResponse] writes under [rowid]. *)
Definition inserted_row (rowid : Z) (now : Date) (data : LocalDB.Data.t)
  : LocalDB.Row.t :=
  {| LocalDB.Row.id := rowid;
     LocalDB.Row.rating := LocalDB.Data.rating data;
     LocalDB.Row.comment := LocalDB.string_or_null (LocalDB.Data.comment data);
     LocalDB.Row.language := LocalDB.string_or_null (LocalDB.Data.language data);
     LocalDB.Row.date := LocalDB.Data.date data;
     LocalDB.Row.customer_id :=
       LocalDB.string_or_null (LocalDB.Data.customer_id data);
     LocalDB.Row.visitor_id :=
       LocalDB.string_or_null (LocalDB.Data.visitor_id data);
     LocalDB.Row.platform := LocalDB.string_or_null (LocalDB.Data.platform data);
     LocalDB.Row.sentiment := LocalDB.string_or_null (LocalDB.Data.sentiment data);
     LocalDB.Row.sentiment_confidence :=
       LocalDB.number_or_null (LocalDB.Data.sentiment_confidence data);
     LocalDB.Row.created_at := now;
     LocalDB.Row.updated_at := now |}.








(** [ORDER BY r.date DESC]: no row is followed by a row of a later date. *)
Definition by_date_desc (a b : LocalDB.Row.t) : Prop :=
  String.leb (LocalDB.Row.date b) (LocalDB.Row.date a) = true.

(** What AUTOINCREMENT maintains: the sequence counter of the table is
    not below the id of any of its rows. *)
Definition ids_below_sequence (db : LocalDB.Database) : Prop :=
  Forall (fun r => (LocalDB.Row.id r <= LocalDB.seq_responses db)%Z)
         (LocalDB.nps_responses db).

(** The [count] integers that follow [n]. *)
Definition following (n : Z) (count : nat) : list Z :=
  map (fun k => (n + Z.of_nat k)%Z) (seq 1 count).

(** The invariant of a history that started from [db0], on the database
    reached and the ids returned so far. *)
Definition history_invariant (db0 : LocalDB.Database)
    (state : LocalDB.Database * list Z) : Prop :=
  snd state = following (LocalDB.seq_responses db0) (List.length (snd state)) /\
  LocalDB.seq_responses (fst state) =
    (LocalDB.seq_responses db0 + Z.of_nat (List.length (snd state)))%Z /\
  ids_below_sequence (fst state) /\
  (forall r, In r (LocalDB.nps_responses (fst state)) ->
             In r (LocalDB.nps_responses db0) \/
             In (LocalDB.Row.id r) (snd state)).

(** A comment made of white space code points only, the empty comment
    included. *)
Definition white_space_only (comment : string) : Prop :=
  exists codes,
    Forall (fun code => is_white_space code = true) codes /\
    list_ascii_of_string comment = concat codes.

(** A value that [||] replaces: the property is absent, [''], [0] or [NaN]. *)
Definition falsy_string (v : option string) : Prop :=
  v = None \/ v = Some "".

Definition falsy_number (v : option JSNumber) : Prop :=
  v = None \/ v = Some NaN \/ exists q, v = Some (Num q) /\ (q == 0)%Q.

Definition group_eqb (a b : Routes.ResponseGroup) : bool :=
  match a, b with
  | Routes.Promoter, Routes.Promoter
  | Routes.Passive, Routes.Passive
  | Routes.Detractor, Routes.Detractor => true
  | _, _ => false
  end.

(** Number of ratings whose response group is [g]. *)
Definition count_group (g : Routes.ResponseGroup) (ratings : list Z) : nat :=
  List.length (filter (fun r => group_eqb (Routes.responseGroup r) g) ratings).

(* ------------------------------------------------------------------ *)
(** ** A store whose update works, and a host for closed examples      *)
(* ------------------------------------------------------------------ *)

Module SpecStore.

(** Modelled from the spec: the Response Store operation
    [updateEnrichment(id, {sentiment, confidence, topics})] of section 6,
    for which [local-db.ts] has no counterpart.  The store is the list of
    rows; the update writes the sentiment and its confidence into the rows
    with the given id and fails on a sentiment that is not a string. *)
Definition updateEnrichment (id : Z) (updates : Routes.Updates)
  : Eff (list LocalDB.Row.t) unit := fun rows =>
  match Routes.sentiment updates with
  | JString s =>
      (Normal tt,
       map (fun r =>
              if (LocalDB.Row.id r =? id)%Z then
                {| LocalDB.Row.id := LocalDB.Row.id r;
                   LocalDB.Row.rating := LocalDB.Row.rating r;
                   LocalDB.Row.comment := LocalDB.Row.comment r;
                   LocalDB.Row.language := LocalDB.Row.language r;
                   LocalDB.Row.date := LocalDB.Row.date r;
                   LocalDB.Row.customer_id := LocalDB.Row.customer_id r;
                   LocalDB.Row.visitor_id := LocalDB.Row.visitor_id r;
                   LocalDB.Row.platform := LocalDB.Row.platform r;
                   LocalDB.Row.sentiment := Some s;
                   LocalDB.Row.sentiment_confidence :=
                     Some (Routes.sentiment_confidence updates);
                   LocalDB.Row.created_at := LocalDB.Row.created_at r;
                   LocalDB.Row.updated_at := LocalDB.Row.updated_at r |}
              else r) rows)
  | _ => (Throw "TypeError: sentiment must be a string", rows)
  end.

Definition getPendingForEnrichment : Eff (list LocalDB.Row.t) (list LocalDB.Row.t) :=
  fun rows => (Normal rows, rows).

Definition store : Routes.ResponseStore (list LocalDB.Row.t) :=
  {| Routes.getResponses := getPendingForEnrichment;
     Routes.updateResponse := updateEnrichment |}.

End SpecStore.

Module Examples.

(** ASCII case mapping; bytes outside [A-Z] are kept. *)
Definition lower (c : ascii) : ascii :=
  let n := nat_of_ascii c in
  if (65 <=? n)%nat && (n <=? 90)%nat then ascii_of_nat (n + 32) else c.

Fixpoint lower_string (s : string) : string :=
  match s with
  | EmptyString => EmptyString
  | String c r => String (lower c) (lower_string r)
  end.

(** A host for the closed examples: the comments they put in lower case
    are ASCII, and none of them converts a string or an object to a
    number. *)
Definition host : Runtime :=
  {| toLowerCase := lower_string;
     StringToNumber := fun _ => NaN;
     ObjectToNumber := fun _ => Normal NaN |}.

Definition row (id : Z) (rating : Z) (comment sentiment : option string)
  : LocalDB.Row.t :=
  {| LocalDB.Row.id := id;
     LocalDB.Row.rating := rating;
     LocalDB.Row.comment := comment;
     LocalDB.Row.language := Some "en";
     LocalDB.Row.date := "2024-05-01";
     LocalDB.Row.customer_id := None;
     LocalDB.Row.visitor_id := None;
     LocalDB.Row.platform := None;
     LocalDB.Row.sentiment := sentiment;
     LocalDB.Row.sentiment_confidence := None;
     LocalDB.Row.created_at := 0%nat;
     LocalDB.Row.updated_at := 0%nat |}.

Definition database (rows : list LocalDB.Row.t) : LocalDB.Database :=
  {| LocalDB.nps_responses := rows;
     LocalDB.topic_mentions := [];
     LocalDB.seq_responses := Z.of_nat (List.length rows);
     LocalDB.seq_mentions := 0;
     LocalDB.is_open := true |}.

(** One row waiting for enrichment. *)
Definition pending_row : LocalDB.Row.t := row 1 9 (Some "Great app") None.

(** A row that already carries what an enrichment write of a [neutral]
    classification leaves: sentiment ['neutral'], confidence 0.8. *)
Definition neutral_row : LocalDB.Row.t :=
  {| LocalDB.Row.id := 1;
     LocalDB.Row.rating := 7;
     LocalDB.Row.comment := Some "It works";
     LocalDB.Row.language := Some "en";
     LocalDB.Row.date := "2024-05-01";
     LocalDB.Row.customer_id := None;
     LocalDB.Row.visitor_id := None;
     LocalDB.Row.platform := None;
     LocalDB.Row.sentiment := Some "neutral";
     LocalDB.Row.sentiment_confidence := Some (4 # 5);
     LocalDB.Row.created_at := 0%nat;
     LocalDB.Row.updated_at := 0%nat |}.


(** Rows none of which waits. *)
Definition settled_rows : list LocalDB.Row.t :=
  [row 1 9 (Some "Great app") (Some "positive");
   row 2 5 (Some "   ") None].

(** [{"sentiment":"<label>","confidence":0.9}] *)
Definition sentiment_reply (label : string) : string :=
  "{" ++ DQ ++ "sentiment" ++ DQ ++ ":" ++ DQ ++ label ++ DQ ++ ","
      ++ DQ ++ "confidence" ++ DQ ++ ":0.9}".

(** An endpoint that sends the same reply to every request. *)
Definition always (reply : string) : Endpoint := fun _ _ => Some reply.

Definition clock : nat -> Date := fun n => (1000 * n)%nat.

Definition insert_data (comment : option string)
    (confidence : option JSNumber) : LocalDB.Data.t :=
  {| LocalDB.Data.rating := 3;
     LocalDB.Data.comment := comment;
     LocalDB.Data.language := Some "en";
     LocalDB.Data.date := "2024-05-01";
     LocalDB.Data.customer_id := None;
     LocalDB.Data.visitor_id := None;
     LocalDB.Data.platform := None;
     LocalDB.Data.sentiment := Some "neutral";
     LocalDB.Data.sentiment_confidence := confidence |}.

(** The client of [routes.ts] in front of an endpoint that classifies
    every comment as [label]. *)
Definition client (label : string) : Routes.ClassificationClient nat :=
  Routes.ollamaLLM (always (sentiment_reply label)).


(** The process after an earlier run over three rows, its database now
    holding settled rows only. *)
Definition settled_world : Routes.World :=
  {| Routes.store := database settled_rows;
     Routes.llm := 6%nat;
     Routes.aiTracker :=
       {| AIProcessingTracker.total := 3;
          AIProcessingTracker.processed := 3;
          AIProcessingTracker.inProgress := false;
          AIProcessingTracker.startTime := Some 0%nat;
          AIProcessingTracker.lastUpdate := Some 4000%nat |};
     Routes.dates := 5%nat |}.

(** A database with one pending row whose connection has been closed. *)
Definition closed_database : LocalDB.Database :=
  snd (LocalDB.close (database [pending_row])).

(** U+00A0 NO-BREAK SPACE, U+3000 IDEOGRAPHIC SPACE. *)
Definition nbsp : string :=
  String (ascii_of_nat 194) (String (ascii_of_nat 160) "").

Definition ideographic_space : string :=
  String (ascii_of_nat 227)
    (String (ascii_of_nat 128) (String (ascii_of_nat 128) "")).

(** A comment of a space, a no-break space, a tab and an ideographic
    space. *)
Definition white_comment : string :=
  " " ++ nbsp ++ String (ascii_of_nat 9) "" ++ ideographic_space.

(** A batch of three comments, the second of them blank. *)
Definition batch : list LocalLLM.Item.t :=
  [{| LocalLLM.Item.id := "r1"; LocalLLM.Item.comment := "Great app";
      LocalLLM.Item.language := "en" |};
   {| LocalLLM.Item.id := "r2"; LocalLLM.Item.comment := "  ";
      LocalLLM.Item.language := "de" |};
   {| LocalLLM.Item.id := "r3";
      LocalLLM.Item.comment := "The app crashes and the fees are high";
      LocalLLM.Item.language := "en" |}].

(** A progress callback that records its arguments. *)
Definition record_progress : nat -> nat -> Eff (list (nat * nat)) unit :=
  fun processed total log => (Normal tt, (log ++ [(processed, total)])%list).

(** A progress callback that throws. *)
Definition failing_progress : nat -> nat -> Eff (list (nat * nat)) unit :=
  fun _ _ => throw "Error: progress sink closed".

Definition fresh_batch : LocalLLM.BatchState (list (nat * nat)) :=
  {| LocalLLM.requests := 0%nat; LocalLLM.progress := [];
     LocalLLM.results := [] |}.

(** Rows of three dates, one of them classified. *)
Definition dated_rows : list LocalDB.Row.t :=
  [{| LocalDB.Row.id := 1; LocalDB.Row.rating := 9;
      LocalDB.Row.comment := Some "Great app";
      LocalDB.Row.language := Some "en"; LocalDB.Row.date := "2024-05-01";
      LocalDB.Row.customer_id := None; LocalDB.Row.visitor_id := None;
      LocalDB.Row.platform := Some "ios";
      LocalDB.Row.sentiment := Some "positive";
      LocalDB.Row.sentiment_confidence := Some (4 # 5);
      LocalDB.Row.created_at := 0%nat; LocalDB.Row.updated_at := 0%nat |};
   {| LocalDB.Row.id := 2; LocalDB.Row.rating := 4;
      LocalDB.Row.comment := Some "Fees are high";
      LocalDB.Row.language := Some "en"; LocalDB.Row.date := "2024-06-15";
      LocalDB.Row.customer_id := None; LocalDB.Row.visitor_id := None;
      LocalDB.Row.platform := Some "android";
      LocalDB.Row.sentiment := None;
      LocalDB.Row.sentiment_confidence := None;
      LocalDB.Row.created_at := 0%nat; LocalDB.Row.updated_at := 0%nat |};
   {| LocalDB.Row.id := 3; LocalDB.Row.rating := 7;
      LocalDB.Row.comment := None;
      LocalDB.Row.language := Some "de"; LocalDB.Row.date := "2024-03-09";
      LocalDB.Row.customer_id := None; LocalDB.Row.visitor_id := None;
      LocalDB.Row.platform := Some "ios";
      LocalDB.Row.sentiment := None;
      LocalDB.Row.sentiment_confidence := None;
      LocalDB.Row.created_at := 0%nat; LocalDB.Row.updated_at := 0%nat |}].

(** Two inserts around a [clearAll], and one after [close]. *)
Definition history : list LocalDB.Operation :=
  [LocalDB.Insert 1000%nat (insert_data (Some "Slow") None);
   LocalDB.Clear;
   LocalDB.Insert 2000%nat (insert_data (Some "Fast") None);
   LocalDB.Close;
   LocalDB.Insert 3000%nat (insert_data (Some "Late") None)].

(** The day of an instant, for the closed examples. *)
Definition isoDate : Date -> string := fun _ => "2024-07-01".

Definition current_timestamp : LocalDB.Database -> Date :=
  fun db => (1000 * Z.to_nat (LocalDB.seq_responses db))%nat.

(** A bulk body of two entries: one classified by its sender, one with
    neither comment nor date. *)
Definition bulk_entries : list Routes.Bulk.t :=
  [{| Routes.Bulk.rating := 9; Routes.Bulk.comment := Some "Great app";
      Routes.Bulk.date := Some "2024-05-01"; Routes.Bulk.language := None;
      Routes.Bulk.sentiment := Some "positive"; Routes.Bulk.themes := None |};
   {| Routes.Bulk.rating := 3; Routes.Bulk.comment := None;
      Routes.Bulk.date := None; Routes.Bulk.language := Some "de";
      Routes.Bulk.sentiment := None; Routes.Bulk.themes := None |}].

(** A bulk body whose second entry has the rating 11. *)
Definition invalid_entries : list Routes.Bulk.t :=
  [{| Routes.Bulk.rating := 9; Routes.Bulk.comment := Some "Great app";
      Routes.Bulk.date := None; Routes.Bulk.language := None;
      Routes.Bulk.sentiment := None; Routes.Bulk.themes := None |};
   {| Routes.Bulk.rating := 11; Routes.Bulk.comment := None;
      Routes.Bulk.date := None; Routes.Bulk.language := None;
      Routes.Bulk.sentiment := None; Routes.Bulk.themes := None |}].

(** A CSV body of two entries, the second without a sentiment. *)
Definition csv_entries : list Routes.Csv.t :=
  [{| Routes.Csv.rating := 10; Routes.Csv.comment := Some "Love it";
      Routes.Csv.language := Some "en"; Routes.Csv.date := Some "2024-05-01";
      Routes.Csv.customer := Some "c-17"; Routes.Csv.visitorId := None;
      Routes.Csv.platform := Some "ios";
      Routes.Csv.sentiment := Some "positive";
      Routes.Csv.sentimentConfidence := Some (9 # 10) |};
   {| Routes.Csv.rating := 2; Routes.Csv.comment := Some "Crashes on login";
      Routes.Csv.language := None; Routes.Csv.date := None;
      Routes.Csv.customer := None; Routes.Csv.visitorId := None;
      Routes.Csv.platform := None; Routes.Csv.sentiment := None;
      Routes.Csv.sentimentConfidence := None |}].

End Examples.

(* ================================================================== *)
(** * Part II.  Properties                                             *)
(* ================================================================== *)

(** ** The progress tracker *)

Section TrackerFacts.

Import AIProcessingTracker.

Lemma run_snoc (calls : list Call) (c : Call) :
  run (calls ++ [c]) = call (run calls) c.
Proof.
  unfold run. now rewrite fold_left_app.
Qed.

Lemma increments_since_start_nonneg (history : list Call) :
  (0 <= increments_since_start history)%Z.
Proof.
  induction history as [|c earlier IH]; simpl; [lia|].
  destruct c; lia.
Qed.

(** The status after a call history is a function of three readings of
    that history. *)
Lemma run_reads_history (calls : list Call) :
  processed (run calls) = increments_since_start (rev calls) /\
  total (run calls) = batch_size (rev calls) /\
  inProgress (run calls) = run_open (rev calls).
Proof.
  induction calls as [|c calls IH] using rev_ind.
  - repeat split.
  - rewrite run_snoc, rev_app_distr. simpl.
    destruct IH as (Hp & Ht & Hi).
    destruct c; simpl; repeat split; congruence.
Qed.

(** C8 (as stated, refuted): after [startProcessing(1)] and two
    [incrementProcessed()] calls the tracker holds [processed = 2] and
    [total = 1], so [processed <= total] does not hold after every
    sequence of operations. *)
Example tracker_processed_exceeds_total :
  let status :=
    run [StartProcessing 1 0%nat 0%nat; IncrementProcessed 1%nat;
         IncrementProcessed 2%nat] in
  processed status = 2%Z /\ total status = 1%Z /\
  ~ (0 <= processed status <= total status)%Z.
Proof.
  simpl. repeat split. lia.
Qed.

(** C8 (amended): after any sequence of tracker calls from the initial
    state, [processed] is the number of [incrementProcessed] calls since
    the latest [startProcessing] (hence never negative), [total] is the
    batch size given to the latest [startProcessing] (0 when there was
    none), so [processed <= total] holds exactly when no more increments
    than the batch size were made since that start; [inProgress] is true
    exactly when a [startProcessing] has not yet been followed by a
    [completeProcessing]; and every [startProcessing(n)] resets
    [processed] to 0 and [total] to [n]. *)
Theorem tracker_state_follows_calls (calls : list Call) :
  let status := run calls in
  let history := rev calls in
  processed status = increments_since_start history /\
  total status = batch_size history /\
  inProgress status = run_open history /\
  (0 <= processed status)%Z /\
  ((processed status <= total status)%Z <->
   (increments_since_start history <= batch_size history)%Z) /\
  (forall n now1 now2 before,
      processed (startProcessing n now1 now2 before) = 0%Z /\
      total (startProcessing n now1 now2 before) = n /\
      inProgress (startProcessing n now1 now2 before) = true).
Proof.
  intros status history.
  destruct (run_reads_history calls) as (Hp & Ht & Hi).
  subst status history.
  repeat split; auto.
  - rewrite Hp. apply increments_since_start_nonneg.
  - rewrite Hp, Ht. auto.
  - rewrite Hp, Ht. auto.
Qed.

Lemma run_app (before after : list Call) :
  run (before ++ after) = fold_left call after (run before).
Proof.
  unfold run. apply fold_left_app.
Qed.

Lemma increments_add (k : nat) (now : Date) (status : ProcessingStatus) :
  processed (fold_left call (repeat (IncrementProcessed now) k) status) =
    (processed status + Z.of_nat k)%Z /\
  total (fold_left call (repeat (IncrementProcessed now) k) status) = total status /\
  inProgress (fold_left call (repeat (IncrementProcessed now) k) status) =
    inProgress status.
Proof.
  revert status. induction k as [|k IH]; intro status.
  - simpl. repeat split. lia.
  - cbn [repeat fold_left]. destruct (IH (call status (IncrementProcessed now)))
      as (Hp & Ht & Hi).
    rewrite Hp, Ht, Hi. simpl. repeat split. lia.
Qed.

(** Used as the orchestrator uses it, the tracker keeps
    [0 <= processed <= total]: after [startProcessing(n)] and at most [n]
    calls of [incrementProcessed], whatever was called before. *)
Theorem tracker_bounds_within_a_run
    (before : list Call) (n : Z) (now1 now2 now : Date) (k : nat) :
  (Z.of_nat k <= n)%Z ->
  let status :=
    run (before ++ StartProcessing n now1 now2 :: repeat (IncrementProcessed now) k) in
  (0 <= processed status <= total status)%Z /\
  processed status = Z.of_nat k /\
  total status = n /\
  inProgress status = true.
Proof.
  intros Hk status. subst status.
  rewrite run_app. cbn [fold_left].
  destruct (increments_add k now (call (run before) (StartProcessing n now1 now2)))
    as (Hp & Ht & Hi).
  rewrite Hp, Ht, Hi. simpl. repeat split; lia.
Qed.

End TrackerFacts.

(** ** Response groups *)

Section ResponseGroupFacts.

Import Routes.

Lemma promoter_test (r : Z) :
  (r >=? 9)%Z = group_eqb (responseGroup r) Promoter.
Proof.
  unfold responseGroup.
  destruct (r >=? 9)%Z eqn:H9; [reflexivity|].
  destruct (r >=? 7)%Z; reflexivity.
Qed.

Lemma passive_test (r : Z) :
  ((r >=? 7)%Z && (r <=? 8)%Z) = group_eqb (responseGroup r) Passive.
Proof.
  unfold responseGroup.
  destruct (r >=? 9)%Z eqn:H9, (r >=? 7)%Z eqn:H7, (r <=? 8)%Z eqn:H8;
    simpl; try reflexivity; lia.
Qed.

Lemma detractor_test (r : Z) :
  (r <=? 6)%Z = group_eqb (responseGroup r) Detractor.
Proof.
  unfold responseGroup.
  destruct (r >=? 9)%Z eqn:H9, (r >=? 7)%Z eqn:H7, (r <=? 6)%Z eqn:H6;
    simpl; try reflexivity; lia.
Qed.

Lemma segment_of_rows (p : Z -> bool) (rows : list LocalDB.Row.t) :
  List.length (filter (fun r => p (LocalDB.Row.rating r)) rows) =
  List.length (filter p (map LocalDB.Row.rating rows)).
Proof.
  induction rows as [|x rows IH]; simpl; [reflexivity|].
  destruct (p (LocalDB.Row.rating x)); simpl; now rewrite IH.
Qed.

(** C9: the response group of a rating is Promoter exactly from 9 up,
    Passive exactly for 7 and 8, Detractor exactly up to 6 (the eleven
    ratings 0..10 are listed); and the segment counts of the statistics
    routes and of [LocalDB.getNPSStats] count the ratings of each
    response group. *)
Theorem responseGroup_thresholds :
  (forall r : Z,
      (responseGroup r = Promoter <-> (9 <= r)%Z) /\
      (responseGroup r = Passive <-> (7 <= r <= 8)%Z) /\
      (responseGroup r = Detractor <-> (r <= 6)%Z)) /\
  map responseGroup [0; 1; 2; 3; 4; 5; 6; 7; 8; 9; 10]%Z =
    [Detractor; Detractor; Detractor; Detractor; Detractor; Detractor;
     Detractor; Passive; Passive; Promoter; Promoter] /\
  (forall ratings : list Z,
      promoters ratings = count_group Promoter ratings /\
      passives ratings = count_group Passive ratings /\
      detractors ratings = count_group Detractor ratings) /\
  (forall rows : list LocalDB.Row.t,
      LocalDB.promoters rows = promoters (map LocalDB.Row.rating rows) /\
      LocalDB.passives rows = passives (map LocalDB.Row.rating rows) /\
      LocalDB.detractors rows = detractors (map LocalDB.Row.rating rows)).
Proof.
  split; [|split; [reflexivity|split]].
  - intro r. unfold responseGroup.
    destruct (r >=? 9)%Z eqn:H9; [|destruct (r >=? 7)%Z eqn:H7];
      repeat split; intros; try discriminate; try reflexivity; lia.
  - intro ratings. unfold promoters, passives, detractors, count_group.
    repeat split; f_equal; apply filter_ext; intro r.
    + apply promoter_test.
    + apply passive_test.
    + apply detractor_test.
  - intro rows. unfold LocalDB.promoters, LocalDB.passives, LocalDB.detractors,
      promoters, passives, detractors.
    repeat split.
    + apply (segment_of_rows (fun r => (r >=? 9)%Z)).
    + apply (segment_of_rows (fun r => (r >=? 7)%Z && (r <=? 8)%Z)).
    + apply (segment_of_rows (fun r => (r <=? 6)%Z)).
Qed.

End ResponseGroupFacts.

(** ** The SQLite adapter *)

Section LocalDBFacts.

Import LocalDB.

Lemma string_or_null_falsy (v : option string) :
  falsy_string v -> string_or_null v = None.
Proof.
  intros [-> | ->]; reflexivity.
Qed.

Lemma string_or_null_some (v : option string) (s : string) :
  string_or_null v = Some s -> v = Some s /\ s <> "".
Proof.
  destruct v as [x|]; simpl; [|discriminate].
  destruct (x =? "") eqn:E; [discriminate|].
  intros [= <-]. split; [reflexivity|].
  now apply String.eqb_neq.
Qed.

Lemma number_or_null_falsy (v : option JSNumber) :
  falsy_number v -> number_or_null v = None.
Proof.
  intros [-> | [-> | (q & -> & Hq)]]; simpl; try reflexivity.
  apply Qeq_bool_iff in Hq. now rewrite Hq.
Qed.

Lemma number_or_null_some (v : option JSNumber) (q : Q) :
  number_or_null v = Some q -> v = Some (Num q) /\ ~ (q == 0)%Q.
Proof.
  destruct v as [[|x]|]; simpl; try discriminate.
  destruct (Qeq_bool x 0) eqn:E; [discriminate|].
  intros [= <-]. split; [reflexivity|].
  intro H. apply Qeq_bool_iff in H. congruence.
Qed.

(** C10: [insertResponse] appends one row in which every optional field
    that was falsy in the argument (absent, the empty string, the number 0
    or NaN) is NULL; a stored comment is never the empty string and a
    stored [sentiment_confidence] is never 0, so a confidence of 0 does
    not come back from the store as a number. *)
Theorem insertResponse_stores_falsy_as_NULL
    (now : Date) (data : Data.t) (db : Database) :
  is_open db = true ->
  exists row,
    insertResponse now data db =
      (Normal (Row.id row),
       {| nps_responses := nps_responses db ++ [row];
          topic_mentions := topic_mentions db;
          seq_responses := Row.id row;
          seq_mentions := seq_mentions db;
          is_open := true |}) /\
    (falsy_string (Data.comment data) -> Row.comment row = None) /\
    (falsy_string (Data.language data) -> Row.language row = None) /\
    (falsy_string (Data.customer_id data) -> Row.customer_id row = None) /\
    (falsy_string (Data.visitor_id data) -> Row.visitor_id row = None) /\
    (falsy_string (Data.platform data) -> Row.platform row = None) /\
    (falsy_string (Data.sentiment data) -> Row.sentiment row = None) /\
    (falsy_number (Data.sentiment_confidence data) ->
     Row.sentiment_confidence row = None) /\
    (forall s, Row.comment row = Some s ->
               Data.comment data = Some s /\ s <> "") /\
    (forall q, Row.sentiment_confidence row = Some q ->
               Data.sentiment_confidence data = Some (Num q) /\ ~ (q == 0)%Q).
Proof.
  intro Hopen. unfold insertResponse. rewrite Hopen. cbv zeta.
  match goal with
  | |- context [(nps_responses db ++ [?r])%list] => exists r
  end.
  split; [reflexivity|]. simpl.
  repeat split; intros;
    try (now apply string_or_null_falsy);
    try (now apply number_or_null_falsy).
  - now apply string_or_null_some.
  - now apply string_or_null_some in H.
  - now apply number_or_null_some.
  - now apply number_or_null_some in H.
Qed.

(** An empty comment and a confidence of 0 are both stored as NULL. *)
Lemma insertResponse_zero_confidence_is_NULL :
  exists row,
    nps_responses
      (snd (insertResponse 0%nat
              (Examples.insert_data (Some "") (Some (Num 0))) empty)) = [row] /\
    Row.comment row = None /\
    Row.sentiment_confidence row = None.
Proof.
  destruct (insertResponse_stores_falsy_as_NULL 0%nat
              (Examples.insert_data (Some "") (Some (Num 0))) empty eq_refl)
    as (row & Hrun & Hcomment & _ & _ & _ & _ & _ & Hconf & _).
  exists row. rewrite Hrun. simpl. repeat split.
  - apply Hcomment. now right.
  - apply Hconf. right. right. exists 0. split; reflexivity.
Defined.

End LocalDBFacts.

(** ** The classification clients *)

Section ClientFacts.

Context {rt : Runtime}.

Lemma same_bytes_code (w : list N) (code : list ascii) :
  same_bytes w code = true ->
  code = map (fun n => ascii_of_N n) w.
Proof.
  revert code. induction w as [|n w IH]; intros [|c code] H;
    try discriminate; [reflexivity|].
  simpl in H. apply andb_true_iff in H as [Hn Hw].
  apply N.eqb_eq in Hn. subst n. simpl.
  now rewrite ascii_N_embedding, <- (IH code Hw).
Qed.

(** One white space code point at the head of a string is removed. *)
Lemma trimStart_code (code rest : list ascii) :
  is_white_space code = true ->
  trimStart_chars (code ++ rest) = trimStart_chars rest.
Proof.
  unfold is_white_space. intro H.
  apply existsb_exists in H as (w & Hin & Hw).
  apply same_bytes_code in Hw. subst code.
  simpl in Hin.
  repeat (destruct Hin as [<-|Hin]; [reflexivity|]).
  destruct Hin.
Qed.

Lemma trimStart_white_space (codes : list (list ascii)) :
  Forall (fun code => is_white_space code = true) codes ->
  trimStart_chars (concat codes) = [].
Proof.
  induction 1 as [|code codes Hcode _ IH]; [reflexivity|].
  simpl. now rewrite trimStart_code.
Qed.

(** A comment made of white space only (the empty one included) trims to
    the empty string. *)
Lemma trim_white_space (s : string) :
  white_space_only s -> trim s = "".
Proof.
  intros (codes & Hcodes & Hs). unfold trim.
  now rewrite Hs, (trimStart_white_space _ Hcodes).
Qed.

Lemma blank_guard (comment : string) :
  trim comment = "" ->
  (comment =? "") || (String.length (trim comment) =? 0)%nat = true.
Proof.
  intros ->. simpl. apply orb_true_r.
Qed.

Lemma nonblank_guard (comment : string) :
  trim comment <> "" ->
  (comment =? "") || (String.length (trim comment) =? 0)%nat = false.
Proof.
  intro H. apply orb_false_iff. split.
  - apply String.eqb_neq. intros ->. now apply H.
  - destruct (trim comment); [now elim H | reflexivity].
Qed.

(** The two sentiment patterns fail on the same strings: those with no
    closing brace after their first opening brace. *)
Lemma upto_first_last (c : ascii) (s : list ascii) :
  upto_last c s = None <-> upto_first c s = None.
Proof.
  induction s as [|x s IH]; simpl; [tauto|].
  destruct (x =? c)%char.
  - destruct (upto_last c s); split; discriminate.
  - destruct IH as [IH1 IH2].
    destruct (upto_last c s), (upto_first c s); split; intro H;
      try discriminate H; try reflexivity.
    + discriminate (IH2 eq_refl).
    + discriminate (IH1 eq_refl).
Qed.

Lemma no_match_greedy_lazy (s : string) :
  match_braces_greedy s = None -> match_braces_lazy s = None.
Proof.
  unfold match_braces_greedy, match_braces_lazy.
  destruct (from_first "{" (list_ascii_of_string s)) as [[|open r]|]; auto.
  destruct (upto_last "}" r) eqn:E; [discriminate|].
  apply upto_first_last in E. now rewrite E.
Qed.

(** C7 (as stated, refuted): for the empty comment the client of
    [ollama-llm.ts], the one the orchestrator imports, returns an object
    whose [confidence] property reads [undefined], not the number 0. *)
Example ollama_blank_comment_has_no_confidence :
  exists r,
    OllamaLLM.analyzeSentiment (Examples.always "neutral") "" "en" 0%nat
      = (Normal r, 0%nat) /\
    get (OllamaLLM_object r) "sentiment" = Normal (JString "neutral") /\
    get (OllamaLLM_object r) "confidence" = Normal JUndefined /\
    get (OllamaLLM_object r) "confidence" <> Normal (JNumber (Num 0)).
Proof.
  eexists. split; [reflexivity|]. repeat split. discriminate.
Qed.

(** C7 (amended): for a comment made of white space code points only
    (the white space of ECMAScript, the no-break and the other Unicode
    spaces included), the empty comment among them,
    [LocalLLM.analyzeSentiment] returns
    [{sentiment: 'neutral', confidence: 0, explanation: 'Empty comment'}]
    and [OllamaLLM.analyzeSentiment] returns
    [{sentiment: 'neutral', explanation: 'Empty comment'}], which has no
    confidence; neither sends a request to the inference endpoint (the
    request count is unchanged). *)
Theorem analyzeSentiment_blank_comment
    (endpoint : Endpoint) (comment language : string) (sent : nat) :
  white_space_only comment ->
  LocalLLM.analyzeSentiment endpoint comment language sent =
    (Normal {| LocalLLM.sentiment := JString "neutral";
               LocalLLM.confidence := Num 0;
               LocalLLM.explanation := JString "Empty comment" |}, sent) /\
  OllamaLLM.analyzeSentiment endpoint comment language sent =
    (Normal {| OllamaLLM.sentiment := JString "neutral";
               OllamaLLM.explanation := JString "Empty comment" |}, sent).
Proof.
  intro H. apply trim_white_space, blank_guard in H.
  unfold LocalLLM.analyzeSentiment, OllamaLLM.analyzeSentiment.
  rewrite H. split; reflexivity.
Qed.

(** C5 (amended): for a comment that is not blank and the reply the
    endpoint gives to the request.  When the reply has no opening brace
    with a closing brace after it, [LocalLLM.analyzeSentiment] returns the
    keyword analysis of the comment, a function of the comment and the
    two fixed word lists alone, and [OllamaLLM.analyzeSentiment] returns
    the fixed result
    [{sentiment: 'neutral', explanation: 'Could not parse response'}].
    When the reply has such braces but the text a client's pattern
    matches is not JSON, the keyword lists are not used: the client of
    [local-llm.ts] returns the fixed [{sentiment: 'neutral',
    confidence: 0.3}] and the client of [ollama-llm.ts] the fixed
    [{sentiment: 'neutral', explanation: 'Analysis failed'}].  In each
    case the result does not depend on the reply, the language or the
    request count, so equal comments get equal results. *)
Theorem analyzeSentiment_without_JSON
    (endpoint : Endpoint) (comment language reply : string) (sent : nat) :
  trim comment <> "" ->
  (forall prompt, endpoint sent prompt = Some reply) ->
  (no_brace_pair reply ->
   LocalLLM.analyzeSentiment endpoint comment language sent =
     (Normal (LocalLLM.keywordAnalysis comment), S sent) /\
   OllamaLLM.analyzeSentiment endpoint comment language sent =
     (Normal {| OllamaLLM.sentiment := JString "neutral";
                OllamaLLM.explanation := JString "Could not parse response" |},
      S sent)) /\
  (forall json error,
     match_braces_greedy (trim reply) = Some json ->
     JSON_parse json = Throw error ->
     LocalLLM.analyzeSentiment endpoint comment language sent =
       (Normal {| LocalLLM.sentiment := JString "neutral";
                  LocalLLM.confidence := Num (3 # 10);
                  LocalLLM.explanation := JUndefined |}, S sent)) /\
  (forall json error,
     match_braces_lazy (trim reply) = Some json ->
     JSON_parse json = Throw error ->
     OllamaLLM.analyzeSentiment endpoint comment language sent =
       (Normal {| OllamaLLM.sentiment := JString "neutral";
                  OllamaLLM.explanation := JString "Analysis failed" |},
        S sent)).
Proof.
  intros Hcomment Hreply.
  apply nonblank_guard in Hcomment.
  unfold LocalLLM.analyzeSentiment, OllamaLLM.analyzeSentiment.
  rewrite Hcomment.
  unfold try_catch, bind, LocalLLM.generate, OllamaLLM.generate,
    lift_completion.
  rewrite !Hreply.
  split; [|split].
  - intro Hnone. red in Hnone.
    rewrite Hnone, (no_match_greedy_lazy _ Hnone). split; reflexivity.
  - intros json error Hmatch Hparse. now rewrite Hmatch, Hparse.
  - intros json error Hmatch Hparse. now rewrite Hmatch, Hparse.
Qed.

End ClientFacts.

(** The amended C7 at a comment of a space, a no-break space, a tab and
    an ideographic space. *)
Lemma analyzeSentiment_blank_comment_witness :
  LocalLLM.analyzeSentiment (rt := Examples.host)
      (Examples.always "positive") Examples.white_comment "en" 0%nat =
    (Normal {| LocalLLM.sentiment := JString "neutral";
               LocalLLM.confidence := Num 0;
               LocalLLM.explanation := JString "Empty comment" |}, 0%nat) /\
  OllamaLLM.analyzeSentiment
      (Examples.always "positive") Examples.white_comment "en" 0%nat =
    (Normal {| OllamaLLM.sentiment := JString "neutral";
               OllamaLLM.explanation := JString "Empty comment" |}, 0%nat).
Proof.
  apply (analyzeSentiment_blank_comment (rt := Examples.host)).
  exists [list_ascii_of_string " ";
          list_ascii_of_string Examples.nbsp;
          [ascii_of_nat 9];
          list_ascii_of_string Examples.ideographic_space].
  split; [repeat constructor | reflexivity].
Defined.

(** C5 (as stated, refuted): on a reply without any JSON the client of
    [ollama-llm.ts] answers [neutral] for a comment whose keywords are
    positive and for one whose keywords are negative: its result is not
    computed from the keyword lists. *)
Example ollama_fallback_ignores_keywords :
  no_brace_pair "I would say positive." /\
  OllamaLLM.analyzeSentiment (Examples.always "I would say positive.")
      "great app" "en" 0%nat =
    (Normal {| OllamaLLM.sentiment := JString "neutral";
               OllamaLLM.explanation := JString "Could not parse response" |},
     1%nat) /\
  OllamaLLM.analyzeSentiment (Examples.always "I would say positive.")
      "terrible app" "en" 0%nat =
    (Normal {| OllamaLLM.sentiment := JString "neutral";
               OllamaLLM.explanation := JString "Could not parse response" |},
     1%nat) /\
  LocalLLM.sentiment (LocalLLM.keywordAnalysis (rt := Examples.host) "great app")
    = JString "positive" /\
  LocalLLM.sentiment (LocalLLM.keywordAnalysis (rt := Examples.host) "terrible app")
    = JString "negative".
Proof.
  repeat split; vm_compute; reflexivity.
Qed.

(** The amended C5 at the comment ['great app']: a reply of plain prose,
    and a reply whose braces hold no JSON. *)
Lemma analyzeSentiment_without_JSON_witness :
  (LocalLLM.analyzeSentiment (rt := Examples.host)
       (Examples.always "I would say positive.") "great app" "en" 0%nat =
     (Normal (LocalLLM.keywordAnalysis (rt := Examples.host) "great app"), 1%nat) /\
   OllamaLLM.analyzeSentiment
       (Examples.always "I would say positive.") "great app" "en" 0%nat =
     (Normal {| OllamaLLM.sentiment := JString "neutral";
                OllamaLLM.explanation := JString "Could not parse response" |},
      1%nat)) /\
  LocalLLM.analyzeSentiment (rt := Examples.host)
      (Examples.always "I would say {positive}.") "great app" "en" 0%nat =
    (Normal {| LocalLLM.sentiment := JString "neutral";
               LocalLLM.confidence := Num (3 # 10);
               LocalLLM.explanation := JUndefined |}, 1%nat) /\
  OllamaLLM.analyzeSentiment
      (Examples.always "I would say {positive}.") "great app" "en" 0%nat =
    (Normal {| OllamaLLM.sentiment := JString "neutral";
               OllamaLLM.explanation := JString "Analysis failed" |}, 1%nat).
Proof.
  assert (Hcomment : trim "great app" <> "") by (vm_compute; discriminate).
  split; [|split].
  - apply (analyzeSentiment_without_JSON (rt := Examples.host)
             (Examples.always "I would say positive.") "great app" "en"
             "I would say positive." 0%nat Hcomment (fun _ => eq_refl)).
    vm_compute. reflexivity.
  - refine (proj1 (proj2
               (analyzeSentiment_without_JSON (rt := Examples.host)
                  (Examples.always "I would say {positive}.") "great app" "en"
                  "I would say {positive}." 0%nat Hcomment (fun _ => eq_refl)))
              "{positive}" _ _ _); vm_compute; reflexivity.
  - refine (proj2 (proj2
               (analyzeSentiment_without_JSON (rt := Examples.host)
                  (Examples.always "I would say {positive}.") "great app" "en"
                  "I would say {positive}." 0%nat Hcomment (fun _ => eq_refl)))
              "{positive}" _ _ _); vm_compute; reflexivity.
Defined.

(** C4 (the code at the failing input): when the reply is the well-formed
    object [{"sentiment":"mixed","confidence":0.9}], both clients hand the
    label [mixed] to their caller, and on the reply [{}] the client of
    [local-llm.ts] returns [undefined] as sentiment; neither value is one
    of [positive], [negative], [neutral]. *)
Theorem analyzeSentiment_returns_unchecked_label (rt : Runtime) :
  LocalLLM.analyzeSentiment
      (Examples.always (Examples.sentiment_reply "mixed")) "App is okay" "en" 0%nat =
    (Normal {| LocalLLM.sentiment := JString "mixed";
               LocalLLM.confidence := Num (9 # 10);
               LocalLLM.explanation := JUndefined |}, 1%nat) /\
  OllamaLLM.analyzeSentiment
      (Examples.always (Examples.sentiment_reply "mixed")) "App is okay" "en" 0%nat =
    (Normal {| OllamaLLM.sentiment := JString "mixed";
               OllamaLLM.explanation := JString "Analysis completed" |}, 1%nat) /\
  LocalLLM.analyzeSentiment (Examples.always "{}") "App is okay" "en" 0%nat =
    (Normal {| LocalLLM.sentiment := JUndefined;
               LocalLLM.confidence := Num (1 # 2);
               LocalLLM.explanation := JUndefined |}, 1%nat) /\
  is_sentiment_label (JString "mixed") = false /\
  is_sentiment_label JUndefined = false.
Proof.
  repeat split; vm_compute; reflexivity.
Qed.

(** ** The orchestrator, over any store and any classification client *)

Section OrchestratorFacts.

Import Routes.

Context {St Lm : Type} {Store : ResponseStore St}
        {Client : ClassificationClient Lm}.
Variable clock : nat -> Date.

(** One turn of the loop never throws and counts its row exactly once,
    whatever the classification client and the store do. *)
Lemma processResponse_counts (response : LocalDB.Row.t) (w : World) :
  exists s' l',
    processResponse clock response w =
      (Normal tt,
       {| store := s'; llm := l';
          aiTracker :=
            AIProcessingTracker.incrementProcessed (clock (dates w)) (aiTracker w);
          dates := S (dates w) |}).
Proof.
  unfold processResponse, try_catch, bind, in_llm, in_store,
    incrementProcessed, new_Date, on_tracker, bind.
  destruct (analyzeSentiment _ _ (llm w)) as [[r1|e1] l1]; simpl; [|eauto].
  destruct (extractTopics _ _ l1) as [[r2|e2] l2]; simpl; [|eauto].
  destruct (updateResponse _ _ (store w)) as [[u|e3] s3]; simpl; eauto.
Qed.

Lemma forEach_counts (rows : list LocalDB.Row.t) (w : World) :
  exists s' l' t',
    forEach clock rows w =
      (Normal tt,
       {| store := s'; llm := l'; aiTracker := t';
          dates := (dates w + List.length rows)%nat |}) /\
    AIProcessingTracker.processed t' =
      (AIProcessingTracker.processed (aiTracker w) + Z.of_nat (List.length rows))%Z /\
    AIProcessingTracker.total t' = AIProcessingTracker.total (aiTracker w) /\
    AIProcessingTracker.inProgress t' = AIProcessingTracker.inProgress (aiTracker w).
Proof.
  revert w. induction rows as [|r rows IH]; intro w.
  - destruct w as [s l t d]. exists s, l, t. simpl.
    rewrite Nat.add_0_r, Z.add_0_r. repeat split.
  - destruct (processResponse_counts r w) as (s1 & l1 & H1).
    simpl forEach. unfold bind at 1. rewrite H1.
    match goal with
    | |- context [forEach clock rows ?w1] =>
        destruct (IH w1) as (s2 & l2 & t2 & H2 & Hp & Ht & Hi)
    end.
    exists s2, l2, t2. rewrite H2. simpl in *.
    repeat split; try congruence.
    + do 2 f_equal. lia.
    + rewrite Hp. lia.
Qed.

(** A run over at least one pending row: the tracker is started with
    their number, every row is counted, the run completes. *)
Lemma run_over_pending_rows
    (w : World) (responses : list LocalDB.Row.t) (scanned : St) :
  getResponses (store w) = (Normal responses, scanned) ->
  filter needsProcessing responses <> [] ->
  exists s' l' t' d',
    processCommentsWithAI clock w =
      (Normal tt, {| store := s'; llm := l'; aiTracker := t'; dates := d' |}) /\
    AIProcessingTracker.processed t' =
      Z.of_nat (List.length (filter needsProcessing responses)) /\
    AIProcessingTracker.total t' =
      Z.of_nat (List.length (filter needsProcessing responses)) /\
    AIProcessingTracker.inProgress t' = false.
Proof.
  intros Hscan Hpending.
  unfold processCommentsWithAI, try_catch.
  unfold bind at 1. unfold in_store. rewrite Hscan.
  destruct (filter needsProcessing responses) as [|r rows] eqn:Hrows;
    [now elim Hpending|].
  change (List.length (r :: rows) =? 0)%nat with false. cbv iota.
  unfold bind at 1. unfold startProcessing, bind, new_Date, on_tracker.
  simpl fst. cbv iota beta.
  match goal with
  | |- context [forEach clock (r :: rows) ?w1] =>
      destruct (forEach_counts (r :: rows) w1) as (s2 & l2 & t2 & H2 & Hp & Ht & Hi)
  end.
  rewrite H2. unfold completeProcessing, bind, new_Date, on_tracker.
  simpl in *.
  do 4 eexists. split; [reflexivity|]. simpl.
  repeat split; congruence.
Qed.


(** A run that finds nothing pending returns at once: only the scan has
    touched the store, the client was not called and the tracker was not
    started. *)
Lemma run_with_nothing_pending
    (w : World) (responses : list LocalDB.Row.t) (scanned : St) :
  getResponses (store w) = (Normal responses, scanned) ->
  filter needsProcessing responses = [] ->
  processCommentsWithAI clock w =
    (Normal tt,
     {| store := scanned; llm := llm w; aiTracker := aiTracker w;
        dates := dates w |}).
Proof.
  intros Hscan Hnone.
  unfold processCommentsWithAI, try_catch, bind, in_store.
  now rewrite Hscan, Hnone.
Qed.

(** A run whose scan throws swallows the error in its own [catch]. *)
Lemma run_with_failed_scan (w : World) (error : string) (scanned : St) :
  getResponses (store w) = (Throw error, scanned) ->
  processCommentsWithAI clock w =
    (Normal tt,
     {| store := scanned; llm := llm w; aiTracker := aiTracker w;
        dates := dates w |}).
Proof.
  intro Hscan.
  unfold processCommentsWithAI, try_catch, bind, in_store.
  now rewrite Hscan.
Qed.

Lemma filter_nothing {A} (p : A -> bool) (l : list A) :
  (forall x, In x l -> p x = false) -> filter p l = [].
Proof.
  induction l as [|x l IH]; simpl; intro H; [reflexivity|].
  rewrite (H x (or_introl eq_refl)). apply IH. intros y Hy. apply H. now right.
Qed.

(** The filter of the scan, spelled out. *)
Lemma needsProcessing_iff (r : LocalDB.Row.t) :
  needsProcessing r = true <->
  (exists c, LocalDB.Row.comment r = Some c /\ trim c <> "") /\
  (LocalDB.Row.sentiment r = None \/
   LocalDB.Row.sentiment r = Some "" \/
   LocalDB.Row.sentiment r = Some "neutral").
Proof.
  unfold needsProcessing.
  destruct (LocalDB.Row.comment r) as [c|].
  2:{ split; [discriminate|]. intros [(c & Hc & _) _]. discriminate. }
  rewrite !andb_true_iff, negb_true_iff, String.eqb_neq, Nat.ltb_lt.
  split.
  - intros [[Hc Hlen] Hs]. split.
    + exists c. split; [reflexivity|]. intro E. rewrite E in Hlen. simpl in Hlen. lia.
    + destruct (LocalDB.Row.sentiment r) as [s|]; [|now left].
      apply orb_true_iff in Hs as [Hs|Hs]; apply String.eqb_eq in Hs; subst; auto.
  - intros [(c' & [= <-] & Hc) Hs]. repeat split.
    + intros ->. now apply Hc.
    + destruct (trim c); [now elim Hc | simpl; lia].
    + destruct Hs as [-> | [-> | ->]]; reflexivity.
Qed.

(** C1 (amended): a row is pending exactly when its comment is not empty
    after trimming and its sentiment is NULL, empty or ['neutral'].  A run
    whose scan finds no pending row returns at once, leaving the tracker
    as it was (not started: [total] keeps the value the previous run gave
    it), calling the classification client not at all and applying
    nothing to the store but the scan itself.  A run whose scan finds a
    pending row starts the tracker with their number, which is positive. *)
Theorem run_without_pending_rows_is_idle
    (w : World) (responses : list LocalDB.Row.t) (scanned : St) :
  getResponses (store w) = (Normal responses, scanned) ->
  (forall r : LocalDB.Row.t,
      needsProcessing r = true <->
      (exists c, LocalDB.Row.comment r = Some c /\ trim c <> "") /\
      (LocalDB.Row.sentiment r = None \/
       LocalDB.Row.sentiment r = Some "" \/
       LocalDB.Row.sentiment r = Some "neutral")) /\
  ((forall r, In r responses -> needsProcessing r = false) ->
   processCommentsWithAI clock w =
     (Normal tt,
      {| store := scanned; llm := llm w; aiTracker := aiTracker w;
         dates := dates w |})) /\
  ((exists r, In r responses /\ needsProcessing r = true) ->
   exists s' l' t' d',
     processCommentsWithAI clock w =
       (Normal tt, {| store := s'; llm := l'; aiTracker := t'; dates := d' |}) /\
     AIProcessingTracker.total t' =
       Z.of_nat (List.length (filter needsProcessing responses)) /\
     (0 < AIProcessingTracker.total t')%Z).
Proof.
  intro Hscan. split; [apply needsProcessing_iff|]. split.
  - intro Hnone.
    apply run_with_nothing_pending with (responses := responses); [assumption|].
    now apply filter_nothing.
  - intros (r & Hin & Hr).
    assert (Hpending : filter needsProcessing responses <> []).
    { intro E. assert (Hf : In r (filter needsProcessing responses))
        by (apply filter_In; auto).
      rewrite E in Hf. exact Hf. }
    destruct (run_over_pending_rows w responses scanned Hscan Hpending)
      as (s' & l' & t' & d' & Hrun & _ & Ht & _).
    exists s', l', t', d'. repeat split; try assumption.
    rewrite Ht.
    destruct (filter needsProcessing responses); [now elim Hpending|].
    simpl List.length. lia.
Qed.

(** C6 (amended): when the scan query throws while no run is in progress,
    the trigger still answers 200 with [success: true]; the error stays
    inside [processCommentsWithAI], no run starts: the tracker is not
    started, the classification client is not called and nothing but the
    failed scan reaches the store. *)
Theorem trigger_with_failed_scan
    (w : World) (error : string) (scanned : St) :
  getResponses (store w) = (Throw error, scanned) ->
  AIProcessingTracker.isProcessing (aiTracker w) = false ->
  process_ai clock w =
    (Normal {| status := 200; success := true;
               message := "AI processing started in background" |},
     {| store := scanned; llm := llm w; aiTracker := aiTracker w;
        dates := dates w |}).
Proof.
  intros Hscan Hidle.
  unfold process_ai, try_catch. rewrite Hidle.
  unfold bind. now rewrite (run_with_failed_scan w error scanned Hscan).
Qed.

(** The promise of [processCommentsWithAI] never rejects: whatever the
    store and the classification client do, the run ends normally. *)
Theorem processCommentsWithAI_never_throws (w : World) :
  fst (processCommentsWithAI clock w) = Normal tt.
Proof.
  destruct (getResponses (store w)) as [[responses|error] scanned] eqn:Hscan.
  - destruct (filter needsProcessing responses) as [|r rows] eqn:Hrows.
    + now rewrite (run_with_nothing_pending w responses scanned Hscan Hrows).
    + destruct (run_over_pending_rows w responses scanned Hscan)
        as (s' & l' & t' & d' & Hrun & _).
      * rewrite Hrows. discriminate.
      * now rewrite Hrun.
  - now rewrite (run_with_failed_scan w error scanned Hscan).
Qed.

(** A trigger that arrives while a run is in progress is answered 409 and
    changes nothing. *)
Theorem trigger_while_processing_conflicts (w : World) :
  AIProcessingTracker.isProcessing (aiTracker w) = true ->
  process_ai clock w =
    (Normal {| status := 409; success := false;
               message := "AI processing is already in progress" |}, w).
Proof.
  intro Hbusy. unfold process_ai, try_catch. now rewrite Hbusy.
Qed.

End OrchestratorFacts.

(** ** The orchestrator over [LocalDB] *)

Section LocalDBRun.

Import Routes.

Context {Lm : Type} {Client : ClassificationClient Lm}.
Variable clock : nat -> Date.

(** No turn of the loop changes the database: the update it calls does
    not exist. *)
Lemma processResponse_keeps_LocalDB
    (response : LocalDB.Row.t) (w : World (S := LocalDB.Database)) :
  store (snd (processResponse (Store := LocalDB_store) clock response w)) = store w.
Proof.
  unfold processResponse, try_catch, bind, in_llm, in_store,
    incrementProcessed, new_Date, on_tracker, bind.
  destruct (analyzeSentiment _ _ (llm w)) as [[r1|e1] l1]; simpl; [|reflexivity].
  destruct (extractTopics _ _ l1) as [[r2|e2] l2]; reflexivity.
Qed.

Lemma forEach_keeps_LocalDB
    (rows : list LocalDB.Row.t) (w : World (S := LocalDB.Database)) :
  store (snd (forEach (Store := LocalDB_store) clock rows w)) = store w.
Proof.
  revert w. induction rows as [|r rows IH]; intro w; [reflexivity|].
  simpl forEach. unfold bind at 1.
  destruct (processResponse_counts (Store := LocalDB_store) clock r w)
    as (s1 & l1 & H1).
  pose proof (processResponse_keeps_LocalDB r w) as Hkeep.
  rewrite H1 in *. rewrite IH. exact Hkeep.
Qed.

(** A whole run leaves every table of the database as it found it. *)
Lemma run_keeps_LocalDB (w : World (S := LocalDB.Database)) :
  store (snd (processCommentsWithAI (Store := LocalDB_store) clock w)) = store w.
Proof.
  unfold processCommentsWithAI, try_catch.
  unfold bind at 1. unfold in_store. simpl getResponses.
  unfold LocalDB.getResponses.
  destruct (LocalDB.is_open (store w)); [|reflexivity].
  match goal with
  | |- context [filter needsProcessing ?l] =>
      destruct (filter needsProcessing l) as [|r rows]
  end; [reflexivity|].
  change (List.length (r :: rows) =? 0)%nat with false. cbv iota.
  unfold bind at 1. unfold startProcessing, bind, new_Date, on_tracker.
  simpl fst. cbv iota beta.
  match goal with
  | |- context [forEach clock (r :: rows) ?w1] =>
      pose proof (forEach_keeps_LocalDB (r :: rows) w1) as Hkeep;
      destruct (forEach_counts (Store := LocalDB_store) clock (r :: rows) w1)
        as (s2 & l2 & t2 & H2 & _)
  end.
  rewrite H2 in *. exact Hkeep.
Qed.

End LocalDBRun.

(** C2 (the code at the failing input): the database holds one pending
    row and the classification of its comment is [positive]; the run
    counts the row and completes, and the stored row is what it was, its
    sentiment and confidence still NULL.  The same holds for every
    database, client and clock: the run never changes the database. *)
Theorem run_persists_no_classification :
  let db := Examples.database [Examples.pending_row] in
  let w1 :=
    snd (Routes.processCommentsWithAI (Store := Routes.LocalDB_store)
           (Client := Examples.client "positive") Examples.clock
           (Routes.boot db)) in
  Routes.needsProcessing Examples.pending_row = true /\
  fst (OllamaLLM.analyzeSentiment
         (Examples.always (Examples.sentiment_reply "positive"))
         "Great app" "en" 0%nat) =
    Normal {| OllamaLLM.sentiment := JString "positive";
              OllamaLLM.explanation := JString "Analysis completed" |} /\
  LocalDB.nps_responses (Routes.store w1) = [Examples.pending_row] /\
  map LocalDB.Row.sentiment (LocalDB.nps_responses (Routes.store w1)) = [None] /\
  map LocalDB.Row.sentiment_confidence (LocalDB.nps_responses (Routes.store w1)) = [None] /\
  AIProcessingTracker.processed (Routes.aiTracker w1) = 1%Z /\
  AIProcessingTracker.total (Routes.aiTracker w1) = 1%Z /\
  AIProcessingTracker.inProgress (Routes.aiTracker w1) = false /\
  (forall (Lm : Type) (any_client : Routes.ClassificationClient Lm)
          (any_clock : nat -> Date) (w : Routes.World),
      Routes.store
        (snd (Routes.processCommentsWithAI (Store := Routes.LocalDB_store)
                (Client := any_client) any_clock w)) = Routes.store w).
Proof.
  repeat split;
    first [ intros Lm any_client any_clock w; apply run_keeps_LocalDB
          | vm_compute; reflexivity ].
Qed.

(** C1 (as stated, refuted): the only row is classified [neutral] with
    confidence 0.8, which is also what the endpoint answers, so the first
    run has nothing new to record; it completes, no row is inserted, and
    the second run finds the row pending again: it starts the tracker
    with [total = 1] and sends two more requests to the endpoint. *)
Example second_run_processes_again :
  let run :=
    Routes.processCommentsWithAI (Store := Routes.LocalDB_store)
      (Client := Examples.client "neutral") Examples.clock in
  let w1 := snd (run (Routes.boot (Examples.database [Examples.neutral_row]))) in
  let w2 := snd (run w1) in
  AIProcessingTracker.inProgress (Routes.aiTracker w1) = false /\
  Routes.store w1 = Examples.database [Examples.neutral_row] /\
  Routes.needsProcessing Examples.neutral_row = true /\
  Routes.llm w1 = 2%nat /\
  Routes.llm w2 = 4%nat /\
  AIProcessingTracker.total (Routes.aiTracker w2) = 1%Z /\
  AIProcessingTracker.processed (Routes.aiTracker w2) = 1%Z /\
  AIProcessingTracker.startTime (Routes.aiTracker w1) = Some 0%nat /\
  AIProcessingTracker.startTime (Routes.aiTracker w2) = Some 4000%nat.
Proof.
  repeat split; vm_compute; reflexivity.
Qed.

(** With a store whose update works, a row classified [neutral] is
    written back with the very value the scan treats as not yet
    classified: the next run processes it again. *)
Example neutral_rows_stay_pending :
  let run :=
    Routes.processCommentsWithAI (Store := SpecStore.store)
      (Client := Examples.client "neutral") Examples.clock in
  let w0 :=
    {| Routes.store := [Examples.pending_row]; Routes.llm := 0%nat;
       Routes.aiTracker := AIProcessingTracker.initial; Routes.dates := 0%nat |} in
  let w1 := snd (run w0) in
  let w2 := snd (run w1) in
  map LocalDB.Row.sentiment (Routes.store w1) = [Some "neutral"] /\
  map LocalDB.Row.sentiment_confidence (Routes.store w1) = [Some (4 # 5)] /\
  map Routes.needsProcessing (Routes.store w1) = [true] /\
  Routes.llm w1 = 2%nat /\
  Routes.llm w2 = 4%nat /\
  AIProcessingTracker.total (Routes.aiTracker w2) = 1%Z.
Proof.
  repeat split; vm_compute; reflexivity.
Qed.

(** The amended C1 on a database whose rows are all settled, after an
    earlier run over three rows. *)
Lemma run_without_pending_rows_witness :
  Routes.processCommentsWithAI (Store := Routes.LocalDB_store)
    (Client := Examples.client "positive") Examples.clock Examples.settled_world
  = (Normal tt, Examples.settled_world).
Proof.
  refine (proj1 (proj2 (run_without_pending_rows_is_idle
                          (Store := Routes.LocalDB_store) Examples.clock
                          Examples.settled_world
                          (LocalDB.order_by_date_desc Examples.settled_rows)
                          (Examples.database Examples.settled_rows) eq_refl)) _).
  intros r Hin. simpl in Hin.
  destruct Hin as [<- | [<- | []]]; reflexivity.
Defined.



(** C6 (as stated, refuted): the database connection is closed, so the
    scan query throws; the trigger answers 200 with [success: true]. *)
Example trigger_reports_success_when_scan_fails :
  fst (LocalDB.getResponses Examples.closed_database) = Throw LocalDB.not_open /\
  fst (Routes.process_ai (Store := Routes.LocalDB_store)
         (Client := Examples.client "positive")
         Examples.clock (Routes.boot Examples.closed_database)) =
    Normal {| Routes.status := 200; Routes.success := true;
              Routes.message := "AI processing started in background" |}.
Proof.
  split; vm_compute; reflexivity.
Qed.

(** The amended C6 on the closed database. *)
Lemma trigger_with_failed_scan_witness :
  Routes.process_ai (Store := Routes.LocalDB_store)
    (Client := Examples.client "positive")
    Examples.clock (Routes.boot Examples.closed_database) =
    (Normal {| Routes.status := 200; Routes.success := true;
               Routes.message := "AI processing started in background" |},
     Routes.boot Examples.closed_database).
Proof.
  exact (trigger_with_failed_scan (Store := Routes.LocalDB_store)
           Examples.clock (Routes.boot Examples.closed_database)
           LocalDB.not_open Examples.closed_database eq_refl eq_refl).
Defined.

(** ** What the classification clients guarantee for every reply *)

Section ClientGuarantees.

Context {rt : Runtime}.

Lemma clamp_in_unit_interval (n : JSNumber) :
  Math_min (Math_max n (Num 0)) (Num 1) = NaN \/
  in_unit_interval (Math_min (Math_max n (Num 0)) (Num 1)) = true.
Proof.
  destruct n as [|q]; [now left|]. right. simpl.
  destruct (Qle_bool q 0) eqn:H0; [reflexivity|].
  destruct (Qle_bool q 1) eqn:H1; simpl; [|reflexivity].
  rewrite H1, andb_true_r. apply Qle_bool_iff.
  apply Qlt_le_weak, Qnot_le_lt. intro H.
  apply Qle_bool_iff in H. congruence.
Qed.

Lemma keywordAnalysis_valid (comment : string) :
  is_sentiment_label (LocalLLM.sentiment (LocalLLM.keywordAnalysis comment)) = true /\
  in_unit_interval (LocalLLM.confidence (LocalLLM.keywordAnalysis comment)) = true.
Proof.
  unfold LocalLLM.keywordAnalysis.
  destruct (_ <? _)%nat; [split; reflexivity|].
  destruct (_ <? _)%nat; split; reflexivity.
Qed.

(** [LocalLLM.analyzeSentiment] returns normally for every comment,
    language and endpoint behaviour, after at most one request; the
    confidence it returns is NaN or lies in [0,1]; and its sentiment is one
    of the three labels unless it was copied from the parsed reply. *)
Theorem local_analyzeSentiment_always_returns
    (endpoint : Endpoint) (comment language : string) (sent : nat) :
  exists r sent',
    LocalLLM.analyzeSentiment endpoint comment language sent = (Normal r, sent') /\
    (sent' = sent \/ sent' = S sent) /\
    (LocalLLM.confidence r = NaN \/
     in_unit_interval (LocalLLM.confidence r) = true) /\
    (is_sentiment_label (LocalLLM.sentiment r) = true \/
     copied_from_reply endpoint sent match_braces_greedy (LocalLLM.sentiment r)).
Proof.
  unfold LocalLLM.analyzeSentiment.
  destruct ((comment =? "") || (String.length (trim comment) =? 0)%nat).
  { do 2 eexists. split; [reflexivity|]. simpl. auto. }
  cbv zeta. unfold try_catch, bind, LocalLLM.generate, lift_completion, ret.
  match goal with
  | |- context [endpoint sent ?p] => destruct (endpoint sent p) as [reply|] eqn:He
  end.
  2:{ do 2 eexists. split; [reflexivity|]. simpl. auto. }
  destruct (match_braces_greedy (trim reply)) as [json|] eqn:Hm.
  2:{ do 2 eexists. split; [reflexivity|].
      destruct (keywordAnalysis_valid comment). auto. }
  destruct (JSON_parse json) as [parsed|] eqn:Hp.
  2:{ do 2 eexists. split; [reflexivity|]. simpl. auto. }
  destruct (get parsed "sentiment") as [s|] eqn:Hs.
  2:{ do 2 eexists. split; [reflexivity|]. simpl. auto. }
  destruct (get parsed "confidence") as [c|].
  2:{ do 2 eexists. split; [reflexivity|]. simpl. auto. }
  destruct (ToNumber (or_else c (JNumber (Num (1 # 2))))) as [n|].
  2:{ do 2 eexists. split; [reflexivity|]. simpl. auto. }
  destruct (get parsed "explanation") as [e|].
  2:{ do 2 eexists. split; [reflexivity|]. simpl. auto. }
  do 2 eexists. split; [reflexivity|]. simpl.
  split; [auto|]. split; [apply clamp_in_unit_interval|].
  right. red. eauto 8.
Qed.

(** [OllamaLLM.analyzeSentiment] returns normally for every comment,
    language and endpoint behaviour, after at most one request, and its
    sentiment is one of the three labels unless it was copied from the
    parsed reply. *)
Theorem ollama_analyzeSentiment_always_returns
    (endpoint : Endpoint) (comment language : string) (sent : nat) :
  exists r sent',
    OllamaLLM.analyzeSentiment endpoint comment language sent = (Normal r, sent') /\
    (sent' = sent \/ sent' = S sent) /\
    (is_sentiment_label (OllamaLLM.sentiment r) = true \/
     copied_from_reply endpoint sent match_braces_lazy (OllamaLLM.sentiment r)).
Proof.
  unfold OllamaLLM.analyzeSentiment.
  destruct ((comment =? "") || (String.length (trim comment) =? 0)%nat).
  { do 2 eexists. split; [reflexivity|]. simpl. auto. }
  cbv zeta. unfold try_catch, bind, OllamaLLM.generate, lift_completion, ret.
  match goal with
  | |- context [endpoint sent ?p] => destruct (endpoint sent p) as [reply|] eqn:He
  end.
  2:{ do 2 eexists. split; [reflexivity|]. simpl. auto. }
  destruct (match_braces_lazy (trim reply)) as [json|] eqn:Hm.
  2:{ do 2 eexists. split; [reflexivity|]. simpl. auto. }
  destruct (JSON_parse json) as [parsed|] eqn:Hp.
  2:{ do 2 eexists. split; [reflexivity|]. simpl. auto. }
  destruct (get parsed "sentiment") as [s|] eqn:Hs.
  2:{ do 2 eexists. split; [reflexivity|]. simpl. auto. }
  destruct (get parsed "explanation") as [e|].
  2:{ do 2 eexists. split; [reflexivity|]. simpl. auto. }
  do 2 eexists. split; [reflexivity|]. simpl.
  split; [auto|]. unfold or_else.
  destruct (truthy s); [|now left].
  right. red. eauto 8.
Qed.

End ClientGuarantees.

(** After [startProcessing(10)] and ten [incrementProcessed()] calls the
    tracker holds [processed = total = 10]. *)
Lemma tracker_bounds_within_a_run_witness :
  let status :=
    AIProcessingTracker.run
      (AIProcessingTracker.StartProcessing 10 0%nat 0%nat
         :: repeat (AIProcessingTracker.IncrementProcessed 1%nat) 10) in
  (0 <= AIProcessingTracker.processed status <= AIProcessingTracker.total status)%Z /\
  AIProcessingTracker.processed status = 10%Z /\
  AIProcessingTracker.total status = 10%Z /\
  AIProcessingTracker.inProgress status = true.
Proof.
  refine (tracker_bounds_within_a_run [] 10 0%nat 0%nat 1%nat 10 _).
  vm_compute. discriminate.
Defined.

(** A trigger during a run over a database with one pending row. *)
Lemma trigger_while_processing_witness :
  let w :=
    {| Routes.store := Examples.database [Examples.pending_row];
       Routes.llm := 0%nat;
       Routes.aiTracker :=
         AIProcessingTracker.startProcessing 1 0%nat 0%nat
           AIProcessingTracker.initial;
       Routes.dates := 2%nat |} in
  Routes.process_ai (Store := Routes.LocalDB_store)
    (Client := Examples.client "positive") Examples.clock w =
    (Normal {| Routes.status := 409; Routes.success := false;
               Routes.message := "AI processing is already in progress" |}, w).
Proof.
  cbv zeta.
  refine (trigger_while_processing_conflicts
            (Store := Routes.LocalDB_store) Examples.clock _ _).
  reflexivity.
Defined.

(** [OllamaLLM.extractTopics] returns normally for every comment, language
    and endpoint behaviour, after at most one request. *)
Theorem extractTopics_always_returns
    (endpoint : Endpoint) (comment language : string) (sent : nat) :
  exists r sent',
    OllamaLLM.extractTopics endpoint comment language sent = (Normal r, sent') /\
    (sent' = sent \/ sent' = S sent).
Proof.
  unfold OllamaLLM.extractTopics.
  destruct ((comment =? "") || (String.length (trim comment) =? 0)%nat).
  { do 2 eexists. split; [reflexivity|]. auto. }
  cbv zeta. unfold try_catch, bind, OllamaLLM.generate, lift_completion, ret.
  match goal with
  | |- context [endpoint sent ?p] => destruct (endpoint sent p) as [reply|] eqn:He
  end.
  2:{ do 2 eexists. split; [reflexivity|]. auto. }
  assert (Hfallback :
    exists r, (let (c, s') := OllamaLLM.topicsFallback (trim reply) (S sent) in
               match c with
               | Normal a => (Normal a, s')
               | Throw e => (Normal (OllamaLLM.general (1 # 10)), s')
               end) = (Normal r, S sent)).
  { unfold OllamaLLM.topicsFallback, bind, lift_completion, ret.
    destruct (OllamaLLM.match_topics_array (trim reply)) as [m|]; [|eauto].
    destruct (JSON_parse _) as [parsed|]; [|eauto].
    destruct (get parsed "topics"); eauto. }
  destruct Hfallback as (rf & Hf).
  destruct (OllamaLLM.match_topics_object (trim reply)) as [json|].
  2:{ exists rf, (S sent). rewrite Hf. auto. }
  destruct (JSON_parse _) as [parsed|].
  2:{ do 2 eexists. split; [reflexivity|]. auto. }
  destruct (get parsed "topics") as [t|].
  2:{ do 2 eexists. split; [reflexivity|]. auto. }
  destruct (truthy t && OllamaLLM.isArray t).
  - do 2 eexists. split; [reflexivity|]. auto.
  - exists rf, (S sent). rewrite Hf. auto.
Qed.

(** The clamp of [LocalLLM.analyzeSentiment] lets NaN through: a parsed
    confidence that is a string without numeric value is returned as NaN. *)
Lemma local_confidence_can_be_NaN (rt : Runtime) :
  StringToNumber "high" = NaN ->
  fst (LocalLLM.analyzeSentiment
         (Examples.always
            ("{" ++ DQ ++ "sentiment" ++ DQ ++ ":" ++ DQ ++ "positive" ++ DQ ++ ","
                 ++ DQ ++ "confidence" ++ DQ ++ ":" ++ DQ ++ "high" ++ DQ ++ "}"))
         "App is okay" "en" 0%nat) =
    Normal {| LocalLLM.sentiment := JString "positive";
              LocalLLM.confidence := NaN;
              LocalLLM.explanation := JUndefined |}.
Proof.
  intro Hhigh.
  cbv -[StringToNumber]. rewrite Hhigh. reflexivity.
Qed.

(* ------------------------------------------------------------------ *)
(** ** The topic extraction and the combined analysis of [LocalLLM]    *)
(* ------------------------------------------------------------------ *)

Section LocalTopics.

Context {rt : Runtime}.
Variable endpoint : Endpoint.

Lemma keywordTopic_cases (lowerComment : string) (entry : string * list string) :
  (existsb (includes lowerComment) (snd entry) = false /\
   LocalLLM.keywordTopic lowerComment entry = []) \/
  (existsb (includes lowerComment) (snd entry) = true /\
   exists c,
     LocalLLM.keywordTopic lowerComment entry =
       [{| LocalLLM.Topic.topic := JString (fst entry);
           LocalLLM.Topic.confidence := c |}] /\
     keyword_confidence c).
Proof.
  unfold LocalLLM.keywordTopic. cbv zeta.
  assert (H : forall l,
             existsb (includes lowerComment) l =
             (0 <? List.length (filter (fun keyword => includes lowerComment keyword) l))%nat).
  { induction l as [|k l IH]; simpl; [reflexivity|].
    destruct (includes lowerComment k); simpl; [reflexivity | exact IH]. }
  rewrite H.
  destruct (0 <? _)%nat eqn:Hm; [right | left; split; reflexivity].
  split; [reflexivity|]. eexists. split; [reflexivity|].
  apply Nat.ltb_lt in Hm.
  set (m := List.length _) in *.
  unfold Math_min, keyword_confidence.
  assert (Hq : ((3 # 10) <= inject_Z (Z.of_nat m) * (3 # 10))%Q).
  { unfold Qle, Qmult, inject_Z. simpl. lia. }
  destruct (Qle_bool _ _) eqn:Hle; eexists; (split; [reflexivity|]).
  - split; [exact Hq | now apply Qle_bool_iff].
  - split; [discriminate | apply Qle_refl].
Qed.

Lemma firstn_map_comm {A B} (f : A -> B) (n : nat) (l : list A) :
  firstn n (map f l) = map f (firstn n l).
Proof.
  revert n. induction l as [|x l IH]; intros [|n]; simpl; try reflexivity.
  now rewrite IH.
Qed.

Lemma Forall_firstn_keep {A} (P : A -> Prop) (n : nat) (l : list A) :
  Forall P l -> Forall P (firstn n l).
Proof.
  intro H. revert n. induction H; intros [|n]; simpl; constructor; auto.
Qed.

Lemma keywordTopic_names (lowerComment : string)
    (entries : list (string * list string)) :
  map LocalLLM.Topic.topic (flat_map (LocalLLM.keywordTopic lowerComment) entries) =
  map JString
    (map fst (filter (fun entry => existsb (includes lowerComment) (snd entry))
                     entries)) /\
  Forall (fun t => keyword_confidence (LocalLLM.Topic.confidence t))
         (flat_map (LocalLLM.keywordTopic lowerComment) entries).
Proof.
  induction entries as [|e entries [IHn IHc]]; simpl; [split; constructor|].
  destruct (keywordTopic_cases lowerComment e) as [[He Hk]|[He [c [Hk Hc]]]];
    rewrite He, Hk; simpl.
  - split; assumption.
  - rewrite IHn. split; [reflexivity|]. constructor; assumption.
Qed.

(** The keyword fallback of [LocalLLM.extractTopics] reports at most three
    topics: the first three names of its vocabulary, in the order of the
    vocabulary, that have a keyword in the lower-cased comment, each once
    and each with a confidence between 0.3 and 0.8. *)
Theorem keywordTopics_first_three_matches (comment : string) :
  map LocalLLM.Topic.topic (LocalLLM.keywordTopics comment) =
    map JString (firstn 3 (matchedTopics comment)) /\
  (List.length (LocalLLM.keywordTopics comment) <= 3)%nat /\
  Forall (fun t => keyword_confidence (LocalLLM.Topic.confidence t))
         (LocalLLM.keywordTopics comment).
Proof.
  unfold LocalLLM.keywordTopics, matchedTopics. cbv zeta.
  destruct (keywordTopic_names (toLowerCase comment) LocalLLM.topicKeywords)
    as [Hn Hc].
  split; [|split].
  - now rewrite <- !firstn_map_comm, <- Hn, firstn_map_comm.
  - apply firstn_le_length.
  - now apply Forall_firstn_keep.
Qed.

Lemma mapTopics_clamped (l : list JSValue) (topics : list LocalLLM.Topic.t) :
  LocalLLM.mapTopics l = Normal topics ->
  List.length topics = List.length l /\
  Forall (fun t => LocalLLM.Topic.confidence t = NaN \/
                   in_unit_interval (LocalLLM.Topic.confidence t) = true) topics.
Proof.
  revert topics. induction l as [|v l IH]; simpl; intros topics H.
  - injection H as <-. split; [reflexivity | constructor].
  - unfold LocalLLM.topicOf in H.
    destruct (get v "topic") as [name|]; [|discriminate].
    destruct (get v "confidence") as [c|]; [|discriminate].
    destruct (ToNumber _) as [n|]; [|discriminate].
    destruct (LocalLLM.mapTopics l) as [xs|]; [|discriminate].
    injection H as <-. destruct (IH xs eq_refl) as [Hl Hf].
    split; [simpl; now rewrite Hl|].
    constructor; [apply clamp_in_unit_interval | exact Hf].
Qed.

Lemma keyword_confidence_in_unit_interval (n : JSNumber) :
  keyword_confidence n -> in_unit_interval n = true.
Proof.
  intros [q [-> [H1 H2]]]. simpl. apply andb_true_iff.
  split; apply Qle_bool_iff.
  - eapply Qle_trans; [|exact H1]. discriminate.
  - eapply Qle_trans; [exact H2|]. discriminate.
Qed.

(** [LocalLLM.extractTopics] never raises: for every comment, language
    and endpoint behaviour it returns a topic list, after no request when
    the comment is blank (the list is then empty) and after exactly one
    otherwise; every confidence it returns is NaN or lies in [0,1]. *)
Theorem local_extractTopics_always_returns
    (comment language : string) (sent : nat) :
  exists r,
    LocalLLM.extractTopics endpoint comment language sent =
      (Normal r, after_requests 1 comment sent) /\
    (blank comment = true -> LocalLLM.topics r = []) /\
    Forall (fun t => LocalLLM.Topic.confidence t = NaN \/
                     in_unit_interval (LocalLLM.Topic.confidence t) = true)
           (LocalLLM.topics r).
Proof.
  unfold LocalLLM.extractTopics, after_requests, blank.
  destruct ((comment =? "") || (String.length (trim comment) =? 0)%nat).
  { eexists. split; [reflexivity|]. split; [reflexivity | constructor]. }
  cbv zeta. unfold try_catch, bind, LocalLLM.generate, lift_completion, ret.
  match goal with
  | |- context [endpoint sent ?p] => destruct (endpoint sent p) as [reply|]
  end.
  2:{ eexists. split; [reflexivity|]. split; [discriminate | constructor]. }
  destruct (match_braces_greedy (trim reply)) as [json|].
  2:{ eexists. split; [reflexivity|]. split; [discriminate|]. simpl.
      destruct (keywordTopic_names (toLowerCase comment) LocalLLM.topicKeywords)
        as [_ H].
      apply Forall_firstn_keep. eapply Forall_impl; [|exact H].
      intros t Ht. right. now apply keyword_confidence_in_unit_interval. }
  destruct (JSON_parse json) as [parsed|].
  2:{ eexists. split; [reflexivity|]. split; [discriminate | constructor]. }
  destruct (LocalLLM.parsedTopics parsed) as [l|] eqn:Hl.
  2:{ eexists. split; [reflexivity|]. split; [discriminate | constructor]. }
  eexists. split; [reflexivity|]. split; [discriminate|]. simpl.
  unfold LocalLLM.parsedTopics in Hl.
  destruct (get parsed "topics") as [t|]; [|discriminate].
  destruct (or_else t (JArray [])); try discriminate.
  now apply mapTopics_clamped in Hl.
Qed.

Lemma local_analyzeSentiment_requests (comment language : string) (sent : nat) :
  exists r,
    LocalLLM.analyzeSentiment endpoint comment language sent =
      (Normal r, after_requests 1 comment sent).
Proof.
  unfold LocalLLM.analyzeSentiment, after_requests, blank.
  destruct ((comment =? "") || (String.length (trim comment) =? 0)%nat).
  { eexists. reflexivity. }
  cbv zeta. unfold try_catch, bind, LocalLLM.generate, lift_completion, ret.
  match goal with
  | |- context [endpoint sent ?p] => destruct (endpoint sent p) as [reply|]
  end; [|eexists; reflexivity].
  destruct (match_braces_greedy (trim reply)) as [json|]; [|eexists; reflexivity].
  destruct (JSON_parse json) as [parsed|]; [|eexists; reflexivity].
  destruct (get parsed "sentiment"); [|eexists; reflexivity].
  destruct (get parsed "confidence"); [|eexists; reflexivity].
  destruct (ToNumber _); [|eexists; reflexivity].
  destruct (get parsed "explanation"); eexists; reflexivity.
Qed.

Lemma local_extractTopics_requests (comment language : string) (sent : nat) :
  exists r,
    LocalLLM.extractTopics endpoint comment language sent =
      (Normal r, after_requests 1 comment sent).
Proof.
  unfold LocalLLM.extractTopics, after_requests, blank.
  destruct ((comment =? "") || (String.length (trim comment) =? 0)%nat).
  { eexists. reflexivity. }
  cbv zeta. unfold try_catch, bind, LocalLLM.generate, lift_completion, ret.
  match goal with
  | |- context [endpoint sent ?p] => destruct (endpoint sent p) as [reply|]
  end; [|eexists; reflexivity].
  destruct (match_braces_greedy (trim reply)) as [json|]; [|eexists; reflexivity].
  destruct (JSON_parse json) as [parsed|]; [|eexists; reflexivity].
  destruct (LocalLLM.parsedTopics parsed); eexists; reflexivity.
Qed.

Lemma after_requests_twice (comment : string) (sent : nat) :
  after_requests 1 comment (after_requests 1 comment sent) =
  after_requests 2 comment sent.
Proof.
  unfold after_requests. destruct (blank comment); reflexivity.
Qed.

(** [LocalLLM.analyzeComment] never raises and never takes its [catch]
    branch: it returns the result of [analyzeSentiment] paired with the
    result of [extractTopics] on the following request number, having
    sent no request for a blank comment and exactly two otherwise. *)
Theorem local_analyzeComment_pairs_both_results
    (comment language : string) (sent : nat) :
  exists s t,
    LocalLLM.analyzeSentiment endpoint comment language sent =
      (Normal s, after_requests 1 comment sent) /\
    LocalLLM.extractTopics endpoint comment language (after_requests 1 comment sent) =
      (Normal t, after_requests 2 comment sent) /\
    LocalLLM.analyzeComment endpoint comment language sent =
      (Normal (s, t), after_requests 2 comment sent).
Proof.
  destruct (local_analyzeSentiment_requests comment language sent) as [s Hs].
  destruct (local_extractTopics_requests comment language
              (after_requests 1 comment sent)) as [t Ht].
  rewrite after_requests_twice in Ht.
  exists s, t. split; [exact Hs|]. split; [exact Ht|].
  unfold LocalLLM.analyzeComment, try_catch, bind.
  now rewrite Hs, Ht.
Qed.

Lemma local_analyzeComment_requests (comment language : string) (sent : nat) :
  exists r,
    LocalLLM.analyzeComment endpoint comment language sent =
      (Normal r, after_requests 2 comment sent).
Proof.
  destruct (local_analyzeSentiment_requests comment language sent) as [s Hs].
  destruct (local_extractTopics_requests comment language
              (after_requests 1 comment sent)) as [t Ht].
  rewrite after_requests_twice in Ht.
  exists (s, t). unfold LocalLLM.analyzeComment, try_catch, bind.
  now rewrite Hs, Ht.
Qed.

End LocalTopics.

Lemma nonblank_cons (c : string) (rest : list string) (sent : nat) :
  (2 * nonblank rest + after_requests 2 c sent =
   2 * nonblank (c :: rest) + sent)%nat.
Proof.
  unfold nonblank, after_requests. simpl.
  destruct (blank c); simpl; lia.
Qed.

(* ------------------------------------------------------------------ *)
(** ** [LocalLLM.analyzeBatch]                                         *)
(* ------------------------------------------------------------------ *)

Section LocalBatch.

Context {rt : Runtime}.
Variable endpoint : Endpoint.
Variable P : Type.
Variable onProgress : option (nat -> nat -> Eff P unit).

(** One turn of the loop under a callback that returns. *)
Lemma analyzeItem_quiet (i length : nat) (c : LocalLLM.Item.t)
    (st : LocalLLM.BatchState P) :
  quiet onProgress ->
  exists r,
    LocalLLM.analyzeItem endpoint P onProgress i length c st =
      (Normal tt,
       {| LocalLLM.requests :=
            after_requests 2 (LocalLLM.Item.comment c) (LocalLLM.requests st);
          LocalLLM.progress :=
            progress_after onProgress (i + 1) 1 length (LocalLLM.progress st);
          LocalLLM.results :=
            (LocalLLM.results st ++ [(LocalLLM.Item.id c, r)])%list |}).
Proof.
  intro Hq.
  destruct (local_analyzeComment_requests endpoint (LocalLLM.Item.comment c)
              (LocalLLM.Item.language c) (LocalLLM.requests st)) as [r Hr].
  exists r.
  unfold LocalLLM.analyzeItem, try_catch, bind, LocalLLM.in_requests,
    LocalLLM.push, LocalLLM.in_progress, progress_after.
  rewrite Hr. cbn [LocalLLM.requests LocalLLM.progress LocalLLM.results].
  destruct onProgress as [callback|]; [|reflexivity].
  specialize (Hq (i + 1)%nat length (LocalLLM.progress st)).
  cbn [seq fold_left LocalLLM.requests LocalLLM.progress LocalLLM.results].
  destruct (callback (i + 1)%nat length (LocalLLM.progress st)) as [k p'].
  simpl in Hq. subst k. reflexivity.
Qed.

Lemma progress_after_step (i count length : nat) (p : P) :
  progress_after onProgress (S i + 1) count length
    (progress_after onProgress (i + 1) 1 length p) =
  progress_after onProgress (i + 1) (S count) length p.
Proof.
  unfold progress_after. destruct onProgress; [|reflexivity].
  replace (S i + 1)%nat with (S (i + 1)) by lia. reflexivity.
Qed.

Lemma analyzeFrom_quiet (comments : list LocalLLM.Item.t) :
  quiet onProgress ->
  forall (i length : nat) (st : LocalLLM.BatchState P),
  exists out,
    LocalLLM.analyzeFrom endpoint P onProgress i length comments st =
      (Normal tt,
       {| LocalLLM.requests := 2 * nonblank (map LocalLLM.Item.comment comments) + LocalLLM.requests st;
          LocalLLM.progress :=
            progress_after onProgress (i + 1) (List.length comments) length
              (LocalLLM.progress st);
          LocalLLM.results := (LocalLLM.results st ++ out)%list |}) /\
    map fst out = map LocalLLM.Item.id comments.
Proof.
  intro Hq. induction comments as [|c rest IH]; intros i length st.
  - exists []. split; [|reflexivity].
    simpl. unfold ret, progress_after. rewrite app_nil_r.
    destruct st, onProgress; reflexivity.
  - destruct (analyzeItem_quiet i length c st Hq) as [r Hr].
    simpl. unfold bind at 1. rewrite Hr.
    destruct (IH (S i) length
                {| LocalLLM.requests :=
                     after_requests 2 (LocalLLM.Item.comment c) (LocalLLM.requests st);
                   LocalLLM.progress :=
                     progress_after onProgress (i + 1) 1 length (LocalLLM.progress st);
                   LocalLLM.results :=
                     (LocalLLM.results st ++ [(LocalLLM.Item.id c, r)])%list |})
      as [out [Hout Hids]].
    exists ((LocalLLM.Item.id c, r) :: out). split.
    + rewrite Hout. cbn [LocalLLM.requests LocalLLM.progress LocalLLM.results].
      rewrite nonblank_cons, progress_after_step, <- app_assoc.
      reflexivity.
    + simpl. now rewrite Hids.
Qed.

(** Under a progress callback that returns (or with none),
    [LocalLLM.analyzeBatch] returns one entry per comment, in the order of
    the comments and under their ids, whatever [results] held before; it
    has sent two requests for every comment that is not blank and none
    for the others, and has called the callback with [(1, n)], [(2, n)],
    ..., [(n, n)] in this order. *)
Theorem analyzeBatch_one_result_per_comment
    (comments : list LocalLLM.Item.t) (st : LocalLLM.BatchState P) :
  quiet onProgress ->
  exists out,
    LocalLLM.analyzeBatch endpoint P onProgress comments st =
      (Normal out,
       {| LocalLLM.requests := 2 * nonblank (map LocalLLM.Item.comment comments) + LocalLLM.requests st;
          LocalLLM.progress :=
            progress_after onProgress 1 (List.length comments)
              (List.length comments) (LocalLLM.progress st);
          LocalLLM.results := out |}) /\
    map fst out = map LocalLLM.Item.id comments.
Proof.
  intro Hq.
  destruct (analyzeFrom_quiet comments Hq 0 (List.length comments)
              {| LocalLLM.requests := LocalLLM.requests st;
                 LocalLLM.progress := LocalLLM.progress st;
                 LocalLLM.results := [] |}) as [out [Hout Hids]].
  exists out. split; [|exact Hids].
  unfold LocalLLM.analyzeBatch, bind. rewrite Hout. reflexivity.
Qed.

(** One turn of the loop under a callback that throws: the entry pushed
    by the [try] block stays, and the [catch] block pushes a second one. *)
Lemma analyzeItem_throwing (i length : nat) (c : LocalLLM.Item.t)
    (st : LocalLLM.BatchState P) :
  throwing onProgress ->
  exists r p',
    LocalLLM.analyzeItem endpoint P onProgress i length c st =
      (Normal tt,
       {| LocalLLM.requests :=
            after_requests 2 (LocalLLM.Item.comment c) (LocalLLM.requests st);
          LocalLLM.progress := p';
          LocalLLM.results :=
            (LocalLLM.results st ++
             [(LocalLLM.Item.id c, r); fallback_entry (LocalLLM.Item.id c)])%list |}).
Proof.
  intro Ht.
  destruct (local_analyzeComment_requests endpoint (LocalLLM.Item.comment c)
              (LocalLLM.Item.language c) (LocalLLM.requests st)) as [r Hr].
  exists r.
  unfold LocalLLM.analyzeItem, try_catch, bind, LocalLLM.in_requests,
    LocalLLM.push, LocalLLM.in_progress.
  rewrite Hr. cbn [LocalLLM.requests LocalLLM.progress LocalLLM.results].
  destruct onProgress as [callback|]; [|contradiction].
  destruct (Ht (i + 1)%nat length (LocalLLM.progress st)) as [e He].
  cbn [LocalLLM.requests LocalLLM.progress LocalLLM.results].
  destruct (callback (i + 1)%nat length (LocalLLM.progress st)) as [k p'].
  simpl in He. subst k. exists p'.
  cbn [LocalLLM.requests LocalLLM.progress LocalLLM.results].
  rewrite <- app_assoc. reflexivity.
Qed.

Lemma analyzeFrom_throwing (comments : list LocalLLM.Item.t) :
  throwing onProgress ->
  forall (i length : nat) (st : LocalLLM.BatchState P),
  exists analyses p',
    LocalLLM.analyzeFrom endpoint P onProgress i length comments st =
      (Normal tt,
       {| LocalLLM.requests := 2 * nonblank (map LocalLLM.Item.comment comments) + LocalLLM.requests st;
          LocalLLM.progress := p';
          LocalLLM.results :=
            (LocalLLM.results st ++
             flat_map (fun cr => [(LocalLLM.Item.id (fst cr), snd cr);
                                  fallback_entry (LocalLLM.Item.id (fst cr))])
                      (combine comments analyses))%list |}) /\
    List.length analyses = List.length comments.
Proof.
  intro Ht. induction comments as [|c rest IH]; intros i length st.
  - exists [], (LocalLLM.progress st). split; [|reflexivity].
    simpl. unfold ret. rewrite app_nil_r. destruct st; reflexivity.
  - destruct (analyzeItem_throwing i length c st Ht) as [r [p1 Hr]].
    simpl. unfold bind at 1. rewrite Hr.
    match goal with
    | |- context [LocalLLM.analyzeFrom _ _ _ _ _ _ ?st1] =>
        destruct (IH (S i) length st1) as [analyses [p' [Hout Hlen]]]
    end.
    exists (r :: analyses), p'. split.
    + rewrite Hout. cbn [LocalLLM.requests LocalLLM.progress LocalLLM.results].
      rewrite nonblank_cons, <- app_assoc. reflexivity.
    + simpl. now rewrite Hlen.
Qed.

(** Under a progress callback that throws, [LocalLLM.analyzeBatch] still
    returns, but with two entries per comment: the analysis that the
    [try] block pushed before the callback ran, followed by the fallback
    entry that the [catch] block pushes under the same id. *)
Theorem analyzeBatch_throwing_callback_doubles
    (comments : list LocalLLM.Item.t) (st : LocalLLM.BatchState P) :
  throwing onProgress ->
  exists analyses st',
    LocalLLM.analyzeBatch endpoint P onProgress comments st =
      (Normal
         (flat_map (fun cr => [(LocalLLM.Item.id (fst cr), snd cr);
                               fallback_entry (LocalLLM.Item.id (fst cr))])
                   (combine comments analyses)),
       st') /\
    List.length analyses = List.length comments /\
    LocalLLM.requests st' =
      (2 * nonblank (map LocalLLM.Item.comment comments) + LocalLLM.requests st)%nat.
Proof.
  intro Ht.
  destruct (analyzeFrom_throwing comments Ht 0 (List.length comments)
              {| LocalLLM.requests := LocalLLM.requests st;
                 LocalLLM.progress := LocalLLM.progress st;
                 LocalLLM.results := [] |}) as [analyses [p' [Hout Hlen]]].
  exists analyses. eexists. split; [|split; [exact Hlen|]].
  - unfold LocalLLM.analyzeBatch, bind. rewrite Hout. reflexivity.
  - reflexivity.
Qed.

(** One turn of the loop, whatever the callback does. *)
Lemma analyzeItem_pushes (i length : nat) (c : LocalLLM.Item.t)
    (st : LocalLLM.BatchState P) :
  exists pushed p',
    LocalLLM.analyzeItem endpoint P onProgress i length c st =
      (Normal tt,
       {| LocalLLM.requests :=
            after_requests 2 (LocalLLM.Item.comment c) (LocalLLM.requests st);
          LocalLLM.progress := p';
          LocalLLM.results := (LocalLLM.results st ++ pushed)%list |}) /\
    (1 <= List.length pushed <= 2)%nat /\
    Forall (fun entry => fst entry = LocalLLM.Item.id c) pushed.
Proof.
  destruct (local_analyzeComment_requests endpoint (LocalLLM.Item.comment c)
              (LocalLLM.Item.language c) (LocalLLM.requests st)) as [r Hr].
  unfold LocalLLM.analyzeItem, try_catch, bind, LocalLLM.in_requests,
    LocalLLM.push, LocalLLM.in_progress.
  rewrite Hr. cbn [LocalLLM.requests LocalLLM.progress LocalLLM.results].
  destruct onProgress as [callback|].
  - cbn [LocalLLM.requests LocalLLM.progress LocalLLM.results].
    destruct (callback (i + 1)%nat length (LocalLLM.progress st)) as [[[]|e] p'].
    + exists [(LocalLLM.Item.id c, r)], p'.
      split; [reflexivity|]. split; [simpl; lia|]. now repeat constructor.
    + exists [(LocalLLM.Item.id c, r); fallback_entry (LocalLLM.Item.id c)], p'.
      cbn [LocalLLM.requests LocalLLM.progress LocalLLM.results].
      rewrite <- app_assoc.
      split; [reflexivity|]. split; [simpl; lia|]. now repeat constructor.
  - exists [(LocalLLM.Item.id c, r)], (LocalLLM.progress st).
    split; [reflexivity|]. split; [simpl; lia|]. now repeat constructor.
Qed.

Lemma analyzeFrom_pushes (comments : list LocalLLM.Item.t) :
  forall (i length : nat) (st : LocalLLM.BatchState P),
  exists out p',
    LocalLLM.analyzeFrom endpoint P onProgress i length comments st =
      (Normal tt,
       {| LocalLLM.requests := 2 * nonblank (map LocalLLM.Item.comment comments) + LocalLLM.requests st;
          LocalLLM.progress := p';
          LocalLLM.results := (LocalLLM.results st ++ out)%list |}) /\
    (List.length comments <= List.length out <= 2 * List.length comments)%nat /\
    Forall (fun entry => In (fst entry) (map LocalLLM.Item.id comments)) out.
Proof.
  induction comments as [|c rest IH]; intros i length st.
  - exists [], (LocalLLM.progress st). split; [|split; [simpl; lia | constructor]].
    simpl. unfold ret. rewrite app_nil_r. destruct st; reflexivity.
  - destruct (analyzeItem_pushes i length c st) as [pushed [p1 [Hr [Hn Hid]]]].
    simpl. unfold bind at 1. rewrite Hr.
    match goal with
    | |- context [LocalLLM.analyzeFrom _ _ _ _ _ _ ?st1] =>
        destruct (IH (S i) length st1) as [out [p' [Hout [Hlen Hin]]]]
    end.
    exists (pushed ++ out)%list, p'. split; [|split].
    + rewrite Hout. cbn [LocalLLM.requests LocalLLM.progress LocalLLM.results].
      rewrite nonblank_cons, <- app_assoc. reflexivity.
    + rewrite length_app. simpl. lia.
    + apply Forall_app. split.
      * eapply Forall_impl; [|exact Hid]. intros e ->. now left.
      * eapply Forall_impl; [|exact Hin]. intros e He. now right.
Qed.

(** [LocalLLM.analyzeBatch] never raises, whatever the endpoint and the
    progress callback do: it returns between n and 2n entries for n
    comments, each under the id of one of the comments, after two requests
    for every comment that is not blank. *)
Theorem analyzeBatch_always_returns
    (comments : list LocalLLM.Item.t) (st : LocalLLM.BatchState P) :
  exists out st',
    LocalLLM.analyzeBatch endpoint P onProgress comments st = (Normal out, st') /\
    LocalLLM.results st' = out /\
    LocalLLM.requests st' =
      (2 * nonblank (map LocalLLM.Item.comment comments) + LocalLLM.requests st)%nat /\
    (List.length comments <= List.length out <= 2 * List.length comments)%nat /\
    Forall (fun entry => In (fst entry) (map LocalLLM.Item.id comments)) out.
Proof.
  destruct (analyzeFrom_pushes comments 0 (List.length comments)
              {| LocalLLM.requests := LocalLLM.requests st;
                 LocalLLM.progress := LocalLLM.progress st;
                 LocalLLM.results := [] |}) as [out [p' [Hout [Hlen Hin]]]].
  exists out. eexists. split.
  - unfold LocalLLM.analyzeBatch, bind. rewrite Hout. reflexivity.
  - repeat split; try assumption; apply Hlen.
Qed.

End LocalBatch.
(** The batch of three comments under a callback that records its
    arguments: three entries, four requests, three progress calls. *)
Lemma analyzeBatch_one_result_witness :
  exists out,
    LocalLLM.analyzeBatch (rt := Examples.host)
        (Examples.always (Examples.sentiment_reply "positive"))
        (list (nat * nat)) (Some Examples.record_progress)
        Examples.batch Examples.fresh_batch =
      (Normal out,
       {| LocalLLM.requests := 4%nat;
          LocalLLM.progress := [(1, 3); (2, 3); (3, 3)]%nat;
          LocalLLM.results := out |}) /\
    map fst out = ["r1"; "r2"; "r3"].
Proof.
  exact (analyzeBatch_one_result_per_comment (rt := Examples.host)
           (Examples.always (Examples.sentiment_reply "positive"))
           (list (nat * nat)) (Some Examples.record_progress)
           Examples.batch Examples.fresh_batch (fun _ _ _ => eq_refl)).
Defined.

(** The same batch under a callback that throws: six entries. *)
Lemma analyzeBatch_throwing_callback_witness :
  exists analyses st',
    LocalLLM.analyzeBatch (rt := Examples.host)
        (Examples.always (Examples.sentiment_reply "positive"))
        (list (nat * nat)) (Some Examples.failing_progress)
        Examples.batch Examples.fresh_batch =
      (Normal
         (flat_map (fun cr => [(LocalLLM.Item.id (fst cr), snd cr);
                               fallback_entry (LocalLLM.Item.id (fst cr))])
                   (combine Examples.batch analyses)),
       st') /\
    List.length analyses = 3%nat /\
    LocalLLM.requests st' = 4%nat.
Proof.
  exact (analyzeBatch_throwing_callback_doubles (rt := Examples.host)
           (Examples.always (Examples.sentiment_reply "positive"))
           (list (nat * nat)) (Some Examples.failing_progress)
           Examples.batch Examples.fresh_batch
           (fun _ _ _ => ex_intro _ "Error: progress sink closed" eq_refl)).
Defined.

(* ------------------------------------------------------------------ *)
(** ** The combined analysis of [OllamaLLM] and its callers            *)
(* ------------------------------------------------------------------ *)

Section OllamaAnalysis.

Variable endpoint : Endpoint.

Lemma ollama_analyzeSentiment_requests (comment language : string) (sent : nat) :
  exists r,
    OllamaLLM.analyzeSentiment endpoint comment language sent =
      (Normal r, after_requests 1 comment sent).
Proof.
  unfold OllamaLLM.analyzeSentiment, after_requests, blank.
  destruct ((comment =? "") || (String.length (trim comment) =? 0)%nat).
  { eexists. reflexivity. }
  cbv zeta. unfold try_catch, bind, OllamaLLM.generate, lift_completion, ret.
  match goal with
  | |- context [endpoint sent ?p] => destruct (endpoint sent p) as [reply|]
  end; [|eexists; reflexivity].
  destruct (match_braces_lazy (trim reply)) as [json|]; [|eexists; reflexivity].
  destruct (JSON_parse json) as [parsed|]; [|eexists; reflexivity].
  destruct (get parsed "sentiment"); [|eexists; reflexivity].
  destruct (get parsed "explanation"); eexists; reflexivity.
Qed.

Lemma ollama_extractTopics_requests (comment language : string) (sent : nat) :
  exists r,
    OllamaLLM.extractTopics endpoint comment language sent =
      (Normal r, after_requests 1 comment sent).
Proof.
  unfold OllamaLLM.extractTopics, after_requests, blank.
  destruct ((comment =? "") || (String.length (trim comment) =? 0)%nat).
  { eexists. reflexivity. }
  cbv zeta. unfold try_catch, bind, OllamaLLM.generate, lift_completion, ret.
  match goal with
  | |- context [endpoint sent ?p] => destruct (endpoint sent p) as [reply|]
  end; [|eexists; reflexivity].
  assert (Hfallback :
    exists r, (let (c, s') := OllamaLLM.topicsFallback (trim reply) (S sent) in
               match c with
               | Normal a => (Normal a, s')
               | Throw e => (Normal (OllamaLLM.general (1 # 10)), s')
               end) = (Normal r, S sent)).
  { unfold OllamaLLM.topicsFallback, bind, lift_completion, ret.
    destruct (OllamaLLM.match_topics_array (trim reply)) as [m|]; [|eauto].
    destruct (JSON_parse _) as [parsed|]; [|eauto].
    destruct (get parsed "topics"); eauto. }
  destruct Hfallback as (rf & Hf).
  destruct (OllamaLLM.match_topics_object (trim reply)) as [json|];
    [|exists rf; exact Hf].
  destruct (JSON_parse _) as [parsed|]; [|eexists; reflexivity].
  destruct (get parsed "topics") as [t|]; [|eexists; reflexivity].
  destruct (truthy t && OllamaLLM.isArray t);
    [eexists; reflexivity | exists rf; exact Hf].
Qed.

Lemma ollama_analyzeComment_requests (comment language : string) (sent : nat) :
  exists r,
    OllamaLLM.analyzeComment endpoint comment language sent =
      (Normal r, after_requests 2 comment sent).
Proof.
  destruct (ollama_analyzeSentiment_requests comment language sent) as [s Hs].
  destruct (ollama_extractTopics_requests comment language
              (after_requests 1 comment sent)) as [t Ht].
  rewrite after_requests_twice in Ht.
  exists (s, t). unfold OllamaLLM.analyzeComment, try_catch, bind.
  now rewrite Hs, Ht.
Qed.

(** [OllamaLLM.analyzeComment] never raises and never takes its [catch]
    branch: it returns the result of [analyzeSentiment] paired with the
    result of [extractTopics] on the following request number, having
    sent no request for a blank comment and exactly two otherwise. *)
Theorem ollama_analyzeComment_pairs_both_results
    (comment language : string) (sent : nat) :
  exists s t,
    OllamaLLM.analyzeSentiment endpoint comment language sent =
      (Normal s, after_requests 1 comment sent) /\
    OllamaLLM.extractTopics endpoint comment language (after_requests 1 comment sent) =
      (Normal t, after_requests 2 comment sent) /\
    OllamaLLM.analyzeComment endpoint comment language sent =
      (Normal (s, t), after_requests 2 comment sent).
Proof.
  destruct (ollama_analyzeSentiment_requests comment language sent) as [s Hs].
  destruct (ollama_extractTopics_requests comment language
              (after_requests 1 comment sent)) as [t Ht].
  rewrite after_requests_twice in Ht.
  exists s, t. split; [exact Hs|]. split; [exact Ht|].
  unfold OllamaLLM.analyzeComment, try_catch, bind.
  now rewrite Hs, Ht.
Qed.

Lemma analyze_each_appends (comments : list Routes.Item.t) :
  forall (results : list (OllamaLLM.SentimentResult * OllamaLLM.TopicResult))
         (sent : nat),
  exists out,
    Routes.analyze_each endpoint comments results sent =
      (Normal (results ++ out)%list,
       (2 * nonblank (map Routes.item_comment comments) + sent)%nat) /\
    List.length out = List.length comments.
Proof.
  induction comments as [|c rest IH]; intros results sent.
  - exists []. rewrite app_nil_r. split; reflexivity.
  - destruct (ollama_analyzeComment_requests (Routes.item_comment c)
                (Routes.item_language c) sent) as [r Hr].
    destruct (IH (results ++ [r])%list
                (after_requests 2 (Routes.item_comment c) sent))
      as [out [Hout Hlen]].
    exists (r :: out). split; [|simpl; now rewrite Hlen].
    simpl. unfold bind. rewrite Hr, Hout.
    cbn [map]. rewrite nonblank_cons, <- app_assoc. reflexivity.
Qed.

(** [POST /api/analyze-batch] never answers 500 for a body whose comments
    are objects: it answers with one result per element of
    [req.body.comments], after two requests for every element whose
    comment is not blank; when [comments] is not an array it answers with
    no results and sends no request. *)
Theorem analyze_batch_one_result_per_item
    (comments : option (list Routes.Item.t)) (sent : nat) :
  exists results,
    Routes.analyze_batch endpoint comments sent =
      (Normal (Routes.Json results),
       match comments with
       | Some l => (2 * nonblank (map Routes.item_comment l) + sent)%nat
       | None => sent
       end) /\
    List.length results =
      match comments with
      | Some l => List.length l
      | None => 0%nat
      end.
Proof.
  unfold Routes.analyze_batch, try_catch, bind.
  destruct comments as [l|].
  - destruct (analyze_each_appends l [] sent) as [out [Hout Hlen]].
    exists out. now rewrite Hout.
  - exists []. split; reflexivity.
Qed.

(** [POST /api/analyze-comment] never answers 500: it answers with the
    pair of results of [OllamaLLM.analyzeComment] for the comment and
    [language || 'en'], a blank or absent comment costing no request. *)
Theorem analyze_comment_never_fails (body : Routes.Item.t) (sent : nat) :
  exists r,
    OllamaLLM.analyzeComment endpoint (Routes.item_comment body)
        (Routes.item_language body) sent =
      (Normal r, after_requests 2 (Routes.item_comment body) sent) /\
    Routes.analyze_comment endpoint body sent =
      (Normal (Routes.Json r), after_requests 2 (Routes.item_comment body) sent).
Proof.
  destruct (ollama_analyzeComment_requests (Routes.item_comment body)
              (Routes.item_language body) sent) as [r Hr].
  exists r. split; [exact Hr|].
  unfold Routes.analyze_comment, try_catch, bind. now rewrite Hr.
Qed.

Lemma analysis_analyzeComment_returns (comment : string) (rating : Z) (sent : nat) :
  exists s t,
    OllamaLLM.analyzeComment endpoint comment "en" sent =
      (Normal (s, t), after_requests 2 comment sent) /\
    Analysis.analyzeComment endpoint comment rating sent =
      (Normal {| Analysis.sentiment := OllamaLLM.sentiment s;
                 Analysis.confidence := 4 # 5;
                 Analysis.explanation := OllamaLLM.explanation s;
                 Analysis.topics := or_else (OllamaLLM.topics t) (JArray []);
                 Analysis.language := "en" |},
       after_requests 2 comment sent).
Proof.
  destruct (ollama_analyzeComment_requests comment "en" sent) as [[s t] Hr].
  exists s, t. split; [exact Hr|].
  unfold Analysis.analyzeComment, try_catch, bind. now rewrite Hr.
Qed.

(** [analyzeComment] of [analysis.ts] never raises and never returns its
    ['Error analyzing'] default: it relabels the result that
    [ollamaLLM.analyzeComment] gives for the comment in language ['en'],
    with the confidence 0.8 and the language ['en'] whatever the reply
    was, and its [rating] argument has no effect. *)
Theorem analysis_analyzeComment_relabels
    (comment : string) (rating : Z) (sent : nat) :
  exists s t,
    OllamaLLM.analyzeComment endpoint comment "en" sent =
      (Normal (s, t), after_requests 2 comment sent) /\
    Analysis.analyzeComment endpoint comment rating sent =
      (Normal {| Analysis.sentiment := OllamaLLM.sentiment s;
                 Analysis.confidence := 4 # 5;
                 Analysis.explanation := OllamaLLM.explanation s;
                 Analysis.topics := or_else (OllamaLLM.topics t) (JArray []);
                 Analysis.language := "en" |},
       after_requests 2 comment sent) /\
    (forall rating',
       Analysis.analyzeComment endpoint comment rating' sent =
       Analysis.analyzeComment endpoint comment rating sent).
Proof.
  destruct (analysis_analyzeComment_returns comment rating sent)
    as [s [t [Hr Ha]]].
  exists s, t. split; [exact Hr|]. split; [exact Ha|].
  intro rating'. reflexivity.
Qed.

Lemma analyzeAll_one_per_comment (comments : list (string * JSValue)) :
  forall sent : nat,
  exists out,
    Analysis.analyzeAll endpoint comments sent =
      (Normal out, (2 * nonblank (map fst comments) + sent)%nat) /\
    map fst out = map snd comments /\
    Forall (fun entry =>
              Analysis.confidence (snd entry) = 4 # 5 /\
              Analysis.language (snd entry) = "en") out.
Proof.
  induction comments as [|[comment id] rest IH]; intro sent.
  - exists []. repeat split. constructor.
  - destruct (analysis_analyzeComment_returns comment 5 sent) as [s [t [_ Ha]]].
    destruct (IH (after_requests 2 comment sent)) as [out [Hout [Hids Hall]]].
    eexists. split; [|split].
    + simpl. unfold bind. rewrite Ha, Hout. unfold ret.
      rewrite nonblank_cons. reflexivity.
    + simpl. now rewrite Hids.
    + constructor; [split; reflexivity | exact Hall].
Qed.

(** [analyzeBatchComments] never raises and never takes its [catch]
    branch: it returns one entry per comment, in the order of the
    comments and under their ids, each with confidence 0.8 and language
    ['en'], after two requests for every comment that is not blank. *)
Theorem analyzeBatchComments_one_entry_per_comment
    (comments : list (string * JSValue)) (sent : nat) :
  exists out,
    Analysis.analyzeBatchComments endpoint comments sent =
      (Normal out, (2 * nonblank (map fst comments) + sent)%nat) /\
    map fst out = map snd comments /\
    Forall (fun entry =>
              Analysis.confidence (snd entry) = 4 # 5 /\
              Analysis.language (snd entry) = "en") out.
Proof.
  destruct (analyzeAll_one_per_comment comments sent) as [out [Hout H]].
  exists out. split; [|exact H].
  unfold Analysis.analyzeBatchComments, try_catch. now rewrite Hout.
Qed.

(** [POST /api/test-ollama] reads [comment], [text] and [language] from
    a body it does not validate; the text it tests is
    [comment || text || "This service is amazing!"].  When that text is
    not a string (a truthy number, boolean, array or object), the guard
    of [analyzeSentiment] throws at [comment.trim()] and the route
    answers 500 without a request.  When the text is a blank string the
    route answers [success: true] without a request, whatever the
    language is.  When the text is a string and [language || 'en'] is a
    string, the route answers [success: true] with the results of
    [analyzeSentiment] and then [extractTopics], after exactly two
    requests unless the text is blank.  A body whose comment and text
    are both falsy is answered for the default text. *)
Theorem test_ollama_answers
    (ToPropertyKey : JSValue -> Completion string)
    (body : Routes.TestOllama.Body) (sent : nat) :
  truthy (Routes.testText body) = true /\
  ((forall c, Routes.testText body <> JString c) ->
   Routes.test_ollama endpoint ToPropertyKey body sent =
     (Normal (Routes.Status500 "TypeError: comment.trim is not a function"),
      sent)) /\
  (forall c,
     Routes.testText body = JString c ->
     blank c = true ->
     exists s t,
       Routes.test_ollama endpoint ToPropertyKey body sent =
         (Normal
            (Routes.Json
               {| Routes.TestOllama.success := true;
                  Routes.TestOllama.testText := JString c;
                  Routes.TestOllama.testLanguage := Routes.testLanguage body;
                  Routes.TestOllama.sentiment := s;
                  Routes.TestOllama.topics := t;
                  Routes.TestOllama.model := "qwen2.5:3b" |}),
          sent)) /\
  (forall c l,
     Routes.testText body = JString c ->
     Routes.testLanguage body = JString l ->
     exists s t,
       Routes.test_ollama endpoint ToPropertyKey body sent =
         (Normal
            (Routes.Json
               {| Routes.TestOllama.success := true;
                  Routes.TestOllama.testText := JString c;
                  Routes.TestOllama.testLanguage := JString l;
                  Routes.TestOllama.sentiment := s;
                  Routes.TestOllama.topics := t;
                  Routes.TestOllama.model := "qwen2.5:3b" |}),
          after_requests 2 c sent) /\
       OllamaLLM.analyzeSentiment endpoint c l sent =
         (Normal s, after_requests 1 c sent) /\
       OllamaLLM.extractTopics endpoint c l (after_requests 1 c sent) =
         (Normal t, after_requests 2 c sent)) /\
  (truthy (Routes.TestOllama.comment body) = false ->
   truthy (Routes.TestOllama.text body) = false ->
   Routes.testText body = JString "This service is amazing!" /\
   after_requests 2 "This service is amazing!" sent = S (S sent)).
Proof.
  split; [|split; [|split; [|split]]].
  - unfold Routes.testText, or_else.
    destruct (truthy (Routes.TestOllama.comment body)) eqn:Hc; [exact Hc|].
    destruct (truthy (Routes.TestOllama.text body)) eqn:Hx; [exact Hx|].
    reflexivity.
  - intro Hnot.
    assert (Htruthy : truthy (Routes.testText body) = true).
    { unfold Routes.testText, or_else.
      destruct (truthy (Routes.TestOllama.comment body)) eqn:Hc; [exact Hc|].
      destruct (truthy (Routes.TestOllama.text body)) eqn:Hx; [exact Hx|].
      reflexivity. }
    unfold Routes.test_ollama, try_catch, bind, Routes.unchecked.
    destruct (Routes.testText body) as [| |b|n|c|l|o];
      try (rewrite Htruthy; reflexivity).
    now elim (Hnot c).
  - intros c Hc Hblank. unfold blank in Hblank.
    destruct (ollama_analyzeSentiment_requests c "en" sent) as [s Hs].
    destruct (ollama_extractTopics_requests c "en" (after_requests 1 c sent))
      as [t Ht].
    rewrite after_requests_twice in Ht.
    unfold after_requests, blank in Hs, Ht. rewrite Hblank in Hs, Ht.
    exists s, t.
    unfold Routes.test_ollama, try_catch, bind, Routes.unchecked.
    now rewrite Hc, Hblank, Hs, Ht.
  - intros c l Hc Hl.
    destruct (ollama_analyzeSentiment_requests c l sent) as [s Hs].
    destruct (ollama_extractTopics_requests c l (after_requests 1 c sent))
      as [t Ht].
    rewrite after_requests_twice in Ht.
    exists s, t. split; [|split; [exact Hs | exact Ht]].
    unfold Routes.test_ollama, try_catch, bind, Routes.unchecked.
    rewrite Hc, Hl.
    destruct ((c =? "") || (String.length (trim c) =? 0)%nat) eqn:Hblank.
    + destruct (ollama_analyzeSentiment_requests c "en" sent) as [s' Hs'].
      destruct (ollama_extractTopics_requests c "en" (after_requests 1 c sent))
        as [t' Ht'].
      rewrite after_requests_twice in Ht'.
      rewrite Hs', Ht'.
      assert (Hsame : s' = s /\ t' = t).
      { unfold OllamaLLM.analyzeSentiment in Hs, Hs'.
        unfold OllamaLLM.extractTopics in Ht, Ht'.
        rewrite Hblank in Hs, Hs', Ht, Ht'. unfold ret in Hs, Hs', Ht, Ht'.
        split; congruence. }
      destruct Hsame as [-> ->]. reflexivity.
    + now rewrite Hs, Ht.
  - intros Hc Hx. split; [|reflexivity].
    unfold Routes.testText, or_else. now rewrite Hc, Hx.
Qed.

End OllamaAnalysis.

(* ------------------------------------------------------------------ *)
(** ** The SQLite adapter: queries, inserts and row ids                *)
(* ------------------------------------------------------------------ *)

Section Adapter.

Import LocalDB.

Lemma insert_by_date_permutation (r : Row.t) (sorted : list Row.t) :
  Permutation (insert_by_date r sorted) (r :: sorted).
Proof.
  induction sorted as [|x rest IH]; simpl; [reflexivity|].
  destruct (String.leb (Row.date x) (Row.date r)); [reflexivity|].
  rewrite IH. apply perm_swap.
Qed.

Lemma insert_by_date_sorted (r : Row.t) (sorted : list Row.t) :
  Sorted by_date_desc sorted -> Sorted by_date_desc (insert_by_date r sorted).
Proof.
  induction 1 as [|x rest Hs IH Hhd]; simpl.
  - repeat constructor.
  - destruct (String.leb (Row.date x) (Row.date r)) eqn:Hle.
    + constructor; [now constructor|]. constructor. exact Hle.
    + constructor; [exact IH|].
      assert (Hxr : by_date_desc x r).
      { unfold by_date_desc.
        destruct (String.leb_total (Row.date x) (Row.date r)) as [H|H];
          congruence. }
      destruct rest as [|y rest]; simpl.
      * constructor. exact Hxr.
      * destruct (String.leb (Row.date y) (Row.date r));
          constructor; [exact Hxr|]. now inversion Hhd.
Qed.

Lemma order_by_date_desc_sorts (rows : list Row.t) :
  Permutation (order_by_date_desc rows) rows /\
  Sorted by_date_desc (order_by_date_desc rows).
Proof.
  induction rows as [|r rows [IHp IHs]]; simpl; [split; constructor|].
  split.
  - rewrite insert_by_date_permutation. now constructor.
  - now apply insert_by_date_sorted.
Qed.

(** On an open connection [getResponses()], called with no filter, returns
    every row of the table exactly once, ordered so that no row is
    followed by a row of a later date (the dates compared as the byte
    strings they are), and leaves the database as it is; the order of
    rows of equal date is not stated. *)
Theorem getResponses_returns_table_sorted (db : Database) :
  is_open db = true ->
  exists rows,
    getResponses db = (Normal rows, db) /\
    Permutation rows (nps_responses db) /\
    Sorted by_date_desc rows /\
    List.length rows = List.length (nps_responses db) /\
    (forall r, In r rows <-> In r (nps_responses db)).
Proof.
  intro Hopen. unfold getResponses. rewrite Hopen.
  eexists. split; [reflexivity|].
  destruct (order_by_date_desc_sorts (nps_responses db)) as [Hp Hs].
  split; [exact Hp|]. split; [exact Hs|]. split.
  - now apply Permutation_length.
  - intro r. split; apply Permutation_in; [exact Hp | symmetry; exact Hp].
Qed.

Lemma following_snoc (n : Z) (count : nat) :
  following n (S count) =
  (following n count ++ [(n + Z.of_nat count + 1)%Z])%list.
Proof.
  unfold following. rewrite seq_S, map_app. simpl.
  do 2 f_equal. lia.
Qed.

Lemma following_above (n : Z) (count : nat) (k : Z) :
  In k (following n count) -> (n < k <= n + Z.of_nat count)%Z.
Proof.
  unfold following. rewrite in_map_iff. intros [i [<- Hi]].
  apply in_seq in Hi. lia.
Qed.

Lemma following_NoDup (n : Z) (count : nat) : NoDup (following n count).
Proof.
  unfold following. apply Finite.Injective_map_NoDup; [|apply seq_NoDup].
  intros a b H. lia.
Qed.

Lemma apply_keeps_invariant (db0 : Database) (state : Database * list Z)
    (op : Operation) :
  history_invariant db0 state -> history_invariant db0 (apply state op).
Proof.
  destruct state as [db rowids]. intros (Hids & Hseq & Hbelow & Hrows).
  unfold history_invariant.
  simpl in *. destruct op as [now data| |]; simpl.
  - unfold insertResponse. destruct (is_open db); simpl.
    2:{ repeat split; assumption. }
    rewrite length_app, Nat.add_1_r. simpl. repeat split.
    + rewrite following_snoc, <- Hids, Hseq. reflexivity.
    + rewrite Hseq. lia.
    + red. simpl. apply Forall_app. split.
      * eapply Forall_impl; [|exact Hbelow]. simpl. intros r Hr. lia.
      * repeat constructor. simpl. lia.
    + intros r Hr. apply in_app_or in Hr as [Hr|[<-|[]]].
      * destruct (Hrows r Hr) as [H|H]; [now left|].
        right. apply in_or_app. now left.
      * right. apply in_or_app. right. now left.
  - unfold clearAll. destruct (is_open db); simpl.
    + repeat split; try assumption. constructor. intros r [].
    + repeat split; assumption.
  - repeat split; assumption.
Qed.

Lemma history_keeps_invariant (db0 : Database) (history : list Operation) :
  forall state,
    history_invariant db0 state ->
    history_invariant db0 (fold_left apply history state).
Proof.
  induction history as [|op history IH]; intros state H; [exact H|].
  simpl. apply IH. now apply apply_keeps_invariant.
Qed.

(** Row ids are never reused.  From a database whose sequence counter is
    not below any of its ids, after any history of [insertResponse],
    [clearAll] and [close] calls: the k-th insert that succeeded returned
    the k-th integer above the counter the history started from, so the
    returned ids are pairwise distinct, also across [clearAll], and
    differ from the id of every row the database held at the start; and
    every row of the table is one of the rows held at the start or
    carries one of the returned ids. *)
Theorem rowids_are_never_reused (db : Database) (history : list Operation) :
  ids_below_sequence db ->
  let rowids := snd (after db history) in
  let db' := fst (after db history) in
  rowids = following (seq_responses db) (List.length rowids) /\
  seq_responses db' = (seq_responses db + Z.of_nat (List.length rowids))%Z /\
  NoDup rowids /\
  (forall r, In r (nps_responses db) -> ~ In (Row.id r) rowids) /\
  ids_below_sequence db' /\
  (forall r, In r (nps_responses db') ->
             In r (nps_responses db) \/ In (Row.id r) rowids).
Proof.
  intro Hbelow. cbv zeta.
  assert (H0 : history_invariant db (db, [])).
  { repeat split; simpl; [lia | exact Hbelow | auto]. }
  destruct (history_keeps_invariant db history _ H0) as (Hids & Hseq & Hb & Hrows).
  fold (after db history) in *.
  split; [exact Hids|]. split; [exact Hseq|]. split; [|split; [|split]].
  - rewrite Hids. apply following_NoDup.
  - intros r Hr Hin. rewrite Hids in Hin. apply following_above in Hin.
    red in Hbelow. rewrite Forall_forall in Hbelow.
    specialize (Hbelow r Hr). simpl in Hbelow. lia.
  - exact Hb.
  - exact Hrows.
Qed.

(** An insert followed by a query.  On an open connection whose sequence
    counter is not below any id, [insertResponse] returns an id that no
    row of the table carries, and the following [getResponses()] returns
    the rows the table held together with one new row under that id.  The
    new row has the rating and the date of the argument, both timestamps
    equal to the current one, and each of the seven optional columns
    (comment, language, customer_id, visitor_id, platform, sentiment,
    sentiment_confidence) as the argument gives it, or NULL where the
    argument's value is absent, empty or zero. *)
Theorem insertResponse_then_getResponses
    (now : Date) (data : Data.t) (db : Database) :
  is_open db = true ->
  ids_below_sequence db ->
  exists rowid db' row rows,
    insertResponse now data db = (Normal rowid, db') /\
    getResponses db' = (Normal rows, db') /\
    Permutation rows (row :: nps_responses db) /\
    Sorted by_date_desc rows /\
    ~ In rowid (map Row.id (nps_responses db)) /\
    Row.id row = rowid /\
    Row.rating row = Data.rating data /\
    Row.date row = Data.date data /\
    Row.comment row = string_or_null (Data.comment data) /\
    Row.language row = string_or_null (Data.language data) /\
    Row.customer_id row = string_or_null (Data.customer_id data) /\
    Row.visitor_id row = string_or_null (Data.visitor_id data) /\
    Row.platform row = string_or_null (Data.platform data) /\
    Row.sentiment row = string_or_null (Data.sentiment data) /\
    Row.sentiment_confidence row =
      number_or_null (Data.sentiment_confidence data) /\
    Row.created_at row = now /\
    Row.updated_at row = now.
Proof.
  intros Hopen Hbelow. unfold insertResponse, getResponses. rewrite Hopen.
  cbv zeta. do 2 eexists.
  exists (inserted_row (seq_responses db + 1) now data).
  eexists. split; [reflexivity|]. simpl.
  destruct (order_by_date_desc_sorts
              (nps_responses db ++
               [inserted_row (seq_responses db + 1) now data])%list)
    as [Hp Hs].
  split; [reflexivity|]. split; [|split; [exact Hs|split]].
  - rewrite Hp. rewrite Permutation_app_comm. reflexivity.
  - intro Hin. apply in_map_iff in Hin as [r [Hid Hr]].
    red in Hbelow. rewrite Forall_forall in Hbelow.
    specialize (Hbelow r Hr). simpl in Hbelow. lia.
  - repeat split.
Qed.

End Adapter.

(* ------------------------------------------------------------------ *)
(** ** The upload routes                                               *)
(* ------------------------------------------------------------------ *)


Section UploadRoutes.

Import Routes.

Context {Lm : Type} {Client : ClassificationClient Lm}.
Variable clock : nat -> Date.
Variable isoDate : Date -> string.
Variable current_timestamp : LocalDB.Database -> Date.



Lemma date_or_today_returns (date : option string)
    (w : World (S := LocalDB.Database) (L := Lm)) :
  exists day d',
    date_or_today clock isoDate date w =
      (Normal day,
       {| store := store w; llm := llm w; aiTracker := aiTracker w;
          dates := d' |}) /\
    (forall d, date = Some d -> d <> "" -> day = d).
Proof.
  assert (Htoday : exists day d',
            today clock isoDate w =
              (Normal day,
               {| store := store w; llm := llm w; aiTracker := aiTracker w;
                  dates := d' |})).
  { do 2 eexists. reflexivity. }
  destruct Htoday as (day & d' & Htoday).
  unfold date_or_today. destruct date as [d|].
  - destruct (d =? "") eqn:Hd.
    + exists day, d'. split; [exact Htoday|].
      intros d0 [= <-] Hne. apply String.eqb_eq in Hd. contradiction.
    + exists d, (dates w). split; [destruct w; reflexivity|].
      now intros d0 [= <-] _.
  - exists day, d'. split; [exact Htoday | discriminate].
Qed.

Section Loop.

Variable E : Type.
Variable date_of : E -> option string.
Variable build : E -> string -> LocalDB.Data.t.


Lemma insert_each_closed (arr : list E) :
  forall (inserted : nat) (w : World (S := LocalDB.Database) (L := Lm)),
    LocalDB.is_open (store w) = false ->
    exists d',
      insert_each clock isoDate current_timestamp date_of build arr inserted w =
        (Normal inserted,
         {| store := store w; llm := llm w; aiTracker := aiTracker w;
            dates := d' |}).
Proof.
  induction arr as [|r rest IH]; intros inserted w Hclosed.
  - exists (dates w). destruct w; reflexivity.
  - destruct (date_or_today_returns (date_of r) w) as (day & d1 & Hday & _).
    simpl insert_each. unfold bind at 1. unfold try_catch, bind at 1.
    rewrite Hday. unfold bind, Routes.insertResponse, in_store,
      LocalDB.insertResponse.
    cbn [store llm aiTracker dates]. rewrite Hclosed. unfold ret at 1.
    match goal with
    | |- context [insert_each _ _ _ _ _ rest _ ?w1] =>
        destruct (IH inserted w1 Hclosed) as (d' & Hloop)
    end.
    exists d'. exact Hloop.
Qed.

End Loop.









(** The bulk route validates the whole array before it inserts
    anything: one entry with a rating outside 0..10 makes it answer 400
    ['Invalid data'], and no entry is stored, no run is started and the
    clock is not read. *)
Theorem bulk_upload_rejects_out_of_range_rating
    (data : list Bulk.t) (entry : Bulk.t)
    (w : World (S := LocalDB.Database) (L := Lm)) :
  In entry data ->
  (Bulk.rating entry < 0 \/ 10 < Bulk.rating entry)%Z ->
  bulk clock isoDate current_timestamp data w =
    (Normal (Status400 "Invalid data"), w).
Proof.
  intros Hin Hrange.
  assert (Hparse : parse_bulk data = Throw ZodError).
  { unfold parse_bulk.
    destruct (forallb _ data) eqn:Hall; [|reflexivity].
    rewrite forallb_forall in Hall. specialize (Hall entry Hin).
    apply andb_true_iff in Hall as [H0 H10]. lia. }
  unfold bulk, try_catch, bind, lift_completion. rewrite Hparse. reflexivity.
Qed.

(** An upload to a database whose connection is closed is answered as a
    success: every insert throws inside the loop's own [try], so the
    bulk route answers 200 [{inserted: 0}] and starts no run, and the CSV
    route answers 200 [{message: 'Inserted 0', inserted: 0}] and starts
    a run whose scan fails; neither touches the database, the tracker or
    the classification client. *)
Theorem uploads_to_closed_database_report_success
    (data : list Bulk.t) (arr : list Csv.t)
    (w : World (S := LocalDB.Database) (L := Lm)) :
  LocalDB.is_open (store w) = false ->
  parse_bulk data = Normal data ->
  (exists d',
     bulk clock isoDate current_timestamp data w =
       (Normal (Inserted 0),
        {| store := store w; llm := llm w; aiTracker := aiTracker w;
           dates := d' |})) /\
  (exists d',
     csv clock isoDate current_timestamp arr w =
       (Normal (Json ("Inserted 0", 0%nat)),
        {| store := store w; llm := llm w; aiTracker := aiTracker w;
           dates := d' |})).
Proof.
  intros Hclosed Hvalid. split.
  - destruct (insert_each_closed Bulk.t Bulk.date bulk_data data 0 w Hclosed)
      as (d' & Hloop).
    exists d'. unfold bulk, try_catch, bind, lift_completion.
    rewrite Hvalid, Hloop. reflexivity.
  - destruct (insert_each_closed Csv.t Csv.date csv_data arr 0 w Hclosed)
      as (d' & Hloop).
    exists d'. unfold csv, try_catch. unfold bind at 1. rewrite Hloop.
    unfold bind.
    match goal with
    | |- context [processCommentsWithAI clock ?w1] =>
        rewrite (run_with_failed_scan (Store := LocalDB_store) clock w1
                   LocalDB.not_open (store w))
    end.
    + reflexivity.
    + simpl. unfold LocalDB.getResponses. now rewrite Hclosed.
Qed.


End UploadRoutes.

(* ------------------------------------------------------------------ *)
(** ** Closed instances                                                *)
(* ------------------------------------------------------------------ *)

(** Three rows of three dates come back latest first. *)
Lemma getResponses_returns_table_sorted_witness :
  exists rows,
    LocalDB.getResponses (Examples.database Examples.dated_rows) =
      (Normal rows, Examples.database Examples.dated_rows) /\
    map LocalDB.Row.id rows = [2; 1; 3]%Z /\
    Sorted by_date_desc rows.
Proof.
  destruct (getResponses_returns_table_sorted
              (Examples.database Examples.dated_rows) eq_refl)
    as (rows & Hrows & _ & Hsorted & _).
  exists rows. split; [exact Hrows|]. split; [|exact Hsorted].
  injection Hrows as <-. vm_compute. reflexivity.
Defined.

(** From a table that holds the row 1: the inserts before and after a
    [clearAll] return 2 and 3, and the insert after [close] returns
    nothing. *)
Lemma rowids_are_never_reused_witness :
  snd (LocalDB.after (Examples.database [Examples.pending_row]) Examples.history) =
    [2; 3]%Z /\
  NoDup (snd (LocalDB.after (Examples.database [Examples.pending_row])
                Examples.history)).
Proof.
  assert (H : ids_below_sequence (Examples.database [Examples.pending_row])).
  { repeat constructor. simpl. lia. }
  destruct (rowids_are_never_reused (Examples.database [Examples.pending_row])
              Examples.history H) as (_ & _ & Hnodup & _).
  split; [vm_compute; reflexivity | exact Hnodup].
Defined.

(** An insert into the table that holds the row 1 returns the id 2, and
    the query that follows returns both rows. *)
Lemma insertResponse_then_getResponses_witness :
  exists rows db',
    LocalDB.insertResponse 1000%nat (Examples.insert_data (Some "Slow") None)
        (Examples.database [Examples.pending_row]) = (Normal 2%Z, db') /\
    LocalDB.getResponses db' = (Normal rows, db') /\
    List.length rows = 2%nat.
Proof.
  assert (H : ids_below_sequence (Examples.database [Examples.pending_row])).
  { repeat constructor. simpl. lia. }
  destruct (insertResponse_then_getResponses 1000%nat
              (Examples.insert_data (Some "Slow") None)
              (Examples.database [Examples.pending_row]) eq_refl H)
    as (rowid & db' & row & rows & Hinsert & Hget & Hperm & _).
  exists rows, db'. injection Hinsert as <- <-.
  split; [reflexivity|]. split; [exact Hget|].
  now rewrite (Permutation_length Hperm).
Defined.


(** A bulk body with the rating 11 in its second entry. *)
Lemma bulk_upload_rejects_witness :
  Routes.bulk (Client := Examples.client "positive") Examples.clock
      Examples.isoDate Examples.current_timestamp Examples.invalid_entries
      (Routes.boot (Examples.database [])) =
    (Normal (Routes.Status400 "Invalid data"),
     Routes.boot (Examples.database [])).
Proof.
  refine (bulk_upload_rejects_out_of_range_rating
            (Client := Examples.client "positive") Examples.clock
            Examples.isoDate Examples.current_timestamp Examples.invalid_entries
            (nth 1 Examples.invalid_entries
               {| Routes.Bulk.rating := 0; Routes.Bulk.comment := None;
                  Routes.Bulk.date := None; Routes.Bulk.language := None;
                  Routes.Bulk.sentiment := None; Routes.Bulk.themes := None |})
            (Routes.boot (Examples.database [])) _ _).
  - simpl. auto.
  - right. simpl. lia.
Defined.

(** Both uploads to the closed database. *)
Lemma uploads_to_closed_database_witness :
  fst (Routes.bulk (Client := Examples.client "positive") Examples.clock
         Examples.isoDate Examples.current_timestamp Examples.bulk_entries
         (Routes.boot Examples.closed_database)) =
    Normal (Routes.Inserted 0) /\
  fst (Routes.csv (Client := Examples.client "positive") Examples.clock
         Examples.isoDate Examples.current_timestamp Examples.csv_entries
         (Routes.boot Examples.closed_database)) =
    Normal (Routes.Json ("Inserted 0", 0%nat)).
Proof.
  destruct (uploads_to_closed_database_report_success
              (Client := Examples.client "positive") Examples.clock
              Examples.isoDate Examples.current_timestamp
              Examples.bulk_entries Examples.csv_entries
              (Routes.boot Examples.closed_database) eq_refl eq_refl)
    as [(d1 & Hbulk) (d2 & Hcsv)].
  split; [now rewrite Hbulk | now rewrite Hcsv].
Defined.

